(** * The [predict] task of arucotag-genom3

    A shallow embedding of [codels/arucotag_predict_codels.cc]: the three
    codels [predict_wait], [predict_main] and [predict_log], the data they
    work on ([cv::Mat] matrices, the filter bank, the log request) and the
    scheduling of the codels inside one period of the task.

    Conventions.
    - One scalar type [F] stands for the C++ [float] and [double]; its
      arithmetic is a parameter (class [Scalar]) about which nothing is
      assumed, so every statement holds for whatever rounding the machine
      applies.  No branch of the codels depends on the value of a scalar.
    - A [cv::Mat] is the list of its rows; the empty matrix is [[]].
      Shape errors, which OpenCV reports by throwing, are not modelled:
      the operations are total and a statement that depends on a shape
      says so.
    - The functions of OpenCV that the codels call but that are not part
      of the component ([Rodrigues], [Mat::inv], [KalmanFilter::predict],
      [KalmanFilter::correct]) are parameters (class [OpenCV]).
    - A codel that does not return (a loop that never ends, a division by
      zero) yields [None]. *)

From Stdlib Require Import ZArith QArith Lia Ascii String.
From stdpp Require Import base list strings pretty.

Local Close Scope Q_scope.
Local Open Scope nat_scope.

(** ** Scalars *)

Class Scalar (F : Type) := {
  lit  : Q -> F;           (* a numeric literal of the program text *)
  fadd : F -> F -> F;
  fsub : F -> F -> F;
  fmul : F -> F -> F;
  fdiv : F -> F -> F;
  fneg : F -> F;
  fcos : F -> F;
  fsin : F -> F
}.

Declare Scope F_scope.
Delimit Scope F_scope with F.
Infix "+" := fadd : F_scope.
Infix "-" := fsub : F_scope.
Infix "*" := fmul : F_scope.
Infix "/" := fdiv : F_scope.
Notation "- x" := (fneg x) : F_scope.

(** ** Matrices ([cv::Mat]) *)

Module Mat.
Section Ops.
Context {F : Type} `{Scalar F}.

Definition f0 : F := lit 0%Q.
Definition f1 : F := lit 1%Q.

Definition Mat : Type := list (list F).

Definition rows (m : Mat) : nat := length m.
Definition cols (m : Mat) : nat := match m with [] => 0 | r :: _ => length r end.

(* Mat::empty(): no element *)
Definition empty (m : Mat) : bool := (rows m =? 0) || (cols m =? 0).

(* Mat::zeros(r, c, CV_32F) *)
Definition zeros (r c : nat) : Mat := replicate r (replicate c f0).

(* Mat::eye(r, c, CV_32F) *)
Definition eye (r c : nat) : Mat :=
  map (fun i => map (fun j => if i =? j then f1 else f0) (seq 0 c)) (seq 0 r).

(* setIdentity(m, s): fills the matrix it is given, whatever its size *)
Definition setIdentity (m : Mat) (s : F) : Mat :=
  imap (fun i r => imap (fun j _ => if i =? j then s else f0) r) m.

(* m.at<float>(i, j) *)
Definition at2 (m : Mat) (i j : nat) : F := nth j (nth i m []) f0.

(* m.at<float>(i): the i-th element in row-major order *)
Definition at1 (m : Mat) (i : nat) : F := nth i (concat m) f0.

(* column j, as a list *)
Definition colv (j : nat) (m : Mat) : list F := map (fun r => nth j r f0) m.

(* m.col(j), as a one-column matrix *)
Definition col (m : Mat) (j : nat) : Mat := map (fun r => [nth j r f0]) m.

(* m.t() *)
Definition t (m : Mat) : Mat := map (fun j => colv j m) (seq 0 (cols m)).

(* the sum of products accumulated by a matrix product *)
Definition dot (u v : list F) : F :=
  fold_left (fun acc ab => (acc + fst ab * snd ab)%F) (zip u v) f0.

(* a * b *)
Definition mul (a b : Mat) : Mat :=
  map (fun r => map (fun j => dot r (colv j b)) (seq 0 (cols b))) a.

(* a + b *)
Definition add (a b : Mat) : Mat := zip_with (zip_with fadd) a b.

(* -a *)
Definition neg (a : Mat) : Mat := map (map fneg) a.

(* a * s, a / s and s * a for a scalar s *)
Definition muls (a : Mat) (s : F) : Mat := map (map (fun x => (x * s)%F)) a.
Definition divs (a : Mat) (s : F) : Mat := map (map (fun x => (x / s)%F)) a.
Definition smul (s : F) (a : Mat) : Mat := map (map (fun x => (s * x)%F)) a.

(* cv::Rect(x, y, width, height) *)
Record Rect := mkRect { rx : nat; ry : nat; rwidth : nat; rheight : nat }.

(* m(rect): rows ry .. ry+rheight-1, columns rx .. rx+rwidth-1 *)
Definition roi (m : Mat) (r : Rect) : Mat :=
  map (fun row => take (rwidth r) (drop (rx r) row)) (take (rheight r) (drop (ry r) m)).

(* src.copyTo(dst(rect)), and dst(rect) = expression: the elements of dst
   inside rect are overwritten *)
Definition copyTo_roi (src : Mat) (dst : Mat) (r : Rect) : Mat :=
  imap (fun i row =>
          imap (fun j x =>
                  if (ry r <=? i) && (i <? ry r + rheight r)
                     && (rx r <=? j) && (j <? rx r + rwidth r)
                  then at2 src (i - ry r) (j - rx r) else x) row) dst.

(* Mat_<float>(3,1) << a, b, c *)
Definition vec3 (a b c : F) : Mat := [[a]; [b]; [c]].

End Ops.
End Mat.

(** ** The OpenCV functions used by the codels *)

(* The public matrices of a [cv::KalmanFilter]. *)
Record KalmanFilter (F : Type) := mkKF {
  statePre : list (list F);
  statePost : list (list F);
  transitionMatrix : list (list F);
  controlMatrix : list (list F);
  measurementMatrix : list (list F);
  processNoiseCov : list (list F);
  measurementNoiseCov : list (list F);
  errorCovPre : list (list F);
  gain : list (list F);
  errorCovPost : list (list F)
}.
Arguments mkKF {F}.
Arguments statePre {F}.
Arguments statePost {F}.
Arguments transitionMatrix {F}.
Arguments controlMatrix {F}.
Arguments measurementMatrix {F}.
Arguments processNoiseCov {F}.
Arguments measurementNoiseCov {F}.
Arguments errorCovPre {F}.
Arguments gain {F}.
Arguments errorCovPost {F}.

(* [KF_predict kf u] and [KF_correct kf z] give the filter after the call
   and the matrix the call returns. *)
Class OpenCV (F : Type) := {
  Rodrigues  : list (list F) -> list (list F);
  inv        : list (list F) -> list (list F);
  KF_predict : KalmanFilter F -> list (list F) -> KalmanFilter F * list (list F);
  KF_correct : KalmanFilter F -> list (list F) -> KalmanFilter F * list (list F)
}.

(** ** Loops counted by a [uint16_t] *)

(* [for (uint16_t i = ...; i < n(s); i++) body], started at [i].  The body
   either goes on with a new state or leaves the function with a result.
   The counter wraps around at 2^16; [None] when the fuel is used up. *)
Fixpoint for_u16 {S R : Type} (fuel : nat) (n : S -> Z) (body : Z -> S -> S + R)
    (i : Z) (s : S) : option (S + R) :=
  match fuel with
  | O => None
  | Datatypes.S fuel' =>
      if (i <? n s)%Z then
        match body i s with
        | inl s' => for_u16 fuel' n body ((i + 1) mod 65536)%Z s'
        | inr r => Some (inr r)
        end
      else Some (inl s)
  end.

(* the body applied for the indices i, i+1, ..., i+k-1 *)
Fixpoint iterate {S : Type} (step : nat -> S -> S) (i k : nat) (s : S) : S :=
  match k with
  | O => s
  | Datatypes.S k' => iterate step (Datatypes.S i) k' (step i s)
  end.

(** ** Data of the component *)

(* std::to_string(int) *)
Definition to_string (n : Z) : string := pretty n.

Inductive genom_event :=
  | arucotag_wait | arucotag_main | arucotag_log
  | arucotag_pause_wait | arucotag_pause_main.

(* the two operations of a Kalman filter *)
Inductive kf_call := kf_predict | kf_correct.

Record timeval := mkTimeval { tv_sec : Z; tv_usec : Z }.

(* What the system answers to the calls of one execution of [predict_log]:
   whether aio_error gives EINPROGRESS, the value of aio_return, the value
   of aio_write and the time of day. *)
Record aio_env := mkAio {
  aio_error_in_progress : bool;
  aio_return : Z;
  aio_write_result : Z;
  log_time : timeval
}.

(* the string made of a newline character *)
Definition nl : string := String (ascii_of_nat 10) EmptyString.

Section Data.
Context {F : Type}.

Local Abbreviation Mat := (list (list F)).

(* the port [extrinsics] *)
Record extrinsics_data := mkExtrinsics {
  trans_tx : F; trans_ty : F; trans_tz : F;
  rot_roll : F; rot_pitch : F; rot_yaw : F
}.

(* the calibration kept in the IDS *)
Record arucotag_calib := mkCalib {
  K : Mat;
  B_R_C : Mat;
  B_t_C : Mat
}.

(* a symmetric 3x3 covariance, packed in an array of 6 *)
Record cov6 := mkCov6 { c0 : F; c1 : F; c2 : F; c3 : F; c4 : F; c5 : F }.

(* the port [drone] *)
Record drone_data := mkDrone {
  pos_x : F; pos_y : F; pos_z : F;
  att_qw : F; att_qx : F; att_qy : F; att_qz : F;
  vel_vx : F; vel_vy : F; vel_vz : F;
  avel_wx : F; avel_wy : F; avel_wz : F;
  vel_cov : cov6;
  avel_cov : cov6
}.

(* one entry of [pred->filters] *)
Record filter := mkFilter {
  id : Z;
  state : Mat;
  kf : KalmanFilter F
}.

Record arucotag_predictor := mkPred {
  filters : list filter;
  new_detections : list Z;
  meas : list Mat;
  C_T_B : Mat
}.

(* [arucotag_log_s]: the fields of the aio request that the codel uses,
   and the bookkeeping of the logger *)
Record arucotag_log_s := mkLog {
  aio_fildes : Z;
  aio_nbytes : Z;
  buffer : string;
  pending : bool;
  skipped : bool;
  decimation : Z;
  missed : Z;
  total : Z
}.

(* What a codel does to the outside, in the order it does it.
   [kalman i c] records a call of the Kalman filter of [filters[i]];
   [aio_write n buf ret] is the call of aio_write with [aio_nbytes = n]
   while [log->buffer] holds [buf], and what the call returned. *)
Inductive effect :=
  | pose_write (key : string) (x y z : F) (sec nsec : Z)
  | kalman (index : nat) (c : kf_call)
  | aio_write (nbytes : Z) (buf : string) (ret : Z)
  | warn_log
  | close_fd (fd : Z).

End Data.
Arguments extrinsics_data : clear implicits.
Arguments arucotag_calib : clear implicits.
Arguments cov6 : clear implicits.
Arguments drone_data : clear implicits.
Arguments filter : clear implicits.
Arguments arucotag_predictor : clear implicits.
Arguments effect : clear implicits.

(** ** The codels *)

Section Codels.
Context {F : Type} `{Scalar F} `{OpenCV F}.

(* Constants of the generated headers, which are not part of the codels:
   the period of the task in milliseconds, the modulus of the unsigned type
   of the counters of the logger, and what printf makes of the format
   [arucotag_log_fmt] with its seven arguments. *)
Variable arucotag_predict_period : Q.
Variable counter_modulus : Z.
Variable arucotag_log_fmt : Z -> Z -> Z -> Z -> F -> F -> F -> string.

Import Mat.

Local Abbreviation Mat := (list (list F)).
Local Abbreviation f2 := (lit 2%Q).

(* assignments to one field *)
Definition set_statePre (k : KalmanFilter F) (m : Mat) : KalmanFilter F :=
  mkKF m (statePost k) (transitionMatrix k) (controlMatrix k) (measurementMatrix k)
       (processNoiseCov k) (measurementNoiseCov k) (errorCovPre k) (gain k) (errorCovPost k).
Definition set_statePost (k : KalmanFilter F) (m : Mat) : KalmanFilter F :=
  mkKF (statePre k) m (transitionMatrix k) (controlMatrix k) (measurementMatrix k)
       (processNoiseCov k) (measurementNoiseCov k) (errorCovPre k) (gain k) (errorCovPost k).
Definition set_controlMatrix (k : KalmanFilter F) (m : Mat) : KalmanFilter F :=
  mkKF (statePre k) (statePost k) (transitionMatrix k) m (measurementMatrix k)
       (processNoiseCov k) (measurementNoiseCov k) (errorCovPre k) (gain k) (errorCovPost k).
Definition set_processNoiseCov (k : KalmanFilter F) (m : Mat) : KalmanFilter F :=
  mkKF (statePre k) (statePost k) (transitionMatrix k) (controlMatrix k) (measurementMatrix k)
       m (measurementNoiseCov k) (errorCovPre k) (gain k) (errorCovPost k).
Definition set_measurementNoiseCov (k : KalmanFilter F) (m : Mat) : KalmanFilter F :=
  mkKF (statePre k) (statePost k) (transitionMatrix k) (controlMatrix k) (measurementMatrix k)
       (processNoiseCov k) m (errorCovPre k) (gain k) (errorCovPost k).
Definition set_filters (p : arucotag_predictor F) (fs : list (filter F)) : arucotag_predictor F :=
  mkPred fs (new_detections p) (meas p) (C_T_B p).
Definition set_new_detections (p : arucotag_predictor F) (v : list Z) : arucotag_predictor F :=
  mkPred (filters p) v (meas p) (C_T_B p).
Definition set_C_T_B (p : arucotag_predictor F) (m : Mat) : arucotag_predictor F :=
  mkPred (filters p) (new_detections p) (meas p) m.

(** *** predict_wait *)

(* [extrinsics] is [Some] when the port was read and holds data.  The result
   is the calibration, the predictor, the flag [reset] and the event. *)
Definition predict_wait (extrinsics : option (extrinsics_data F))
    (calib : arucotag_calib F) (pred : arucotag_predictor F) (reset : bool)
    : arucotag_calib F * arucotag_predictor F * bool * genom_event :=
  match extrinsics with
  | Some e =>
      if negb (length (new_detections pred) =? 0) then
        let B_t_C' := vec3 (trans_tx e) (trans_ty e) (trans_tz e) in
        let r := rot_roll e in
        let p := rot_pitch e in
        let y := rot_yaw e in
        let B_R_C' : Mat := ([
          [ fcos p * fcos y; fsin r * fsin p * fcos y - fcos r * fsin y; fcos r * fsin p * fcos y + fsin r * fsin y ];
          [ fcos p * fsin y; fsin r * fsin p * fsin y + fcos r * fcos y; fcos r * fsin p * fsin y - fsin r * fcos y ];
          [ - fsin p;        fsin r * fcos p;                            fcos r * fcos p ] ])%F in
        let C_R_B := t B_R_C' in
        let tx := trans_tx e in
        let ty := trans_ty e in
        let tz := trans_tz e in
        let C_t_B_skew : Mat := ([
          [ f0;   - tz; ty   ];
          [ tz;   f0;   - tx ];
          [ - ty; tx;   f0   ] ])%F in
        let T1 := copyTo_roi C_R_B (C_T_B pred) (mkRect 0 0 3 3) in
        let T2 := copyTo_roi C_R_B T1 (mkRect 3 3 3 3) in
        let T3 := copyTo_roi C_t_B_skew T2 (mkRect 3 0 3 3) in
        (mkCalib (K calib) B_R_C' B_t_C', set_C_T_B pred T3, reset, arucotag_main)
      else (calib, pred, false, arucotag_pause_wait)
  | None => (calib, pred, false, arucotag_pause_wait)
  end.

(** *** predict_main *)

(* What step 1 of [predict_main] computes. *)
Record controls := mkControls {
  nostate : bool;
  control : Mat;
  process_cov : Mat;
  W_t_B : Mat;
  W_R_B : Mat
}.

(* 1- Get control.  [drone] is [Some] when the port was read and holds data;
   [process_cov] is declared without a size. *)
Definition get_control (pred : arucotag_predictor F) (drone : option (drone_data F)) : controls :=
  match drone with
  | None =>
      mkControls true (zeros 6 1) (setIdentity [] (lit (1 # 1000)%Q)) (zeros 3 1) (zeros 3 3)
  | Some d =>
      let control0 : Mat :=
        [ [vel_vx d]; [vel_vy d]; [vel_vz d]; [avel_wx d]; [avel_wy d]; [avel_wz d] ] in
      let W_t_B' := vec3 (pos_x d) (pos_y d) (pos_z d) in
      let qw := att_qw d in
      let qx := att_qx d in
      let qy := att_qy d in
      let qz := att_qz d in
      let W_R_B' : Mat := ([
        [ f1 - f2*qy*qy - f2*qz*qz; f2*qx*qy - f2*qz*qw;      f2*qx*qz + f2*qy*qw ];
        [ f2*qx*qy + f2*qz*qw;      f1 - f2*qx*qx - f2*qz*qz; f2*qy*qz - f2*qx*qw ];
        [ f2*qx*qz - f2*qy*qw;      f2*qy*qz + f2*qx*qw;      f1 - f2*qx*qx - f2*qy*qy ] ])%F in
      let B_R_W := t W_R_B' in
      let B_T_W0 := eye 6 6 in
      let B_T_W1 := copyTo_roi B_R_W B_T_W0 (mkRect 0 0 3 3) in
      let B_T_W := copyTo_roi B_R_W B_T_W1 (mkRect 3 3 3 3) in
      let control' := mul (mul (C_T_B pred) B_T_W) control0 in
      let vc := vel_cov d in
      let wc := avel_cov d in
      let Q_v : Mat := [
        [ c0 vc; c1 vc; c3 vc ];
        [ c1 vc; c2 vc; c2 vc ];
        [ c3 vc; c4 vc; c5 vc ] ] in
      let Q_w : Mat := [
        [ c0 wc; c1 wc; c3 wc ];
        [ c1 wc; c2 wc; c2 wc ];
        [ c3 wc; c4 wc; c5 wc ] ] in
      mkControls false control' (add Q_v Q_w) W_t_B' W_R_B'
  end.

(* std::find(v->begin(), v->end(), x) - v->begin(), [None] for v->end() *)
Fixpoint find (v : list Z) (x : Z) : option nat :=
  match v with
  | [] => None
  | y :: v' => if (y =? x)%Z then Some 0 else option_map Datatypes.S (find v' x)
  end.

(* pred->meas[k] *)
Definition meas_at (pred : arucotag_predictor F) (k : nat) : Mat := nth k (meas pred) [].

(* 1.3- the control matrix as a function of (dt, X) *)
Definition control_matrix (st : Mat) : Mat :=
  let dt := (lit arucotag_predict_period / lit 1000%Q)%F in
  let x := at1 st 0 in
  let y := at1 st 1 in
  let z := at1 st 2 in
  ([ [ - dt; f0;   f0;   f0;     - dt * z; dt * y   ];
     [ f0;   - dt; f0;   dt * z; f0;       - dt * x ];
     [ f0;   f0;   - dt; - dt * y; dt * x; f0       ] ])%F.

(* 3.1- the matrix J of the measurement covariance *)
Definition jacobian_J (length : F) (calib : arucotag_calib F) (C_R_M C_t_M : Mat) : Mat :=
  let c0 : Mat := ([
    [ - f1; f1;   f1; - f1 ];
    [ - f1; - f1; f1; f1   ];
    [ f0;   f0;   f0; f0   ] ])%F in
  let c := divs (muls c0 length) f2 in
  fold_left
    (fun J i =>
       let ci := col c i in
       let hi := mul (K calib) (add (mul C_R_M ci) C_t_M) in
       let J_pix : Mat := ([
         [ f1 / at1 hi 2; f0; - at1 hi 0 / at1 hi 2 / at1 hi 2 ];
         [ f0; f1 / at1 hi 2; - at1 hi 1 / at1 hi 2 / at1 hi 2 ] ])%F in
       let J_proj0 := zeros 3 6 in
       let J_proj1 := copyTo_roi (K calib) J_proj0 (mkRect 0 0 3 3) in
       let skew : Mat := ([
         [ f0;         - at1 ci 2; at1 ci 1   ];
         [ at1 ci 2;   f0;         - at1 ci 0 ];
         [ - at1 ci 1; at1 ci 0;   f0         ] ])%F in
       let J_proj := copyTo_roi (mul (mul (neg (K calib)) C_R_M) skew) J_proj1 (mkRect 3 0 3 3) in
       let J_full := mul J_pix J_proj in
       copyTo_roi (roi J_full (mkRect 0 0 3 2)) J (mkRect 0 (i * 2) 3 2))
    (seq 0 4) (zeros 8 3).

(* 3.1- the measurement covariance, from the measurement of the marker *)
Definition measurement_cov (length : F) (calib : arucotag_calib F) (m : Mat) : Mat :=
  let C_t_M := roi m (mkRect 0 0 1 3) in
  let C_Rod_M := roi m (mkRect 0 3 1 3) in
  let C_R_M := Rodrigues C_Rod_M in
  let sigma_p := lit 3%Q in
  let J := jacobian_J length calib C_R_M C_t_M in
  smul (sigma_p * sigma_p)%F (inv (mul (t J) J)).

(* Steps 1.3 to 4 of the body of the loop, for one filter: the filter after
   them and the calls of its Kalman filter.  The matrix that predict or
   correct returns shares its data with statePre or statePost; the codel
   reads it and assigns [state] anew before the Kalman filter writes again,
   so that [state] is modelled as a value. *)
Definition update_filter (length : F) (calib : arucotag_calib F) (pred : arucotag_predictor F)
    (c : controls) (f : filter F) : filter F * list kf_call :=
  let j := find (new_detections pred) (id f) in
  if empty (state f) then
    match j with
    | Some k =>
        let st := roi (meas_at pred k) (mkRect 0 0 1 3) in
        (mkFilter (id f) st (set_statePost (set_statePre (kf f) st) st), [])
    | None => (f, [])
    end
  else
    let kf1 := if negb (nostate c) then set_controlMatrix (kf f) (control_matrix (state f))
               else kf f in
    let kf2 := set_processNoiseCov kf1 (process_cov c) in
    let (kf3, st3) := KF_predict kf2 (control c) in
    match j with
    | Some k =>
        let C_t_M := roi (meas_at pred k) (mkRect 0 0 1 3) in
        let kf4 := set_measurementNoiseCov kf3 (measurement_cov length calib (meas_at pred k)) in
        let (kf5, st5) := KF_correct kf4 C_t_M in
        (mkFilter (id f) st5 kf5, [kf_predict; kf_correct])
    | None => (mkFilter (id f) st3 kf3, [kf_predict])
    end.

(* 5- Publish *)
Definition world_position (calib : arucotag_calib F) (c : controls) (st : Mat) : Mat :=
  add (mul (W_R_B c) (add (mul (B_R_C calib) st) (B_t_C calib))) (W_t_B c).

Definition publish (calib : arucotag_calib F) (c : controls) (tv : timeval) (f : filter F)
    : list (effect F) :=
  if empty (state f) then []
  else
    let W_r := world_position calib c (state f) in
    [pose_write (to_string (id f)) (at1 W_r 0) (at1 W_r 1) (at1 W_r 2)
                (tv_sec tv) (tv_usec tv * 1000)%Z].

(* The body of the main loop for the filter at index i; [gettimeofday i] is
   the time read in that iteration. *)
Definition main_body (length : F) (calib : arucotag_calib F) (c : controls)
    (gettimeofday : Z -> timeval) (i : Z) (s : arucotag_predictor F * list (effect F))
    : arucotag_predictor F * list (effect F) + genom_event :=
  let (pred, tr) := s in
  match filters pred !! Z.to_nat i with
  | Some f =>
      let (f', calls) := update_filter length calib pred c f in
      inl (set_filters pred (<[Z.to_nat i := f']> (filters pred)),
           tr ++ map (kalman (Z.to_nat i)) calls ++ publish calib c (gettimeofday i) f')
  | None => inl s
  end.

(* The body of the loop that looks for a filter with a state. *)
Definition any_body (i : Z) (pred : arucotag_predictor F) : arucotag_predictor F + genom_event :=
  match filters pred !! Z.to_nat i with
  | Some f => if negb (empty (state f)) then inr arucotag_log else inl pred
  | None => inl pred
  end.

Definition nfilters (pred : arucotag_predictor F) : Z := Z.of_nat (length (filters pred)).

(* A loop over the filters leaves at test number size+1 of its condition,
   or the counter has wrapped and it never leaves: that much fuel decides. *)
Definition loop_fuel (pred : arucotag_predictor F) : nat := Datatypes.S (length (filters pred)).

Definition predict_main (reset : bool) (length : F) (calib : arucotag_calib F)
    (pred : arucotag_predictor F) (drone : option (drone_data F))
    (gettimeofday : Z -> timeval)
    : option (arucotag_predictor F * list (effect F) * genom_event) :=
  if reset then Some (pred, [], arucotag_pause_wait)
  else
    let c := get_control pred drone in
    match for_u16 (loop_fuel pred) (fun s => nfilters (fst s))
                  (main_body length calib c gettimeofday) 0%Z (pred, []) with
    | Some (inl (pred1, tr)) =>
        let pred2 := set_new_detections pred1 [] in
        match for_u16 (loop_fuel pred2) nfilters any_body 0%Z pred2 with
        | Some (inr ev) => Some (pred2, tr, ev)
        | Some (inl _) => Some (pred2, tr, arucotag_pause_main)
        | None => None
        end
    | Some (inr ev) => Some (pred, [], ev)
    | None => None
    end.

(* The loops of [predict_main], filter by filter: the filter that an
   iteration leaves, the effects of the iteration, and the event that the
   last loop chooses. *)
Definition updated (length : F) (calib : arucotag_calib F) (pred : arucotag_predictor F)
    (c : controls) (f : filter F) : filter F :=
  fst (update_filter length calib pred c f).

Definition iteration_effects (length : F) (calib : arucotag_calib F)
    (pred : arucotag_predictor F) (c : controls) (gettimeofday : Z -> timeval)
    (i : nat) (f : filter F) : list (effect F) :=
  map (kalman i) (snd (update_filter length calib pred c f))
  ++ publish calib c (gettimeofday (Z.of_nat i)) (updated length calib pred c f).

Definition all_empty (fs : list (filter F)) : bool :=
  forallb (fun f => empty (state f)) fs.

Definition final_event (fs : list (filter F)) : genom_event :=
  if all_empty fs then arucotag_pause_main else arucotag_log.

(** *** predict_log *)

Definition set_fildes (l : arucotag_log_s) (fd : Z) : arucotag_log_s :=
  mkLog fd (aio_nbytes l) (buffer l) (pending l) (skipped l) (decimation l) (missed l) (total l).
Definition set_nbytes (l : arucotag_log_s) (n : Z) : arucotag_log_s :=
  mkLog (aio_fildes l) n (buffer l) (pending l) (skipped l) (decimation l) (missed l) (total l).
Definition set_buffer (l : arucotag_log_s) (b : string) : arucotag_log_s :=
  mkLog (aio_fildes l) (aio_nbytes l) b (pending l) (skipped l) (decimation l) (missed l) (total l).
Definition set_pending (l : arucotag_log_s) (b : bool) : arucotag_log_s :=
  mkLog (aio_fildes l) (aio_nbytes l) (buffer l) b (skipped l) (decimation l) (missed l) (total l).
Definition set_skipped (l : arucotag_log_s) (b : bool) : arucotag_log_s :=
  mkLog (aio_fildes l) (aio_nbytes l) (buffer l) (pending l) b (decimation l) (missed l) (total l).
Definition set_missed (l : arucotag_log_s) (n : Z) : arucotag_log_s :=
  mkLog (aio_fildes l) (aio_nbytes l) (buffer l) (pending l) (skipped l) (decimation l) n (total l).
Definition set_total (l : arucotag_log_s) (n : Z) : arucotag_log_s :=
  mkLog (aio_fildes l) (aio_nbytes l) (buffer l) (pending l) (skipped l) (decimation l) (missed l) n.

(* The first part of the codel: count the cycle and, on a cycle that the
   decimation selects, look at the pending request.  [None]: division by 0. *)
Definition log_poll (l : arucotag_log_s) (env : aio_env)
    : option (arucotag_log_s * list (effect F)) :=
  if (0 <=? aio_fildes l)%Z then
    let l := set_total l ((total l + 1) mod counter_modulus)%Z in
    if (decimation l =? 0)%Z then None
    else if (total l mod decimation l =? 0)%Z then
      if pending l then
        if negb (aio_error_in_progress env) then
          let l := set_pending l false in
          if (aio_return env <=? 0)%Z
          then Some (set_fildes l (-1)%Z, [warn_log; close_fd (aio_fildes l)])
          else Some (l, [])
        else
          Some (set_missed (set_skipped l true) ((missed l + 1) mod counter_modulus)%Z, [])
      else Some (l, [])
    else Some (l, [])
  else Some (l, []).

(* what snprintf prints for one filter, before it is cut to the buffer *)
Definition log_line (skip : bool) (tv : timeval) (f : filter F) : string :=
  (if skip then nl else EmptyString)
  +:+ arucotag_log_fmt (tv_sec tv) (tv_usec tv * 1000)%Z (id f) 1%Z
        (at1 (state f) 0) (at1 (state f) 1) (at1 (state f) 2)
  +:+ nl.

(* The body of the loop that fills the buffer.  snprintf writes at most 511
   characters in [char buffer[512]] and returns the length of the whole
   line.  The size of [log->buffer] is not modelled. *)
Definition log_body (pred : arucotag_predictor F) (tv : timeval) (i : Z) (l : arucotag_log_s)
    : arucotag_log_s + genom_event :=
  match filters pred !! Z.to_nat i with
  | Some f =>
      if empty (state f) then inl l
      else
        let line := log_line (skipped l) tv f in
        let buffer' := substring 0 511 line in
        let l := set_nbytes l (aio_nbytes l + Z.of_nat (String.length line))%Z in
        inl (if (i =? 0)%Z then set_buffer l buffer' else set_buffer l (buffer l +:+ buffer'))
  | None => inl l
  end.

Definition predict_log (pred : arucotag_predictor F) (log : option arucotag_log_s)
    (env : aio_env) : option (option arucotag_log_s * list (effect F) * genom_event) :=
  match log with
  | None => Some (None, [], arucotag_pause_main)
  | Some l =>
      match log_poll l env with
      | None => None
      | Some (l, tr) =>
          if (0 <=? aio_fildes l)%Z && negb (pending l) then
            let l := set_nbytes l 0%Z in
            match for_u16 (loop_fuel pred) (fun _ => nfilters pred)
                          (log_body pred (log_time env)) 0%Z l with
            | Some (inl l) =>
                let w := aio_write (aio_nbytes l) (buffer l) (aio_write_result env) in
                if negb (aio_write_result env =? 0)%Z
                then Some (Some (set_skipped (set_fildes l (-1)%Z) false),
                           tr ++ [w; warn_log; close_fd (aio_fildes l)], arucotag_pause_main)
                else Some (Some (set_skipped (set_pending l true) false),
                           tr ++ [w], arucotag_pause_main)
            | _ => None
            end
          else Some (Some l, tr, arucotag_pause_main)
      end
  end.

(** *** One period of the task *)

(* the part of the internal data structure that the task uses *)
Record ids := mkIds {
  reset : bool;
  length_ : F;
  calib : arucotag_calib F;
  pred : arucotag_predictor F;
  log : option arucotag_log_s
}.

(* what the task reads from outside during a period *)
Record inputs := mkInputs {
  extrinsics : option (extrinsics_data F);
  drone : option (drone_data F);
  gettimeofday : Z -> timeval;
  aio : aio_env
}.

(* where the task resumes at the next period *)
Inductive resume := at_wait | at_main.

(* from the codel [predict_main] to the next pause *)
Definition run_main (inp : inputs) (s : ids) : option (ids * list (effect F) * resume) :=
  match predict_main (reset s) (length_ s) (calib s) (pred s) (drone inp) (gettimeofday inp) with
  | None => None
  | Some (pred', tr, ev) =>
      let s' := mkIds (reset s) (length_ s) (calib s) pred' (log s) in
      match ev with
      | arucotag_log =>
          match predict_log pred' (log s) (aio inp) with
          | None => None
          | Some (log', tr', _) =>
              Some (mkIds (reset s) (length_ s) (calib s) pred' log', tr ++ tr', at_main)
          end
      | arucotag_pause_wait => Some (s', tr, at_wait)
      | _ => Some (s', tr, at_main)
      end
  end.

(* One period: the codels run one after the other until one of them yields
   a pause event. *)
Definition period (r : resume) (inp : inputs) (s : ids)
    : option (ids * list (effect F) * resume) :=
  match r with
  | at_main => run_main inp s
  | at_wait =>
      match predict_wait (extrinsics inp) (calib s) (pred s) (reset s) with
      | (calib', pred', reset', arucotag_main) =>
          run_main inp (mkIds reset' (length_ s) calib' pred' (log s))
      | (calib', pred', reset', _) =>
          Some (mkIds reset' (length_ s) calib' pred' (log s), [], at_wait)
      end
  end.

End Codels.
Arguments controls : clear implicits.
Arguments ids : clear implicits.
Arguments inputs : clear implicits.

(** ** The measurement model in the words of the design *)

Section MeasurementModel.
Context {F : Type} `{Scalar F}.
Import Mat.

Local Abbreviation Mat := (list (list F)).

(* a matrix of r rows and c columns *)
Definition has_shape (r c : nat) (m : Mat) : bool :=
  (List.length m =? r) && forallb (fun row => List.length row =? c) m.

(* the four corners of the marker, in its plane: the signs of the first
   two coordinates, and the corner for a side [length] *)
Definition corner_signs : list (F * F) :=
  ([ (- f1, - f1); (f1, - f1); (f1, f1); (- f1, f1) ])%F.

Definition corner (length : F) (s : F * F) : Mat :=
  ([ [ fst s * length / lit 2%Q ]; [ snd s * length / lit 2%Q ]; [ f0 * length / lit 2%Q ] ])%F.

(* the Jacobian of the pixelization, for the homogeneous point h *)
Definition pixel_jacobian (h : Mat) : Mat :=
  ([ [ f1 / at1 h 2; f0; - at1 h 0 / at1 h 2 / at1 h 2 ];
     [ f0; f1 / at1 h 2; - at1 h 1 / at1 h 2 / at1 h 2 ] ])%F.

(* the skew-symmetric matrix of a point *)
Definition skew_of (p : Mat) : Mat :=
  ([ [ f0;        - at1 p 2; at1 p 1   ];
     [ at1 p 2;   f0;        - at1 p 0 ];
     [ - at1 p 1; at1 p 0;   f0        ] ])%F.

(* two matrices side by side *)
Definition hconcat (a b : Mat) : Mat := zip_with app a b.

(* the Jacobian of the projection of a corner with respect to the pose:
   the translation, then the rotation *)
Definition projection_jacobian (K R p : Mat) : Mat :=
  hconcat K (mul (mul (neg K) R) (skew_of p)).

(* the two rows of a corner: the three translational columns of the
   chain rule *)
Definition corner_rows (K R tr p : Mat) : Mat :=
  let h := mul K (add (mul R p) tr) in
  roi (mul (pixel_jacobian h) (projection_jacobian K R p)) (mkRect 0 0 3 2).

(* J: the rows of the four corners, one corner under the other *)
Definition stacked_jacobian (length : F) (K R tr : Mat) : Mat :=
  concat (map (fun s => corner_rows K R tr (corner length s)) corner_signs).

End MeasurementModel.

(** ** What the task publishes *)

Section Published.
Context {F : Type} `{Scalar F}.
Variable calib : arucotag_calib F.
Variable c : controls F.
Variable gettimeofday : Z -> timeval.

(* what is written to the port [pose] for the filter at index i, the
   position spelled as in the design: R_wb (R_bc x + t_bc) + t_wb *)
Definition published (i : nat) (f : filter F) : list (effect F) :=
  if Mat.empty (state f) then []
  else
    let W := Mat.add (Mat.mul (W_R_B c)
                        (Mat.add (Mat.mul (B_R_C calib) (state f)) (B_t_C calib)))
                     (W_t_B c) in
    [pose_write (to_string (id f)) (Mat.at1 W 0) (Mat.at1 W 1) (Mat.at1 W 2)
                (tv_sec (gettimeofday (Z.of_nat i)))
                (tv_usec (gettimeofday (Z.of_nat i)) * 1000)%Z].

End Published.

(** ** A run of the main codel *)

(* What the other tasks and the ports hold at the beginning of a period:
   the identifiers detected since the last period with their measurements,
   the sample of the port [drone], and the clock. *)
Record batch (F : Type) := mkBatch {
  det_ids : list Z;
  det_meas : list (list (list F));
  det_drone : option (drone_data F);
  det_clock : Z -> timeval
}.
Arguments mkBatch {F}.
Arguments det_ids {F}.
Arguments det_meas {F}.
Arguments det_drone {F}.
Arguments det_clock {F}.

Section MainRun.
Context {F : Type} `{Scalar F} `{OpenCV F}.
Variable arucotag_predict_period : Q.
Variable length : F.
Variable calib : arucotag_calib F.

Definition with_batch (pred : arucotag_predictor F) (b : batch F) : arucotag_predictor F :=
  mkPred (filters pred) (det_ids b) (det_meas b) (C_T_B pred).

(* [predict_main] period after period, without reset and with the same
   filters from one period to the next; the effects are kept period by
   period *)
Fixpoint main_run (bs : list (batch F)) (pred : arucotag_predictor F)
    : option (arucotag_predictor F * list (list (effect F))) :=
  match bs with
  | [] => Some (pred, [])
  | b :: bs' =>
      match predict_main arucotag_predict_period false length calib (with_batch pred b)
                         (det_drone b) (det_clock b) with
      | None => None
      | Some (pred', tr, _) =>
          match main_run bs' pred' with
          | None => None
          | Some (pred'', trs) => Some (pred'', tr :: trs)
          end
      end
  end.

End MainRun.

(** ** What the logger writes *)

(* the log after the loop that fills the buffer: the count of bytes has
   grown and the buffer holds a text *)
Definition log_filled (l : arucotag_log_s) (bytes : Z) (text : string) : arucotag_log_s :=
  set_buffer (set_nbytes l (aio_nbytes l + bytes)%Z) text.

Section LogText.
Context {F : Type} `{Scalar F}.
Variable arucotag_log_fmt : Z -> Z -> Z -> Z -> F -> F -> F -> string.

(* the filters that have a state, in the order of the collection *)
Definition logged (fs : list (filter F)) : list (filter F) :=
  List.filter (fun f => negb (Mat.empty (state f))) fs.

(* the texts that snprintf leaves in its buffer, one after the other, and
   the sum of the lengths that it returns *)
Definition log_text (skip : bool) (tv : timeval) (fs : list (filter F)) : string :=
  foldr String.append EmptyString
        (map (fun f => substring 0 511 (log_line arucotag_log_fmt skip tv f)) (logged fs)).

Definition log_bytes (skip : bool) (tv : timeval) (fs : list (filter F)) : Z :=
  foldr Z.add 0%Z
        (map (fun f => Z.of_nat (String.length (log_line arucotag_log_fmt skip tv f))) (logged fs)).

(* the first filter of the collection has a state: the buffer of the
   logger starts anew *)
Definition first_logged (fs : list (filter F)) : bool :=
  match fs with
  | f :: _ => negb (Mat.empty (state f))
  | [] => false
  end.

(* one line for each filter that has a state, ended by a newline *)
Definition log_lines (tv : timeval) (fs : list (filter F)) : list string :=
  map (fun f => arucotag_log_fmt (tv_sec tv) (tv_usec tv * 1000)%Z (id f) 1%Z
                  (Mat.at1 (state f) 0) (Mat.at1 (state f) 1) (Mat.at1 (state f) 2)
                +:+ nl)
      (logged fs).

(* the request that a cycle issues when the log, after the first part of
   the codel, is [l1] *)
Definition issued (pred : arucotag_predictor F) (l1 : arucotag_log_s) (env : aio_env)
    : arucotag_log_s :=
  log_filled (set_nbytes l1 0%Z)
    (log_bytes (skipped l1) (log_time env) (filters pred))
    ((if first_logged (filters pred) then EmptyString else buffer l1)
     +:+ log_text (skipped l1) (log_time env) (filters pred)).

End LogText.

(** ** A run of the logger *)

Section LogRun.
Context {F : Type} `{Scalar F}.
Variable counter_modulus : Z.
Variable arucotag_log_fmt : Z -> Z -> Z -> Z -> F -> F -> F -> string.

(* [predict_log] period after period, each with the filters and the answers
   of the system of that period; the effects are kept period by period *)
Fixpoint log_run (steps : list (arucotag_predictor F * aio_env)) (log : option arucotag_log_s)
    : option (option arucotag_log_s * list (list (effect F))) :=
  match steps with
  | [] => Some (log, [])
  | (pred, env) :: steps' =>
      match predict_log counter_modulus arucotag_log_fmt pred log env with
      | None => None
      | Some (log', tr, _) =>
          match log_run steps' log' with
          | None => None
          | Some (log'', trs) => Some (log'', tr :: trs)
          end
      end
  end.

End LogRun.

(* the calls of aio_write among the effects of a period *)
Definition is_write {F : Type} (e : effect F) : bool :=
  match e with aio_write _ _ _ => true | _ => false end.

Definition writes {F : Type} (tr : list (effect F)) : nat :=
  List.length (List.filter is_write tr).

(* the calls of the Kalman filter of [filters[i]] among the effects of a
   period *)
Definition is_kalman_at {F : Type} (i : nat) (e : effect F) : bool :=
  match e with kalman j _ => j =? i | _ => false end.

(* the writes to the port [pose] among the effects of a period *)
Definition is_pose_write {F : Type} (e : effect F) : bool :=
  match e with pose_write _ _ _ _ _ _ => true | _ => false end.

(* the system when the disk keeps up: a request is over when it is looked
   at, it has written something, and a new request is accepted *)
Definition no_back_pressure (env : aio_env) : bool :=
  negb (aio_error_in_progress env) && (0 <? aio_return env)%Z
  && (aio_write_result env =? 0)%Z.

(** ** A disk that keeps up *)

Section KeepingUp.
Context {F : Type}.

(* the periods of a run in which the disk keeps up *)
Definition keeping_up (steps : list (arucotag_predictor F * aio_env)) : Prop :=
  Forall (fun s => (nfilters (fst s) <= 65535)%Z /\ no_back_pressure (snd s) = true) steps.

(* a request is issued in period k of a run (the first period is 0) that
   starts with the log l *)
Definition write_due (l : arucotag_log_s) (k : nat) : nat :=
  if (negb (pending l) && (k =? 0)) || ((total l + Z.of_nat k + 1) mod 5 =? 0)%Z then 1 else 0.

End KeepingUp.

(** ** Exact arithmetic, for concrete runs *)

Module Demo.
Import Mat.

(* Rational numbers, kept in lowest terms so that equal numbers are the
   same term.  Q has no cosine nor sine: the two polynomials below are
   exact at 0, the only angle the runs of this file use. *)
#[global] Instance Q_scalar : Scalar Q := {|
  lit q := Qred q;
  fadd a b := Qred (a + b);
  fsub a b := Qred (a - b);
  fmul a b := Qred (a * b);
  fdiv a b := Qred (a / b);
  fneg a := Qred (- a);
  fcos a := Qred (1 - a * a / 2);
  fsin a := Qred (a - a * a * a / 6)
|}.

Definition sub (a b : list (list Q)) : list (list Q) := zip_with (zip_with fsub) a b.

(* the inverse of a 3x3 matrix by its adjugate; like [Mat::inv], the zero
   matrix when there is no inverse *)
Definition inv3 (m : list (list Q)) : list (list Q) :=
  match m with
  | [[a; b; c]; [d; e; f]; [g; h; i]] =>
      let det := (a * (e * i - f * h) - b * (d * i - f * g) + c * (d * h - e * g))%Q in
      if Qeq_bool det 0 then zeros 3 3
      else map (map (fun x => Qred (x / det)))
             [ [ e * i - f * h; c * h - b * i; b * f - c * e ];
               [ f * g - d * i; a * i - c * g; c * d - a * f ];
               [ d * h - e * g; b * g - a * h; a * e - b * d ] ]%Q
  | _ => zeros (rows m) (cols m)
  end.

(* the rotation of a rotation vector, to the first order: exact for the
   null vector *)
Definition rodrigues1 (r : list (list Q)) : list (list Q) :=
  add (eye 3 3) ([ [ f0;        - at1 r 2; at1 r 1   ];
                   [ at1 r 2;   f0;        - at1 r 0 ];
                   [ - at1 r 1; at1 r 0;   f0        ] ])%F.

(* the equations of cv::KalmanFilter *)
Definition kalman_predict (k : KalmanFilter Q) (u : list (list Q))
    : KalmanFilter Q * list (list Q) :=
  let x0 := mul (transitionMatrix k) (statePost k) in
  let x := if empty u then x0 else add x0 (mul (controlMatrix k) u) in
  let p0 := mul (mul (transitionMatrix k) (errorCovPost k)) (t (transitionMatrix k)) in
  let p := if empty (processNoiseCov k) then p0 else add p0 (processNoiseCov k) in
  (mkKF x x (transitionMatrix k) (controlMatrix k) (measurementMatrix k)
        (processNoiseCov k) (measurementNoiseCov k) p (gain k) p, x).

Definition kalman_correct (k : KalmanFilter Q) (z : list (list Q))
    : KalmanFilter Q * list (list Q) :=
  let temp2 := mul (measurementMatrix k) (errorCovPre k) in
  let temp3 := add (mul temp2 (t (measurementMatrix k))) (measurementNoiseCov k) in
  let temp4 := mul (inv3 temp3) temp2 in
  let g := t temp4 in
  let temp5 := sub z (mul (measurementMatrix k) (statePre k)) in
  let x := add (statePre k) (mul g temp5) in
  let p := sub (errorCovPre k) (mul g temp2) in
  (mkKF (statePre k) x (transitionMatrix k) (controlMatrix k) (measurementMatrix k)
        (processNoiseCov k) (measurementNoiseCov k) (errorCovPre k) g p, x).

#[global] Instance Q_opencv : OpenCV Q := {|
  Rodrigues := rodrigues1;
  inv := inv3;
  KF_predict := kalman_predict;
  KF_correct := kalman_correct
|}.

(* a period of 10 ms, counters of 64 bits *)
Definition period_ms : Q := 10%Q.
Definition modulus : Z := (2 ^ 64)%Z.

(* a format: the seven values, one space between two of them *)
Definition show (q : Q) : string :=
  if (Zpos (Qden q) =? 1)%Z then pretty (Qnum q)
  else pretty (Qnum q) +:+ String "/"%char (pretty (Zpos (Qden q))).

Definition fmt (sec nsec marker flag : Z) (x y z : Q) : string :=
  pretty sec +:+ String " "%char (pretty nsec +:+ String " "%char (pretty marker +:+
  String " "%char (pretty flag +:+ String " "%char (show x +:+ String " "%char (show y +:+
  String " "%char (show z)))))).

(* a camera, mounted at the centre of the vehicle and aligned with it *)
Definition calib0 : arucotag_calib Q :=
  mkCalib [ [600; 0; 320]; [0; 600; 240]; [0; 0; 1] ]%Q (eye 3 3) (zeros 3 1).

(* the Kalman filter of a marker as it is created: position as state and
   as measurement, a twist as control *)
Definition kf0 : KalmanFilter Q :=
  mkKF (zeros 3 1) (zeros 3 1) (eye 3 3) (zeros 3 6) (eye 3 3)
       (eye 3 3) (eye 3 3) (zeros 3 3) (zeros 3 3) (eye 3 3).

(* a marker that was never seen, and a marker tracked at a position *)
Definition unseen (marker : Z) : filter Q := mkFilter marker [] kf0.
Definition tracked (marker : Z) (x y z : Q) : filter Q :=
  mkFilter marker (vec3 x y z)
    (mkKF (vec3 x y z) (vec3 x y z) (eye 3 3) (zeros 3 6) (eye 3 3)
          (eye 3 3) (eye 3 3) (zeros 3 3) (zeros 3 3) (eye 3 3)).

(* a measurement: a position, and a null rotation vector *)
Definition measurement (x y z : Q) : list (list Q) := [ [x]; [y]; [z]; [0]; [0]; [0] ]%Q.

Definition clock (i : Z) : timeval := mkTimeval 100 (i + 1)%Z.

(* the vehicle at rest at the origin of the world *)
Definition cov0 : cov6 Q := (mkCov6 0 0 0 0 0 0)%Q.
Definition drone_at_rest : drone_data Q :=
  (mkDrone 0 0 0 1 0 0 0 0 0 0 0 0 0 cov0 cov0)%Q.

(* answers of the system: the request is over, or still in progress *)
Definition disk_done : aio_env := (mkAio false 1 0 (mkTimeval 100 0))%Z.
Definition disk_busy : aio_env := (mkAio true 0 0 (mkTimeval 100 0))%Z.

(* a log that was just opened on descriptor 3, writing every 5 periods *)
Definition log0 : arucotag_log_s := (mkLog 3 0 EmptyString false false 5 0 0)%Z.

End Demo.

(** ** The start of the task *)

(* [predict_start]: the task goes to [predict_wait] in its first period *)
Definition predict_start : genom_event := arucotag_wait.

(** ** Giving up the log *)

(* the effects by which [predict_log] gives up its descriptor: the warning
   and the call of close *)
Definition is_give_up {F : Type} (e : effect F) : bool :=
  match e with warn_log | close_fd _ => true | _ => false end.

(** * Properties *)

(** ** Loops *)

Section Loops.
Context {S R : Type}.
Variable n : S -> Z.
Variable body : Z -> S -> S + R.

Lemma for_u16_iterate (step : nat -> S -> S) (len : nat) :
  (Z.of_nat len <= 65535)%Z ->
  (forall i s, i < len -> n s = Z.of_nat len ->
     body (Z.of_nat i) s = inl (step i s) /\ n (step i s) = Z.of_nat len) ->
  forall k i s, i + k = len -> n s = Z.of_nat len ->
    for_u16 (Datatypes.S k) n body (Z.of_nat i) s = Some (inl (iterate step i k s)).
Proof.
  intros Hlen Hbody k.
  induction k as [|k IH]; intros i s Hik Hn.
  - simpl. rewrite Hn.
    replace (Z.of_nat i <? Z.of_nat len)%Z with false; [reflexivity|].
    symmetry. apply Z.ltb_ge. lia.
  - cbn [for_u16]. rewrite Hn.
    replace (Z.of_nat i <? Z.of_nat len)%Z with true
      by (symmetry; apply Z.ltb_lt; lia).
    destruct (Hbody i s) as [Hb Hn']; [lia|assumption|].
    rewrite Hb.
    replace ((Z.of_nat i + 1) mod 65536)%Z with (Z.of_nat (Datatypes.S i)).
    + cbn [iterate]. apply IH; [lia|assumption].
    + rewrite Z.mod_small; lia.
Qed.

(* More fuel does not change the result of a loop that has ended. *)
Lemma for_u16_fuel_mono (fuel : nat) :
  forall i s r, for_u16 fuel n body i s = Some r ->
  forall fuel', fuel <= fuel' -> for_u16 fuel' n body i s = Some r.
Proof.
  induction fuel as [|fuel IH]; intros i s r Hrun fuel' Hle; [discriminate|].
  destruct fuel' as [|fuel']; [lia|].
  cbn [for_u16] in *.
  destruct (i <? n s)%Z; [|assumption].
  destruct (body i s) as [s'|r']; [|assumption].
  apply IH with (fuel' := fuel') in Hrun; [assumption|lia].
Qed.

(* With more than 65535 elements the counter wraps before it reaches the
   size: the loop has no end, whatever the fuel. *)
Lemma for_u16_diverges (len : Z) :
  (65535 < len)%Z ->
  (forall i s, n s = len -> exists s', body i s = inl s' /\ n s' = len) ->
  forall fuel i s, (0 <= i < 65536)%Z -> n s = len ->
    for_u16 fuel n body i s = None.
Proof.
  intros Hlen Hbody fuel.
  induction fuel as [|fuel IH]; intros i s Hi Hn; [reflexivity|].
  cbn [for_u16]. rewrite Hn.
  replace (i <? len)%Z with true by (symmetry; apply Z.ltb_lt; lia).
  destruct (Hbody i s Hn) as (s' & Hb & Hn'). rewrite Hb.
  apply IH; [|assumption].
  apply Z.mod_pos_bound. lia.
Qed.

End Loops.

(** ** The definitions on small inputs *)

Example find_first_occurrence : find [9; 7; 9]%Z 9%Z = Some 0 /\ find [9; 7]%Z 7%Z = Some 1.
Proof. split; reflexivity. Qed.

Example find_absent : find [9; 7]%Z 5%Z = None.
Proof. reflexivity. Qed.

Example to_string_of_ids : to_string 42 = "42" /\ to_string (-7) = "-7" /\ to_string 0 = "0".
Proof. repeat split; vm_compute; reflexivity. Qed.

Example position_of_a_measurement :
  Mat.roi (Demo.measurement 4 5 6) (Mat.mkRect 0 0 1 3) = Mat.vec3 4%Q 5%Q 6%Q.
Proof. reflexivity. Qed.

Example setIdentity_fills_in_place :
  Mat.setIdentity (Mat.zeros 2 3) 7%Q = [ [7%Q; 0%Q; 0%Q]; [0%Q; 7%Q; 0%Q] ]
  /\ Mat.setIdentity ([] : list (list Q)) 7%Q = [].
Proof. split; reflexivity. Qed.

Example product_with_the_identity :
  Mat.mul (Mat.eye 3 3) (Mat.vec3 1%Q 2%Q 3%Q) = Mat.vec3 1%Q 2%Q 3%Q.
Proof. reflexivity. Qed.

(* a loop over three elements leaves after three iterations; the counter
   that follows 65535 is 0 *)
Example for_u16_counts :
  for_u16 4 (fun _ => 3%Z) (fun i (s : list Z) => inl (s ++ [i]) : list Z + unit) 0%Z []
  = Some (inl [0; 1; 2]%Z).
Proof. reflexivity. Qed.

Example for_u16_wraps :
  for_u16 3 (fun _ => 65536%Z)
          (fun i (s : list Z) => if (i =? 0)%Z then inr s else inl (s ++ [i]))
          65534%Z []
  = Some (inr [65534; 65535]%Z).
Proof. reflexivity. Qed.

(* without extrinsics, or without a detection, the task waits and clears
   the reset *)
Example predict_wait_waits :
  predict_wait None Demo.calib0 (mkPred [] [9%Z] [Demo.measurement 1 2 3] (Mat.eye 6 6)) true
  = (Demo.calib0, mkPred [] [9%Z] [Demo.measurement 1 2 3] (Mat.eye 6 6), false,
     arucotag_pause_wait).
Proof. reflexivity. Qed.

(* Two markers detected once, a vehicle at rest: the first period sets the
   states to the measurements, the next periods leave them there and
   publish them. *)
Example two_markers_at_rest :
  let pred0 := mkPred [Demo.unseen 1; Demo.unseen 2] [] [] (Mat.eye 6 6) in
  let seen := mkBatch [1%Z; 2%Z] [Demo.measurement 1 2 3; Demo.measurement 4 5 6]
                      (Some Demo.drone_at_rest) Demo.clock in
  let quiet := mkBatch [] [] (Some Demo.drone_at_rest) Demo.clock in
  exists pred' trs,
    main_run Demo.period_ms 1%Q Demo.calib0 [seen; quiet; quiet] pred0 = Some (pred', trs)
    /\ state <$> filters pred' = [Mat.vec3 1%Q 2%Q 3%Q; Mat.vec3 4%Q 5%Q 6%Q]
    /\ List.filter is_pose_write <$> trs
       = replicate 3 [pose_write "1" 1%Q 2%Q 3%Q 100%Z 1000%Z;
                      pose_write "2" 4%Q 5%Q 6%Q 100%Z 2000%Z].
Proof.
  cbv zeta. eexists _, _. split; [vm_compute; reflexivity|].
  split; reflexivity.
Qed.

(** ** The loops of predict_main *)

Section MainLoop.
Context {F : Type} `{Scalar F} `{OpenCV F}.
Variable period_ms : Q.
Variable length : F.
Variable calib : arucotag_calib F.
Variable c : controls F.
Variable gettimeofday : Z -> timeval.

Local Abbreviation upd p := (updated period_ms length calib p c).
Local Abbreviation eff p := (iteration_effects period_ms length calib p c gettimeofday).
Local Abbreviation body := (main_body period_ms length calib c gettimeofday).

(* an iteration reads the detections and the measurements, not the filters *)
Lemma update_filter_set_filters (pred : arucotag_predictor F) fs f :
  update_filter period_ms length calib (set_filters pred fs) c f
  = update_filter period_ms length calib pred c f.
Proof. reflexivity. Qed.

(* the iteration for the filter that follows the filters [done] *)
Lemma main_body_middle (pred : arucotag_predictor F) done f rest tr :
  body (Z.of_nat (List.length done)) (set_filters pred (done ++ f :: rest), tr)
  = inl (set_filters pred ((done ++ [upd pred f]) ++ rest),
         tr ++ eff pred (List.length done) f).
Proof.
  unfold main_body. rewrite Nat2Z.id. cbn [filters set_filters].
  rewrite list_lookup_middle by reflexivity.
  rewrite update_filter_set_filters.
  unfold iteration_effects, updated.
  destruct (update_filter period_ms length calib pred c f) as [f' calls].
  rewrite insert_app_r_alt by lia. rewrite Nat.sub_diag. cbn [insert list_insert].
  rewrite <- app_assoc. reflexivity.
Qed.

Lemma main_iterate (pred : arucotag_predictor F) :
  forall rest done tr,
    iterate (fun i s => match body (Z.of_nat i) s with inl s' => s' | inr _ => s end)
            (List.length done) (List.length rest) (set_filters pred (done ++ rest), tr)
    = (set_filters pred (done ++ map (upd pred) rest),
       tr ++ concat (imap (fun j f => eff pred (List.length done + j) f) rest)).
Proof.
  induction rest as [|f rest IH]; intros done tr.
  - simpl. rewrite !app_nil_r. reflexivity.
  - cbn [List.length iterate]. rewrite main_body_middle.
    replace (Datatypes.S (List.length done)) with (List.length (done ++ [upd pred f]))
      by (rewrite length_app; simpl; lia).
    rewrite IH. rewrite <- !app_assoc. cbn [map app imap concat].
    rewrite Nat.add_0_r. do 4 f_equal.
    apply imap_ext. intros j g _. cbn.
    rewrite length_app. cbn. f_equal; lia.
Qed.

(* every iteration keeps the number of filters *)
Lemma main_body_size (i : Z) (s : arucotag_predictor F * list (effect F)) :
  exists s', body i s = inl s' /\ nfilters (fst s') = nfilters (fst s).
Proof.
  destruct s as [p tr]. unfold main_body.
  destruct (filters p !! Z.to_nat i) as [f|]; [|eexists; split; reflexivity].
  destruct (update_filter period_ms length calib p c f) as [f' calls].
  eexists; split; [reflexivity|].
  unfold nfilters. cbn. rewrite length_insert. reflexivity.
Qed.

(* The first loop of [predict_main]. *)
Lemma main_loop_run (pred : arucotag_predictor F) :
  (nfilters pred <= 65535)%Z ->
  for_u16 (loop_fuel pred) (fun s => nfilters (fst s)) body 0%Z (pred, [])
  = Some (inl (set_filters pred (map (upd pred) (filters pred)),
               concat (imap (eff pred) (filters pred)))).
Proof.
  intros Hsize.
  pose proof (for_u16_iterate (fun s => nfilters (fst s)) body
                (fun i s => match body (Z.of_nat i) s with inl s' => s' | inr _ => s end)
                (List.length (filters pred)) Hsize) as Hrun.
  unfold loop_fuel.
  rewrite (Hrun) with (i := 0) (k := List.length (filters pred)).
  - pose proof (main_iterate pred (filters pred) [] []) as Hit.
    cbn [List.length app] in Hit.
    replace (set_filters pred (filters pred)) with pred in Hit by (destruct pred; reflexivity).
    rewrite Hit. reflexivity.
  - intros i s _ Hn.
    destruct (main_body_size (Z.of_nat i) s) as (s' & Hb & Hn').
    rewrite Hb. split; [reflexivity|]. rewrite Hn'. exact Hn.
  - reflexivity.
  - reflexivity.
Qed.

(* With more than 65535 filters the first loop has no end. *)
Lemma main_loop_diverges (pred : arucotag_predictor F) fuel :
  (65535 < nfilters pred)%Z ->
  for_u16 fuel (fun s => nfilters (fst s)) body 0%Z (pred, []) = None.
Proof.
  intros Hsize.
  apply for_u16_diverges with (len := nfilters pred); [assumption| |lia|reflexivity].
  intros i s Hn. destruct (main_body_size i s) as (s' & Hb & Hn').
  exists s'. split; [assumption|]. rewrite Hn'. exact Hn.
Qed.

(* The second loop of [predict_main], started after the filters [done]. *)
Lemma any_loop_run (pred : arucotag_predictor F) :
  (nfilters pred <= 65535)%Z ->
  forall rest done, filters pred = done ++ rest ->
    for_u16 (Datatypes.S (List.length rest)) nfilters any_body
            (Z.of_nat (List.length done)) pred
    = Some (if all_empty rest then inl pred else inr arucotag_log).
Proof.
  intros Hsize. unfold nfilters in Hsize.
  induction rest as [|f rest IH]; intros done Hfs.
  - cbn [for_u16 List.length all_empty forallb]. unfold nfilters.
    rewrite Hfs, app_nil_r.
    rewrite Z.ltb_irrefl. reflexivity.
  - cbn [for_u16 List.length]. unfold nfilters at 1.
    assert (Hlen : List.length (filters pred) = List.length done + Datatypes.S (List.length rest))
      by (rewrite Hfs, length_app; reflexivity).
    replace (Z.of_nat (List.length done) <? Z.of_nat (List.length (filters pred)))%Z
      with true by (symmetry; apply Z.ltb_lt; lia).
    unfold any_body at 1. rewrite Nat2Z.id, Hfs.
    rewrite list_lookup_middle by reflexivity.
    cbn [all_empty forallb].
    destruct (Mat.empty (state f)); cbn [negb andb]; [|reflexivity].
    replace ((Z.of_nat (List.length done) + 1) mod 65536)%Z
      with (Z.of_nat (List.length (done ++ [f]))).
    + apply IH. rewrite <- app_assoc. exact Hfs.
    + rewrite length_app. cbn [List.length]. rewrite Z.mod_small; lia.
Qed.

(* [predict_main] when the reset is not set. *)
Lemma predict_main_run (pred : arucotag_predictor F) (drone : option (drone_data F)) :
  (nfilters pred <= 65535)%Z ->
  c = get_control pred drone ->
  predict_main period_ms false length calib pred drone gettimeofday
  = Some (mkPred (map (upd pred) (filters pred)) [] (meas pred) (C_T_B pred),
          concat (imap (eff pred) (filters pred)),
          final_event (map (upd pred) (filters pred))).
Proof.
  intros Hsize Hc. unfold predict_main. rewrite <- Hc.
  rewrite main_loop_run by assumption.
  set (pred2 := set_new_detections _ _).
  assert (Hsize2 : (nfilters pred2 <= 65535)%Z)
    by (unfold nfilters, pred2; cbn; rewrite length_map; exact Hsize).
  pose proof (any_loop_run pred2 Hsize2 (filters pred2) [] eq_refl) as Hany.
  change (Z.of_nat (List.length [])) with 0%Z in Hany.
  unfold loop_fuel. rewrite Hany.
  unfold final_event. subst pred2. cbn [filters set_new_detections set_filters].
  destruct (all_empty _); reflexivity.
Qed.

(* With more than 65535 filters [predict_main] does not return. *)
Lemma predict_main_diverges (pred : arucotag_predictor F) (drone : option (drone_data F)) :
  (65535 < nfilters pred)%Z ->
  c = get_control pred drone ->
  predict_main period_ms false length calib pred drone gettimeofday = None.
Proof.
  intros Hsize Hc. unfold predict_main. rewrite <- Hc.
  rewrite main_loop_diverges by exact Hsize. reflexivity.
Qed.

(* [predict_main] returns when there are at most 65535 filters, and only
   then. *)
Lemma predict_main_returns_iff (pred : arucotag_predictor F) (drone : option (drone_data F)) :
  c = get_control pred drone ->
  (exists r, predict_main period_ms false length calib pred drone gettimeofday = Some r)
  <-> (nfilters pred <= 65535)%Z.
Proof.
  intros Hc. split.
  - intros [r Hr]. destruct (Z.le_gt_cases (nfilters pred) 65535) as [Hle|Hgt]; [exact Hle|].
    rewrite (predict_main_diverges pred drone) in Hr by (try lia; exact Hc). discriminate Hr.
  - intros Hle. eexists. apply predict_main_run; assumption.
Qed.

End MainLoop.

(** ** Effects of the first loop *)

Section Effects.
Context {F : Type} `{Scalar F} `{OpenCV F}.
Variable period_ms : Q.
Variable length : F.
Variable calib : arucotag_calib F.
Variable c : controls F.
Variable gettimeofday : Z -> timeval.

Local Abbreviation published := (published calib c gettimeofday).

Lemma publish_published (i : nat) (f : filter F) :
  publish calib c (gettimeofday (Z.of_nat i)) f = published i f.
Proof. reflexivity. Qed.

Lemma filter_pose_kalman (i : nat) (calls : list kf_call) :
  List.filter is_pose_write (map (kalman i) calls : list (effect F)) = [].
Proof. induction calls as [|k calls IH]; [reflexivity|exact IH]. Qed.

Lemma filter_pose_published (i : nat) (f : filter F) :
  List.filter is_pose_write (published i f) = published i f.
Proof. unfold published. destruct (Mat.empty (state f)); reflexivity. Qed.

Lemma filter_write_kalman (i : nat) (calls : list kf_call) :
  List.filter is_write (map (kalman i) calls : list (effect F)) = [].
Proof. induction calls as [|k calls IH]; [reflexivity|exact IH]. Qed.

Lemma filter_write_published (i : nat) (f : filter F) :
  List.filter is_write (published i f) = [].
Proof. unfold published. destruct (Mat.empty (state f)); reflexivity. Qed.

Lemma filter_concat_imap {A B : Type} (p : B -> bool) (l : list A) :
  forall f g : nat -> A -> list B,
    (forall i x, List.filter p (f i x) = g i x) ->
    List.filter p (concat (imap f l)) = concat (imap g l).
Proof.
  induction l as [|x l IH]; intros f g Hfg; [reflexivity|].
  cbn [imap concat]. rewrite List.filter_app, Hfg. f_equal.
  apply IH. intros i y. apply Hfg.
Qed.

Lemma imap_map {A B C : Type} (g : A -> B) (l : list A) :
  forall f : nat -> B -> C, imap f (map g l) = imap (fun i x => f i (g x)) l.
Proof.
  induction l as [|x l IH]; intros f; [reflexivity|].
  cbn [map imap]. f_equal. apply IH.
Qed.

Lemma concat_imap_nil {A B : Type} (l : list A) :
  forall f : nat -> A -> list B, (forall i x, f i x = []) -> concat (imap f l) = [].
Proof.
  induction l as [|x l IH]; intros f Hf; [reflexivity|].
  cbn [imap concat]. rewrite Hf. apply IH. intros i y. apply Hf.
Qed.

(* the writes to the port among the effects of the first loop *)
Lemma pose_writes_of_loop (pred : arucotag_predictor F) (fs : list (filter F)) :
  List.filter is_pose_write
    (concat (imap (iteration_effects period_ms length calib pred c gettimeofday) fs))
  = concat (imap published (map (updated period_ms length calib pred c) fs)).
Proof.
  rewrite imap_map. apply filter_concat_imap. intros i f.
  unfold iteration_effects. rewrite List.filter_app, filter_pose_kalman.
  rewrite publish_published. apply filter_pose_published.
Qed.

(* the first loop does not call aio_write *)
Lemma no_write_in_loop (pred : arucotag_predictor F) (fs : list (filter F)) :
  writes (concat (imap (iteration_effects period_ms length calib pred c gettimeofday) fs)) = 0.
Proof.
  unfold writes.
  rewrite (filter_concat_imap is_write fs _ (fun _ _ => [])).
  - rewrite concat_imap_nil; reflexivity.
  - intros i f. unfold iteration_effects.
    rewrite List.filter_app, filter_write_kalman, publish_published, filter_write_published.
    reflexivity.
Qed.

End Effects.

(** ** Missing odometry *)

(* Without a sample of the port [drone], the control is the null twist and
   the two transforms of the world are null matrices. *)
Lemma get_control_nostate {F : Type} `{Scalar F} (pred : arucotag_predictor F) :
  let c := get_control pred None in
  nostate c = true /\ control c = Mat.zeros 6 1
  /\ W_t_B c = Mat.zeros 3 1 /\ W_R_B c = Mat.zeros 3 3.
Proof. cbn. repeat split. Qed.

(* [process_cov] is given to setIdentity as it was declared, without a
   size: there is no element to fill. *)
Lemma get_control_nostate_process_cov {F : Type} `{Scalar F} (pred : arucotag_predictor F) :
  process_cov (get_control pred None) = [].
Proof. reflexivity. Qed.

(** C1 (the code departs from the claim): with no odometry sample the
    control is the null twist and the translation of the world is null, but
    the rotation of the world is the null matrix and not the identity.  For
    a marker tracked at (1, 2, 3), with the camera at the centre of the
    vehicle, the position written to the port is (0, 0, 0); with the
    identity it would be (1, 2, 3). *)
Theorem no_odometry_publishes_origin :
  let pred0 := mkPred [Demo.tracked 9 1 2 3] [] [] (Mat.eye 6 6) in
  let c := get_control pred0 None in
  control c = Mat.zeros 6 1
  /\ W_t_B c = Mat.zeros 3 1
  /\ W_R_B c = Mat.zeros 3 3
  /\ W_R_B c <> Mat.eye 3 3
  /\ (exists pred',
        predict_main Demo.period_ms false 1%Q Demo.calib0 pred0 None Demo.clock
        = Some (pred', [kalman 0 kf_predict; pose_write "9" 0%Q 0%Q 0%Q 100%Z 1000%Z],
                arucotag_log)
        /\ state <$> filters pred' = [Mat.vec3 1%Q 2%Q 3%Q])
  /\ world_position Demo.calib0
       (mkControls true (control c) (process_cov c) (W_t_B c) (Mat.eye 3 3))
       (Mat.vec3 1%Q 2%Q 3%Q)
     = Mat.vec3 1%Q 2%Q 3%Q.
Proof.
  cbv zeta. repeat split.
  - vm_compute. discriminate.
  - eexists. split; vm_compute; reflexivity.
Qed.

(** ** The process covariance *)

(** C8 (the code departs from the claim): the matrix built from the packed
    covariance takes entry 2 of the array, not entry 4, in its second row
    and third column.  For a linear velocity whose covariance is diagonal,
    with variances 1, 2 and 3 (packed as 1, 0, 2, 0, 0, 3), and a null
    covariance of the angular velocity, the process covariance has 2 in the
    second row and third column and 0 in the third row and second column:
    it is not symmetric, and it is not the diagonal matrix that was
    packed. *)
Theorem process_covariance_not_symmetric :
  let d := mkDrone 0%Q 0%Q 0%Q 1%Q 0%Q 0%Q 0%Q 0%Q 0%Q 0%Q 0%Q 0%Q 0%Q
             (mkCov6 1%Q 0%Q 2%Q 0%Q 0%Q 3%Q) Demo.cov0 in
  let Qp := process_cov (get_control (mkPred [] [] [] (Mat.eye 6 6)) (Some d)) in
  Qp = [ [1%Q; 0%Q; 0%Q]; [0%Q; 2%Q; 2%Q]; [0%Q; 0%Q; 3%Q] ]
  /\ Mat.at2 Qp 1 2 = 2%Q /\ Mat.at2 Qp 2 1 = 0%Q
  /\ Mat.t Qp <> Qp
  /\ Qp <> [ [1%Q; 0%Q; 0%Q]; [0%Q; 2%Q; 0%Q]; [0%Q; 0%Q; 3%Q] ].
Proof.
  cbv zeta. repeat split; vm_compute; discriminate.
Qed.

(** ** Publishing *)

(** C4, amended: in a period in which [predict_main] runs and the reset is
    not set, the writes to the port [pose] are, filter after filter, one
    write for each filter whose state is not empty after its update and
    none for a filter whose state is empty; the key is the identifier as a
    string and the position is W_R_B (B_R_C state + B_t_C) + W_t_B. *)
Theorem published_poses {F : Type} `{Scalar F} `{OpenCV F} (period_ms : Q) (length : F)
    (calib : arucotag_calib F) (pred : arucotag_predictor F)
    (drone : option (drone_data F)) (gettimeofday : Z -> timeval) :
  (nfilters pred <= 65535)%Z ->
  let c := get_control pred drone in
  exists pred' tr ev,
    predict_main period_ms false length calib pred drone gettimeofday = Some (pred', tr, ev)
    /\ List.filter is_pose_write tr
       = concat (imap (fun i f =>
           if Mat.empty (state f) then []
           else
             let W := Mat.add (Mat.mul (W_R_B c)
                                 (Mat.add (Mat.mul (B_R_C calib) (state f)) (B_t_C calib)))
                              (W_t_B c) in
             [pose_write (to_string (id f)) (Mat.at1 W 0) (Mat.at1 W 1) (Mat.at1 W 2)
                         (tv_sec (gettimeofday (Z.of_nat i)))
                         (tv_usec (gettimeofday (Z.of_nat i)) * 1000)%Z])
           (filters pred')).
Proof.
  intros Hsize c.
  eexists _, _, _. split.
  - apply predict_main_run; [exact Hsize|reflexivity].
  - cbn [filters]. apply pose_writes_of_loop.
Qed.

(* C4, amended, on two markers, one of them never seen. *)
Lemma published_poses_witness :
  let pred0 := mkPred [Demo.unseen 7; Demo.tracked 9 1 2 3] [] [] (Mat.eye 6 6) in
  (nfilters pred0 <= 65535)%Z
  /\ exists pred' tr ev,
       predict_main Demo.period_ms false 1%Q Demo.calib0 pred0 (Some Demo.drone_at_rest) Demo.clock
       = Some (pred', tr, ev)
       /\ List.filter is_pose_write tr
          = concat (imap (fun i f =>
              if Mat.empty (state f) then []
              else
                let c := get_control pred0 (Some Demo.drone_at_rest) in
                let W := Mat.add (Mat.mul (W_R_B c)
                                    (Mat.add (Mat.mul (B_R_C Demo.calib0) (state f))
                                             (B_t_C Demo.calib0)))
                                 (W_t_B c) in
                [pose_write (to_string (id f)) (Mat.at1 W 0) (Mat.at1 W 1) (Mat.at1 W 2)
                            (tv_sec (Demo.clock (Z.of_nat i)))
                            (tv_usec (Demo.clock (Z.of_nat i)) * 1000)%Z])
              (filters pred')).
Proof.
  intros pred0.
  assert (Hsize : (nfilters pred0 <= 65535)%Z) by (vm_compute; discriminate).
  split; [exact Hsize|].
  exact (published_poses Demo.period_ms 1%Q Demo.calib0 pred0 (Some Demo.drone_at_rest)
           Demo.clock Hsize).
Defined.

(** C4 as it is stated does not hold in a period that finds the reset set:
    the marker 9 is tracked, its filter has a state before and after the
    period, and nothing is written to the port. *)
Lemma reset_period_publishes_nothing :
  let s0 := mkIds true 1%Q Demo.calib0
              (mkPred [Demo.tracked 9 1 2 3] [] [] (Mat.eye 6 6)) None in
  let inp0 := mkInputs None (Some Demo.drone_at_rest) Demo.clock Demo.disk_done in
  exists s' tr r',
    period Demo.period_ms Demo.modulus Demo.fmt at_main inp0 s0 = Some (s', tr, r')
    /\ (Mat.empty ∘ state) <$> filters (pred s0) = [false]
    /\ (Mat.empty ∘ state) <$> filters (pred s') = [false]
    /\ List.filter is_pose_write tr = [].
Proof.
  cbv zeta. eexists _, _, _. split; [vm_compute; reflexivity|].
  repeat split.
Qed.

(** ** Reset *)

Section Period.
Context {F : Type} `{Scalar F} `{OpenCV F}.
Variable period_ms : Q.
Variable modulus : Z.
Variable fmt : Z -> Z -> Z -> Z -> F -> F -> F -> string.

(* [predict_wait] touches neither the filters, nor the detections, nor the
   measurements *)
Lemma predict_wait_frame (e : option (extrinsics_data F)) (cal : arucotag_calib F)
    (p : arucotag_predictor F) (r : bool) :
  let '(cal', p', r', ev) := predict_wait e cal p r in
  filters p' = filters p /\ new_detections p' = new_detections p /\ meas p' = meas p
  /\ (ev = arucotag_main /\ r' = r \/ ev = arucotag_pause_wait /\ r' = false).
Proof.
  unfold predict_wait. destruct e as [e|]; [|cbn; auto 6].
  destruct (negb _); cbn; auto 6.
Qed.

(* A period that finds the reset set. *)
Lemma period_under_reset (r : resume) (inp : inputs F) (s : ids F) :
  reset s = true ->
  exists s' r',
    period period_ms modulus fmt r inp s = Some (s', [], r')
    /\ filters (pred s') = filters (pred s)
    /\ new_detections (pred s') = new_detections (pred s)
    /\ log s' = log s.
Proof.
  intros Hreset. destruct r.
  - unfold period.
    pose proof (predict_wait_frame (extrinsics inp) (calib s) (pred s) (reset s)) as Hw.
    destruct (predict_wait (extrinsics inp) (calib s) (pred s) (reset s))
      as [[[cal' p'] r'] ev].
    destruct Hw as (Hf & Hn & _ & [[-> ->] | [-> ->]]).
    + unfold run_main. cbn [reset length_ calib pred log drone gettimeofday].
      rewrite Hreset. cbn. eexists _, _. split; [reflexivity|]. cbn. auto.
    + eexists _, _. split; [reflexivity|]. cbn. auto.
  - unfold period, run_main. rewrite Hreset. cbn.
    eexists _, _. split; [reflexivity|]. cbn. auto.
Qed.

(** C7: in a period that finds the reset set, whatever the codel the task
    resumes at, no codel does anything to the outside (the effects of the
    period are none: no call of a Kalman filter, no write), and the filters
    and the state of the logger are at the end of the period what they were
    at its beginning. *)
Theorem reset_period_frame (r : resume) (inp : inputs F) (s : ids F) :
  reset s = true ->
  exists s' r',
    period period_ms modulus fmt r inp s = Some (s', [], r')
    /\ filters (pred s') = filters (pred s)
    /\ log s' = log s.
Proof.
  intros Hreset.
  destruct (period_under_reset r inp s Hreset) as (s' & r' & Hp & Hf & _ & Hl).
  exists s', r'. auto.
Qed.

End Period.

(* C7 on a marker that is tracked and has a new detection. *)
Lemma reset_period_frame_witness :
  let s0 := mkIds true 1%Q Demo.calib0
              (mkPred [Demo.tracked 9 1 2 3] [9%Z] [Demo.measurement 4 5 6] (Mat.eye 6 6))
              (Some Demo.log0) in
  let inp0 := mkInputs None (Some Demo.drone_at_rest) Demo.clock Demo.disk_done in
  reset s0 = true
  /\ exists s' r',
       period Demo.period_ms Demo.modulus Demo.fmt at_main inp0 s0 = Some (s', [], r')
       /\ filters (pred s') = filters (pred s0)
       /\ log s' = log s0.
Proof.
  intros s0 inp0. split; [reflexivity|].
  exact (reset_period_frame Demo.period_ms Demo.modulus Demo.fmt at_main inp0 s0 eq_refl).
Defined.


(** ** The measurement covariance *)

Section Jacobian.
Context {F : Type} `{Scalar F}.

(* a matrix of 3 rows and 3 columns, row by row *)
Lemma has_shape_3_3 (m : list (list F)) :
  has_shape 3 3 m = true ->
  exists a b c d e f g h i, m = [[a; b; c]; [d; e; f]; [g; h; i]].
Proof.
  unfold has_shape. intros Hm.
  destruct m as [|[|a [|b [|c [|]]]] [|[|d [|e [|f [|]]]] [|[|g [|h [|i [|]]]] [|]]]];
    try discriminate Hm.
  eexists _, _, _, _, _, _, _, _, _. reflexivity.
Qed.

(* The matrix that the loop over the corners fills is the matrix of the
   design: the rows of the corners one under the other. *)
Lemma jacobian_J_stacked (length : F) (calib : arucotag_calib F) (R tr : list (list F)) :
  has_shape 3 3 (K calib) = true ->
  jacobian_J length calib R tr = stacked_jacobian length (K calib) R tr.
Proof.
  intros HK. destruct (has_shape_3_3 _ HK) as (a & b & c & d & e & f & g & h & i & HKeq).
  unfold jacobian_J, stacked_jacobian, corner_rows, projection_jacobian, corner_signs.
  rewrite HKeq. reflexivity.
Qed.

(* For an arithmetic in which the products by 1, -1 and 0 and the division
   of an opposite are the usual ones, the corners are at plus or minus half
   the side in the plane of the marker. *)
Lemma corner_coordinates (length : F) :
  (forall x : F, (Mat.f1 * x)%F = x) ->
  (forall x : F, (- Mat.f1 * x)%F = (- x)%F) ->
  (forall x y : F, (- x / y)%F = (- (x / y))%F) ->
  (Mat.f0 * length / lit 2%Q)%F = Mat.f0 ->
  let h := (length / lit 2%Q)%F in
  map (corner length) corner_signs
  = [ Mat.vec3 (- h)%F (- h)%F Mat.f0; Mat.vec3 h (- h)%F Mat.f0;
      Mat.vec3 h h Mat.f0;             Mat.vec3 (- h)%F h Mat.f0 ].
Proof.
  intros H1 Hm1 Hopp H0 h. unfold corner_signs, corner. cbn [map fst snd].
  rewrite !H1, !Hm1, !Hopp, !H0. reflexivity.
Qed.

(* J has 8 rows and 3 columns. *)
Lemma stacked_jacobian_shape (length : F) (Km R tr : list (list F)) :
  has_shape 3 3 Km = true ->
  has_shape 8 3 (stacked_jacobian length Km R tr) = true.
Proof.
  intros HK. destruct (has_shape_3_3 _ HK) as (a & b & c & d & e & f & g & h & i & HKeq).
  rewrite HKeq. unfold has_shape, stacked_jacobian, corner_signs, corner_rows.
  cbn [map concat app Mat.roi Mat.rheight Mat.rwidth Mat.rx Mat.ry take drop].
  unfold Mat.mul at 1 3 5 7. unfold pixel_jacobian.
  cbn [map take drop app List.length forallb Nat.eqb andb]. 
  unfold projection_jacobian, hconcat, Mat.cols, Mat.mul at 1 3 5 7, Mat.neg.
  cbn [map zip_with app List.length seq take drop forallb Nat.eqb andb]. reflexivity.
Qed.

(* The rows of a corner are the Jacobian of the pixelization times K: the
   part of the projection that comes from the rotation has no share. *)
Lemma corner_rows_translation (Km R tr p : list (list F)) :
  has_shape 3 3 Km = true ->
  corner_rows Km R tr p
  = Mat.mul (pixel_jacobian (Mat.mul Km (Mat.add (Mat.mul R p) tr))) Km.
Proof.
  intros HK. destruct (has_shape_3_3 _ HK) as (a & b & c & d & e & f & g & h & i & HKeq).
  unfold corner_rows, projection_jacobian. rewrite HKeq. reflexivity.
Qed.

End Jacobian.

(** ** One filter in the first loop *)

Section OneFilter.
Context {F : Type} `{Scalar F} `{OpenCV F}.
Variable period_ms : Q.
Variable length : F.
Variable calib : arucotag_calib F.
Variable gettimeofday : Z -> timeval.

Lemma lookup_map {A B : Type} (g : A -> B) (l : list A) (i : nat) :
  map g l !! i = option_map g (l !! i).
Proof.
  revert i. induction l as [|x l IH]; intros [|i]; try reflexivity. apply IH.
Qed.

Lemma in_publish (c : controls F) (tv : timeval) (f : filter F) (i : nat) (call : kf_call) :
  ~ In (kalman i call) (publish calib c tv f).
Proof.
  unfold publish. destruct (Mat.empty (state f)); cbn; [tauto|].
  intros [Heq|[]]. discriminate Heq.
Qed.

Lemma imap_shift (pred : arucotag_predictor F) (c : controls F) (fs : list (filter F)) (n : nat) :
  imap ((fun j => iteration_effects period_ms length calib pred c gettimeofday (n + j))
        ∘ Datatypes.S) fs
  = imap (fun j => iteration_effects period_ms length calib pred c gettimeofday
                     (Datatypes.S n + j)) fs.
Proof. apply imap_ext. intros j g _. cbn. f_equal. lia. Qed.

(* the iterations from index m on call the filters from index m on *)
Lemma kalman_index_lower (pred : arucotag_predictor F) (c : controls F) (call : kf_call) :
  forall fs m k,
    In (kalman k call)
       (concat (imap (fun j => iteration_effects period_ms length calib pred c
                                 gettimeofday (m + j)) fs)) ->
    m <= k.
Proof.
  induction fs as [|g gs IH]; intros m k; cbn [imap concat]; [intros []|].
  rewrite in_app_iff. unfold iteration_effects at 1.
  rewrite in_app_iff, in_map_iff.
  intros [[(c' & Heq & _) | Hpub] | Hrest].
  - assert (m + 0 = k) by congruence. lia.
  - exfalso. exact (in_publish _ _ _ _ _ Hpub).
  - rewrite imap_shift in Hrest. apply IH in Hrest. lia.
Qed.

(* the calls of the Kalman filter of [filters[i]] among the effects of the
   first loop are the calls of the iteration for that filter *)
Lemma kalman_in_loop (pred : arucotag_predictor F) (c : controls F) (call : kf_call) :
  forall fs n i,
    In (kalman (n + i) call)
       (concat (imap (fun j => iteration_effects period_ms length calib pred c
                                 gettimeofday (n + j)) fs))
    <-> exists f, fs !! i = Some f
                  /\ In call (snd (update_filter period_ms length calib pred c f)).
Proof.
  induction fs as [|f fs IH]; intros n i.
  - cbn. split; [tauto|]. intros (f & Hf & _). discriminate Hf.
  - cbn [imap concat]. rewrite in_app_iff.
    unfold iteration_effects at 1. rewrite in_app_iff, in_map_iff.
    rewrite imap_shift.
    destruct i as [|i].
    + split.
      * intros [[(call' & Heq & Hin) | Hpub] | Hrest].
        -- assert (call' = call) by congruence. subst call'.
           exists f. split; [reflexivity|assumption].
        -- exfalso. exact (in_publish _ _ _ _ _ Hpub).
        -- apply kalman_index_lower in Hrest. lia.
      * intros (g & Hg & Hin). injection Hg as <-.
        left. left. exists call. split; [reflexivity|assumption].
    + replace (n + Datatypes.S i) with (Datatypes.S n + i) by lia.
      rewrite IH. cbn [lookup list_lookup].
      split; [|tauto].
      intros [[(call' & Heq & _) | Hpub] | Hrest]; [| |assumption].
      * assert (n + 0 = Datatypes.S n + i) by congruence. lia.
      * exfalso. exact (in_publish _ _ _ _ _ Hpub).
Qed.

Lemma filter_kalman_at_calls (i j : nat) (calls : list kf_call) :
  List.filter (is_kalman_at i) (map (kalman j) calls : list (effect F))
  = if j =? i then map (kalman j) calls else [].
Proof.
  induction calls as [|k calls IH]; [destruct (j =? i); reflexivity|].
  cbn [map List.filter is_kalman_at]. rewrite IH. destruct (j =? i); reflexivity.
Qed.

Lemma filter_kalman_at_publish (i : nat) (c : controls F) (tv : timeval) (f : filter F) :
  List.filter (is_kalman_at i) (publish calib c tv f) = [].
Proof. unfold publish. destruct (Mat.empty (state f)); reflexivity. Qed.

(* the iterations from index m on do not call the filters below m *)
Lemma kalman_calls_below (pred : arucotag_predictor F) (c : controls F) :
  forall fs m k, k < m ->
    List.filter (is_kalman_at k)
      (concat (imap (fun j => iteration_effects period_ms length calib pred c
                                gettimeofday (m + j)) fs)) = [].
Proof.
  induction fs as [|g gs IH]; intros m k Hk; [reflexivity|].
  cbn [imap concat]. rewrite List.filter_app, imap_shift, IH by lia.
  unfold iteration_effects.
  rewrite List.filter_app, filter_kalman_at_calls, filter_kalman_at_publish.
  replace (m + 0 =? k) with false by (symmetry; apply Nat.eqb_neq; lia).
  reflexivity.
Qed.

(* the calls of the Kalman filter of [filters[i]], in order *)
Lemma kalman_calls_at (pred : arucotag_predictor F) (c : controls F) :
  forall fs n i,
    List.filter (is_kalman_at (n + i))
      (concat (imap (fun j => iteration_effects period_ms length calib pred c
                                gettimeofday (n + j)) fs))
    = match fs !! i with
      | Some f => map (kalman (n + i)) (snd (update_filter period_ms length calib pred c f))
      | None => []
      end.
Proof.
  induction fs as [|f fs IH]; intros n i; [reflexivity|].
  cbn [imap concat]. rewrite List.filter_app, imap_shift.
  unfold iteration_effects at 1.
  rewrite List.filter_app, filter_kalman_at_calls, filter_kalman_at_publish, app_nil_r.
  destruct i as [|i].
  - rewrite Nat.eqb_refl. rewrite kalman_calls_below by lia.
    rewrite app_nil_r. reflexivity.
  - replace (n + 0 =? n + Datatypes.S i) with false by (symmetry; apply Nat.eqb_neq; lia).
    replace (n + Datatypes.S i) with (Datatypes.S n + i) by lia.
    rewrite IH. reflexivity.
Qed.

(* what an iteration calls: nothing for a filter without state, predict
   for a filter with a state, and then correct when its marker is detected *)
Lemma update_filter_calls (pred : arucotag_predictor F) (c : controls F) (f : filter F) :
  let calls := snd (update_filter period_ms length calib pred c f) in
  (Mat.empty (state f) = true -> calls = [])
  /\ (calls = [] \/ calls = [kf_predict] \/ calls = [kf_predict; kf_correct]).
Proof.
  unfold update_filter.
  destruct (Mat.empty (state f)).
  - destruct (find _ _); cbn; auto.
  - destruct (KF_predict _ _) as [kf3 st3].
    destruct (find _ _); [destruct (KF_correct _ _)|]; cbn; split; auto; discriminate.
Qed.

(* [predict_main] without reset, seen from the filter at index i *)
Lemma predict_main_at (pred : arucotag_predictor F) (drone : option (drone_data F))
    (i : nat) (f : filter F) :
  (nfilters pred <= 65535)%Z ->
  filters pred !! i = Some f ->
  let c := get_control pred drone in
  exists pred' tr ev,
    predict_main period_ms false length calib pred drone gettimeofday = Some (pred', tr, ev)
    /\ nfilters pred' = nfilters pred
    /\ C_T_B pred' = C_T_B pred
    /\ filters pred' !! i = Some (updated period_ms length calib pred c f)
    /\ (forall call, In (kalman i call) tr
                     <-> In call (snd (update_filter period_ms length calib pred c f)))
    /\ List.filter (is_kalman_at i) tr
       = map (kalman i) (snd (update_filter period_ms length calib pred c f)).
Proof.
  intros Hsize Hf c.
  eexists _, _, _. split; [apply predict_main_run; [exact Hsize|reflexivity]|].
  split; [unfold nfilters; cbn; rewrite length_map; reflexivity|].
  split; [reflexivity|].
  split; [cbn; rewrite lookup_map, Hf; reflexivity|].
  split.
  - intros call.
    pose proof (kalman_in_loop pred c call (filters pred) 0 i) as Hk.
    cbn [Nat.add] in Hk. split.
    + intros Hin. apply Hk in Hin. destruct Hin as (g & Hg & Hin).
      rewrite Hf in Hg. injection Hg as <-. exact Hin.
    + intros Hin. apply (proj2 Hk). exists f. auto.
  - pose proof (kalman_calls_at pred c (filters pred) 0 i) as Hk.
    cbn [Nat.add] in Hk. rewrite Hf in Hk. exact Hk.
Qed.

End OneFilter.

(** ** First detection *)

Section FirstDetection.
Context {F : Type} `{Scalar F} `{OpenCV F}.
Variable period_ms : Q.
Variable length : F.
Variable calib : arucotag_calib F.

(* the block of a measurement that holds the position is empty only when
   the measurement is *)
Lemma roi_position_not_empty (m : list (list F)) :
  Mat.empty m = false -> Mat.empty (Mat.roi m (Mat.mkRect 0 0 1 3)) = false.
Proof.
  destruct m as [|[|x r] m]; cbn; try discriminate. reflexivity.
Qed.

(* A filter without state, in a period without a detection of its marker. *)
Lemma period_without_detection (pred : arucotag_predictor F) (b : batch F)
    (i : nat) (f : filter F) :
  (nfilters pred <= 65535)%Z ->
  filters pred !! i = Some f ->
  Mat.empty (state f) = true ->
  find (det_ids b) (id f) = None ->
  exists pred' tr ev,
    predict_main period_ms false length calib (with_batch pred b) (det_drone b) (det_clock b)
    = Some (pred', tr, ev)
    /\ (nfilters pred' <= 65535)%Z
    /\ filters pred' !! i = Some f
    /\ (forall call, ~ In (kalman i call) tr).
Proof.
  intros Hsize Hf Hempty Hfind.
  destruct (predict_main_at period_ms length calib (det_clock b) (with_batch pred b)
              (det_drone b) i f Hsize Hf) as (pred' & tr & ev & Hrun & Hn & _ & Hi & Hcalls & _).
  exists pred', tr, ev. split; [exact Hrun|].
  split; [rewrite Hn; exact Hsize|].
  unfold updated, update_filter in Hi. unfold update_filter in Hcalls.
  cbn [new_detections with_batch] in Hi, Hcalls.
  rewrite Hempty, Hfind in Hi, Hcalls.
  split; [exact Hi|].
  intros call Hin. apply Hcalls in Hin. exact Hin.
Qed.

(* As long as its marker is not detected, a filter without state is left
   as it is, and its Kalman filter is not called. *)
Lemma run_without_detection (i : nat) (f : filter F) :
  Mat.empty (state f) = true ->
  forall (bs : list (batch F)) (pred : arucotag_predictor F),
    (nfilters pred <= 65535)%Z ->
    filters pred !! i = Some f ->
    Forall (fun b => find (det_ids b) (id f) = None) bs ->
    exists pred' trs,
      main_run period_ms length calib bs pred = Some (pred', trs)
      /\ (nfilters pred' <= 65535)%Z
      /\ filters pred' !! i = Some f
      /\ Forall (fun tr => forall call, ~ In (kalman i call) tr) trs.
Proof.
  intros Hempty. induction bs as [|b bs IH]; intros pred Hsize Hf Hbs.
  - exists pred, []. cbn. auto.
  - inversion Hbs as [|b' bs' Hb Hbs']; subst.
    destruct (period_without_detection pred b i f Hsize Hf Hempty Hb)
      as (pred1 & tr & ev & Hrun & Hsize1 & Hf1 & Hcalls).
    destruct (IH pred1 Hsize1 Hf1 Hbs') as (pred2 & trs & Hruns & Hsize2 & Hf2 & Hcalls2).
    exists pred2, (tr :: trs). cbn [main_run]. rewrite Hrun, Hruns.
    split; [reflexivity|]. split; [assumption|]. split; [assumption|].
    constructor; assumption.
Qed.

(** C2, amended: over the periods in which [predict_main] runs without
    reset, a filter without state stays without state, and its Kalman
    filter is not called, as long as its marker is not among the new
    detections; in the first of these periods in which it is, the filter
    gets as
    state the position of the measurement, which is also copied to
    statePre and statePost while the rest of the Kalman filter is left as
    it was, and neither predict nor correct is called for it in that
    period. *)
Theorem first_detection_initialises (before : list (batch F)) (b : batch F)
    (pred : arucotag_predictor F) (i : nat) (f : filter F) (k : nat) :
  (nfilters pred <= 65535)%Z ->
  filters pred !! i = Some f ->
  Mat.empty (state f) = true ->
  Forall (fun b' => find (det_ids b') (id f) = None) before ->
  find (det_ids b) (id f) = Some k ->
  Mat.empty (nth k (det_meas b) []) = false ->
  let z := Mat.roi (nth k (det_meas b) []) (Mat.mkRect 0 0 1 3) in
  exists pred1 trs1 pred2 tr2 ev f2,
    main_run period_ms length calib before pred = Some (pred1, trs1)
    /\ filters pred1 !! i = Some f
    /\ Forall (fun tr => forall call, ~ In (kalman i call) tr) trs1
    /\ predict_main period_ms false length calib (with_batch pred1 b) (det_drone b) (det_clock b)
       = Some (pred2, tr2, ev)
    /\ filters pred2 !! i = Some f2
    /\ id f2 = id f
    /\ state f2 = z /\ statePre (kf f2) = z /\ statePost (kf f2) = z
    /\ Mat.empty (state f2) = false
    /\ kf f2 = set_statePost (set_statePre (kf f) z) z
    /\ (forall call, ~ In (kalman i call) tr2).
Proof.
  intros Hsize Hf Hempty Hbefore Hfind Hmeas z.
  destruct (run_without_detection i f Hempty before pred Hsize Hf Hbefore)
    as (pred1 & trs1 & Hruns & Hsize1 & Hf1 & Hcalls1).
  destruct (predict_main_at period_ms length calib (det_clock b) (with_batch pred1 b)
              (det_drone b) i f Hsize1 Hf1) as (pred2 & tr2 & ev & Hrun & _ & _ & Hi & Hcalls & _).
  unfold updated, update_filter in Hi. unfold update_filter in Hcalls.
  cbn [new_detections with_batch] in Hi, Hcalls.
  rewrite Hempty, Hfind in Hi, Hcalls. cbn [fst snd] in Hi, Hcalls.
  eexists pred1, trs1, pred2, tr2, ev, _.
  split; [exact Hruns|]. split; [exact Hf1|]. split; [exact Hcalls1|].
  split; [exact Hrun|]. split; [exact Hi|].
  cbn [id state kf set_statePre set_statePost statePre statePost].
  repeat split.
  - apply roi_position_not_empty. exact Hmeas.
  - intros call Hin. apply Hcalls in Hin. exact Hin.
Qed.

End FirstDetection.

(* C2, amended, on a marker that is detected in the third period. *)
Lemma first_detection_witness :
  let pred0 := mkPred [Demo.unseen 7; Demo.tracked 9 1 2 3] [] [] (Mat.eye 6 6) in
  let quiet := mkBatch [9%Z] [Demo.measurement 1 2 3] (Some Demo.drone_at_rest) Demo.clock in
  let seen := mkBatch [9%Z; 7%Z] [Demo.measurement 1 2 3; Demo.measurement 4 5 6]
                      None Demo.clock in
  exists pred1 trs1 pred2 tr2 ev f2,
    main_run Demo.period_ms 1%Q Demo.calib0 [quiet; quiet] pred0 = Some (pred1, trs1)
    /\ filters pred1 !! 0 = Some (Demo.unseen 7)
    /\ Forall (fun tr => forall call, ~ In (kalman 0 call) tr) trs1
    /\ predict_main Demo.period_ms false 1%Q Demo.calib0 (with_batch pred1 seen)
                    (det_drone seen) (det_clock seen) = Some (pred2, tr2, ev)
    /\ filters pred2 !! 0 = Some f2
    /\ id f2 = 7%Z
    /\ state f2 = Mat.vec3 4%Q 5%Q 6%Q
    /\ statePre (kf f2) = Mat.vec3 4%Q 5%Q 6%Q
    /\ statePost (kf f2) = Mat.vec3 4%Q 5%Q 6%Q
    /\ Mat.empty (state f2) = false
    /\ kf f2 = set_statePost (set_statePre Demo.kf0 (Mat.vec3 4%Q 5%Q 6%Q)) (Mat.vec3 4%Q 5%Q 6%Q)
    /\ (forall call, ~ In (kalman 0 call) tr2).
Proof.
  intros pred0 quiet seen.
  refine (first_detection_initialises Demo.period_ms 1%Q Demo.calib0 [quiet; quiet] seen
            pred0 0 (Demo.unseen 7) 1 _ _ _ _ _ _).
  - vm_compute. discriminate.
  - reflexivity.
  - reflexivity.
  - repeat constructor.
  - reflexivity.
  - reflexivity.
Defined.

(** C2 as it is stated does not hold when the period in which the marker
    first appears among the new detections finds the reset set: the filter
    of the marker 7 has no state after that period, and the detection is
    still there. *)
Lemma reset_period_delays_first_detection :
  let s0 := mkIds true 1%Q Demo.calib0
              (mkPred [Demo.unseen 7] [7%Z] [Demo.measurement 4 5 6] (Mat.eye 6 6)) None in
  let inp0 := mkInputs None (Some Demo.drone_at_rest) Demo.clock Demo.disk_done in
  find (new_detections (pred s0)) 7%Z = Some 0
  /\ exists s' tr r',
       period Demo.period_ms Demo.modulus Demo.fmt at_main inp0 s0 = Some (s', tr, r')
       /\ state <$> filters (pred s') = [[]]
       /\ new_detections (pred s') = [7%Z].
Proof.
  cbv zeta. split; [reflexivity|].
  eexists _, _, _. split; [vm_compute; reflexivity|].
  split; reflexivity.
Qed.

(** ** Correction *)

Section Correction.
Context {F : Type} `{Scalar F} `{OpenCV F}.
Variable period_ms : Q.
Variable length : F.
Variable calib : arucotag_calib F.
Variable gettimeofday : Z -> timeval.

(** C3: for a filter that has a state and whose marker is among the new
    detections, the Kalman filter on which correct is called has as
    measurement covariance sigma_p * sigma_p * (J^T J)^-1 with sigma_p = 3,
    where J, of 8 rows and 3 columns, stacks, for the four corners of the marker, of coordinates
    -+1 * length / 2 in its plane, the three translational columns of the
    product of the Jacobian of the pixelization and the Jacobian of the
    projection, computed from the measured pose of the marker at each
    correction; the state and the Kalman filter that the iteration leaves,
    and that [predict_main] leaves when its loop ends, are what that call
    of correct gives. *)
Theorem correction_covariance (pred : arucotag_predictor F) (drone : option (drone_data F))
    (i : nat) (f : filter F) (k : nat) :
  has_shape 3 3 (K calib) = true ->
  filters pred !! i = Some f ->
  Mat.empty (state f) = false ->
  find (new_detections pred) (id f) = Some k ->
  let m := meas_at pred k in
  let C_t_M := Mat.roi m (Mat.mkRect 0 0 1 3) in
  let C_R_M := Rodrigues (Mat.roi m (Mat.mkRect 0 3 1 3)) in
  let J := stacked_jacobian length (K calib) C_R_M C_t_M in
  has_shape 8 3 J = true
  /\ exists kf_used,
    measurementNoiseCov kf_used
    = Mat.smul (lit 3%Q * lit 3%Q)%F (inv (Mat.mul (Mat.t J) J))
    /\ update_filter period_ms length calib pred (get_control pred drone) f
       = (mkFilter (id f) (snd (KF_correct kf_used C_t_M)) (fst (KF_correct kf_used C_t_M)),
          [kf_predict; kf_correct])
    /\ ((nfilters pred <= 65535)%Z ->
        exists pred' tr ev,
          predict_main period_ms false length calib pred drone gettimeofday
          = Some (pred', tr, ev)
          /\ filters pred' !! i
             = Some (mkFilter (id f) (snd (KF_correct kf_used C_t_M))
                              (fst (KF_correct kf_used C_t_M)))
          /\ In (kalman i kf_correct) tr).
Proof.
  intros HK Hf Hstate Hfind m C_t_M C_R_M J.
  assert (Hupd : exists kf_used,
             measurementNoiseCov kf_used
             = Mat.smul (lit 3%Q * lit 3%Q)%F (inv (Mat.mul (Mat.t J) J))
             /\ update_filter period_ms length calib pred (get_control pred drone) f
                = (mkFilter (id f) (snd (KF_correct kf_used C_t_M))
                            (fst (KF_correct kf_used C_t_M)),
                   [kf_predict; kf_correct])).
  { unfold update_filter. rewrite Hstate, Hfind.
    destruct (KF_predict _ _) as [kf3 st3].
    exists (set_measurementNoiseCov kf3 (measurement_cov length calib (meas_at pred k))).
    split.
    - cbn [measurementNoiseCov set_measurementNoiseCov]. unfold measurement_cov.
      rewrite jacobian_J_stacked by exact HK. reflexivity.
    - fold m C_t_M. destruct (KF_correct _ C_t_M) as [kf5 st5]. reflexivity. }
  destruct Hupd as (kf_used & Hcov & Hupd).
  split; [apply stacked_jacobian_shape; exact HK|].
  exists kf_used. split; [exact Hcov|]. split; [exact Hupd|].
  intros Hsize.
  destruct (predict_main_at period_ms length calib gettimeofday pred drone i f Hsize Hf)
    as (pred' & tr & ev & Hrun & _ & _ & Hi & Hcalls & _).
  unfold updated in Hi. rewrite Hupd in Hi, Hcalls. cbn [fst snd] in Hi, Hcalls.
  exists pred', tr, ev. split; [exact Hrun|]. split; [exact Hi|].
  apply Hcalls. cbn. auto.
Qed.

End Correction.

(* C3 on a tracked marker that is detected again. *)
Lemma correction_covariance_witness :
  let pred0 := mkPred [Demo.tracked 9 1 2 3] [9%Z] [Demo.measurement 1 2 4] (Mat.eye 6 6) in
  let m := meas_at pred0 0 in
  let C_t_M := Mat.roi m (Mat.mkRect 0 0 1 3) in
  let C_R_M := Rodrigues (Mat.roi m (Mat.mkRect 0 3 1 3)) in
  let J := stacked_jacobian 1%Q (K Demo.calib0) C_R_M C_t_M in
  has_shape 8 3 J = true
  /\ exists kf_used,
    measurementNoiseCov kf_used
    = Mat.smul (lit 3%Q * lit 3%Q)%F (inv (Mat.mul (Mat.t J) J))
    /\ update_filter Demo.period_ms 1%Q Demo.calib0 pred0
         (get_control pred0 (Some Demo.drone_at_rest)) (Demo.tracked 9 1 2 3)
       = (mkFilter 9%Z (snd (KF_correct kf_used C_t_M)) (fst (KF_correct kf_used C_t_M)),
          [kf_predict; kf_correct])
    /\ ((nfilters pred0 <= 65535)%Z ->
        exists pred' tr ev,
          predict_main Demo.period_ms false 1%Q Demo.calib0 pred0 (Some Demo.drone_at_rest)
                       Demo.clock = Some (pred', tr, ev)
          /\ filters pred' !! 0
             = Some (mkFilter 9%Z (snd (KF_correct kf_used C_t_M))
                              (fst (KF_correct kf_used C_t_M)))
          /\ In (kalman 0 kf_correct) tr).
Proof.
  intros pred0 m C_t_M C_R_M J.
  refine (correction_covariance Demo.period_ms 1%Q Demo.calib0 Demo.clock pred0
            (Some Demo.drone_at_rest) 0 (Demo.tracked 9 1 2 3) 0 _ _ _ _).
  - reflexivity.
  - reflexivity.
  - reflexivity.
  - reflexivity.
Defined.

(** ** The detections of a period *)

Section Detections.
Context {F : Type} `{Scalar F} `{OpenCV F}.
Variable period_ms : Q.
Variable modulus : Z.
Variable fmt : Z -> Z -> Z -> Z -> F -> F -> F -> string.

(** C10: an execution of [predict_main] without reset ends and leaves the
    detections empty; during it the Kalman filter of a filter is called at
    most once for a correction, after one prediction, and not at all for a
    filter that had no state (the one that a detection initialises); no
    function of the logger is called, and when no filter has a state after
    the loop the period stops there: [predict_log] does not run and the
    state of the logger is the one the period started with.  A period that
    finds the reset set leaves the detections as they were. *)
Theorem detections_consumed (inp : inputs F) (s : ids F) :
  (nfilters (pred s) <= 65535)%Z ->
  (reset s = false ->
     exists pred' tr ev,
       predict_main period_ms false (length_ s) (calib s) (pred s) (drone inp)
                    (gettimeofday inp) = Some (pred', tr, ev)
       /\ new_detections pred' = []
       /\ (forall i f, filters (pred s) !! i = Some f ->
             exists calls,
               List.filter (is_kalman_at i) tr = map (kalman i) calls
               /\ (Mat.empty (state f) = true -> calls = [])
               /\ (calls = [] \/ calls = [kf_predict] \/ calls = [kf_predict; kf_correct]))
       /\ writes tr = 0
       /\ (all_empty (filters pred') = true ->
             run_main period_ms modulus fmt inp s
             = Some (mkIds (reset s) (length_ s) (calib s) pred' (log s), tr, at_main)))
  /\ (reset s = true ->
        forall r, exists s' r',
          period period_ms modulus fmt r inp s = Some (s', [], r')
          /\ new_detections (pred s') = new_detections (pred s)).
Proof.
  intros Hsize. split.
  - intros Hreset.
    pose proof (predict_main_run period_ms (length_ s) (calib s)
                  (get_control (pred s) (drone inp)) (gettimeofday inp)
                  (pred s) (drone inp) Hsize eq_refl) as Hrun.
    eexists _, _, _. split; [exact Hrun|].
    split; [reflexivity|]. split; [|split; [apply no_write_in_loop|]].
    + intros i f Hf.
      pose proof (kalman_calls_at period_ms (length_ s) (calib s) (gettimeofday inp) (pred s)
                    (get_control (pred s) (drone inp)) (filters (pred s)) 0 i) as Hk.
      cbn [Nat.add] in Hk. rewrite Hf in Hk.
      eexists. split; [exact Hk|].
      apply update_filter_calls.
    + cbn [filters]. intros Hempty.
      unfold run_main. rewrite Hreset, Hrun.
      unfold final_event. rewrite Hempty. reflexivity.
  - intros Hreset r.
    destruct (period_under_reset period_ms modulus fmt r inp s Hreset)
      as (s' & r' & Hp & _ & Hn & _).
    exists s', r'. auto.
Qed.

End Detections.

(* C10 on a marker that was never seen and is not detected, and a marker
   that is tracked and detected. *)
Lemma detections_consumed_witness :
  let s0 := mkIds false 1%Q Demo.calib0
              (mkPred [Demo.unseen 7; Demo.tracked 9 1 2 3] [9%Z] [Demo.measurement 1 2 4]
                      (Mat.eye 6 6))
              (Some Demo.log0) in
  let inp0 := mkInputs None (Some Demo.drone_at_rest) Demo.clock Demo.disk_done in
  (nfilters (pred s0) <= 65535)%Z
  /\ exists pred' tr ev,
       predict_main Demo.period_ms false (length_ s0) (calib s0) (pred s0) (drone inp0)
                    (gettimeofday inp0) = Some (pred', tr, ev)
       /\ new_detections pred' = []
       /\ (forall i f, filters (pred s0) !! i = Some f ->
             exists calls,
               List.filter (is_kalman_at i) tr = map (kalman i) calls
               /\ (Mat.empty (state f) = true -> calls = [])
               /\ (calls = [] \/ calls = [kf_predict] \/ calls = [kf_predict; kf_correct]))
       /\ writes tr = 0
       /\ (all_empty (filters pred') = true ->
             run_main Demo.period_ms Demo.modulus Demo.fmt inp0 s0
             = Some (mkIds (reset s0) (length_ s0) (calib s0) pred' (log s0), tr, at_main)).
Proof.
  intros s0 inp0.
  assert (Hsize : (nfilters (pred s0) <= 65535)%Z) by (vm_compute; discriminate).
  split; [exact Hsize|].
  exact (proj1 (detections_consumed Demo.period_ms Demo.modulus Demo.fmt inp0 s0 Hsize)
               eq_refl).
Defined.

(** ** The loop of predict_log *)

Section Strings.

Lemma append_cons (x : ascii) (a b : string) : String x a +:+ b = String x (a +:+ b).
Proof. reflexivity. Qed.

Lemma append_assoc (a b c : string) : (a +:+ b) +:+ c = a +:+ (b +:+ c).
Proof.
  induction a as [|x a IH]; [reflexivity|].
  rewrite !append_cons, IH. reflexivity.
Qed.

Lemma append_nil_r (a : string) : a +:+ EmptyString = a.
Proof.
  induction a as [|x a IH]; [reflexivity|].
  rewrite append_cons, IH. reflexivity.
Qed.

Lemma length_append (a b : string) :
  String.length (a +:+ b) = String.length a + String.length b.
Proof.
  induction a as [|x a IH]; [reflexivity|].
  rewrite append_cons. cbn [String.length]. rewrite IH. reflexivity.
Qed.

(* a text that fits is not cut *)
Lemma substring_fits (s : string) (n : nat) :
  String.length s <= n -> substring 0 n s = s.
Proof.
  revert n. induction s as [|x s IH]; intros [|n] Hn; try reflexivity.
  - cbn in Hn. lia.
  - cbn [String.length] in Hn. cbn [substring]. f_equal. apply IH. lia.
Qed.

End Strings.

Section LogLoop.
Context {F : Type} `{Scalar F}.
Variable fmt : Z -> Z -> Z -> Z -> F -> F -> F -> string.
Variable pred : arucotag_predictor F.
Variable tv : timeval.

Local Abbreviation step :=
  (fun (i : nat) (l : arucotag_log_s) =>
     match log_body fmt pred tv (Z.of_nat i) l with inl l' => l' | inr _ => l end).

(* the iterations for the filters that follow a first one *)
Lemma log_iterate_tail :
  forall rest done l,
    filters pred = done ++ rest -> done <> [] ->
    iterate step (List.length done) (List.length rest) l
    = log_filled l (log_bytes fmt (skipped l) tv rest)
                   (buffer l +:+ log_text fmt (skipped l) tv rest).
Proof.
  induction rest as [|f rest IH]; intros done l Hfs Hdone.
  - cbn. unfold log_filled, log_text, log_bytes. cbn.
    rewrite append_nil_r, Z.add_0_r. destruct l; reflexivity.
  - cbn [List.length iterate].
    assert (Hstep : step (List.length done) l
                    = if Mat.empty (state f) then l
                      else log_filled l (Z.of_nat (String.length (log_line fmt (skipped l) tv f)))
                             (buffer l +:+ substring 0 511 (log_line fmt (skipped l) tv f))).
    { unfold log_body. rewrite Nat2Z.id, Hfs, list_lookup_middle by reflexivity.
      destruct (Mat.empty (state f)); [reflexivity|].
      replace (Z.of_nat (List.length done) =? 0)%Z with false; [reflexivity|].
      symmetry. apply Z.eqb_neq. destruct done; [contradiction|]. cbn [List.length]. lia. }
    rewrite Hstep.
    replace (Datatypes.S (List.length done)) with (List.length (done ++ [f]))
      by (rewrite length_app; cbn; lia).
    rewrite IH; [|rewrite <- app_assoc; exact Hfs|destruct done; discriminate].
    unfold log_text, log_bytes, logged. cbn [List.filter].
    destruct (Mat.empty (state f)); cbn [negb]; [reflexivity|].
    cbn [map foldr]. unfold log_filled, set_buffer, set_nbytes.
    cbn [aio_fildes aio_nbytes buffer pending skipped decimation missed total].
    rewrite append_assoc. f_equal. lia.
Qed.

(* the whole loop *)
Lemma log_iterate_all (l : arucotag_log_s) :
  iterate step 0 (List.length (filters pred)) l
  = log_filled l (log_bytes fmt (skipped l) tv (filters pred))
      ((if first_logged (filters pred) then EmptyString else buffer l)
       +:+ log_text fmt (skipped l) tv (filters pred)).
Proof.
  destruct (filters pred) as [|f rest] eqn:Hfs.
  - cbn. unfold log_filled, log_text, log_bytes. cbn.
    rewrite append_nil_r, Z.add_0_r. destruct l; reflexivity.
  - cbn [List.length iterate first_logged].
    assert (Hstep : step 0 l
                    = if Mat.empty (state f) then l
                      else log_filled l (Z.of_nat (String.length (log_line fmt (skipped l) tv f)))
                             (substring 0 511 (log_line fmt (skipped l) tv f))).
    { unfold log_body. rewrite Hfs. change (Z.of_nat 0) with 0%Z.
      change (Z.to_nat 0) with 0. cbn [lookup list_lookup].
      destruct (Mat.empty (state f)); reflexivity. }
    rewrite Hstep.
    change 1 with (List.length [f]).
    rewrite (log_iterate_tail rest [f]); [|exact Hfs|discriminate].
    unfold log_text, log_bytes, logged. cbn [List.filter].
    destruct (Mat.empty (state f)); cbn [negb]; [reflexivity|].
    cbn [map foldr]. unfold log_filled, set_buffer, set_nbytes.
    cbn [aio_fildes aio_nbytes buffer pending skipped decimation missed total].
    f_equal. lia.
Qed.

Lemma log_loop_run (l : arucotag_log_s) :
  (nfilters pred <= 65535)%Z ->
  for_u16 (loop_fuel pred) (fun _ => nfilters pred) (log_body fmt pred tv) 0%Z l
  = Some (inl (log_filled l (log_bytes fmt (skipped l) tv (filters pred))
                 ((if first_logged (filters pred) then EmptyString else buffer l)
                  +:+ log_text fmt (skipped l) tv (filters pred)))).
Proof.
  intros Hsize. unfold loop_fuel.
  rewrite (for_u16_iterate (fun _ => nfilters pred) (log_body fmt pred tv) step
             (List.length (filters pred)) Hsize) with (i := 0).
  - rewrite log_iterate_all. reflexivity.
  - intros i s _ _. split; [|reflexivity].
    unfold log_body. destruct (filters pred !! _); [|reflexivity].
    destruct (Mat.empty _); [reflexivity|]. destruct (_ =? _)%Z; reflexivity.
  - reflexivity.
  - reflexivity.
Qed.

End LogLoop.

(** ** One execution of predict_log *)

Section LogStep.
Context {F : Type} `{Scalar F}.
Variable modulus : Z.
Variable fmt : Z -> Z -> Z -> Z -> F -> F -> F -> string.

Local Abbreviation issued := (issued fmt).

(* the counter of cycles after the codel *)
Local Abbreviation next_total l := ((total l + 1) mod modulus)%Z.

(* A cycle that finds a request in progress when the decimation selects
   it: nothing is written, the cycle is counted as missed and marked. *)
Lemma predict_log_busy (pred : arucotag_predictor F) (l : arucotag_log_s) (env : aio_env) :
  (0 <= aio_fildes l)%Z ->
  decimation l <> 0%Z ->
  (next_total l mod decimation l = 0)%Z ->
  pending l = true ->
  aio_error_in_progress env = true ->
  predict_log modulus fmt pred (Some l) env
  = Some (Some (mkLog (aio_fildes l) (aio_nbytes l) (buffer l) true true (decimation l)
                      ((missed l + 1) mod modulus)%Z (next_total l)),
          [], arucotag_pause_main).
Proof.
  intros Hfd Hdec Hdue Hpending Hbusy.
  unfold predict_log, log_poll.
  apply Z.leb_le in Hfd. rewrite Hfd.
  cbn [decimation set_total total pending].
  apply Z.eqb_neq in Hdec. rewrite Hdec.
  apply Z.eqb_eq in Hdue. rewrite Hdue.
  rewrite Hpending, Hbusy. cbn [negb].
  cbn [aio_fildes set_missed set_skipped set_total pending].
  rewrite Hfd, Hpending. cbn [andb negb].
  unfold set_missed, set_skipped, set_total.
  cbn [aio_fildes aio_nbytes buffer pending skipped decimation missed total].
  rewrite Hpending. reflexivity.
Qed.

(* the second part of the codel, when no request is pending *)
Lemma predict_log_issue (pred : arucotag_predictor F) (l l1 : arucotag_log_s)
    (tr : list (effect F)) (env : aio_env) :
  (nfilters pred <= 65535)%Z ->
  log_poll modulus l env = Some (l1, tr) ->
  (0 <= aio_fildes l1)%Z ->
  pending l1 = false ->
  aio_write_result env = 0%Z ->
  predict_log modulus fmt pred (Some l) env
  = Some (Some (set_skipped (set_pending (issued pred l1 env) true) false),
          tr ++ [aio_write (aio_nbytes (issued pred l1 env)) (buffer (issued pred l1 env)) 0%Z],
          arucotag_pause_main).
Proof.
  intros Hsize Hpoll Hfd Hpending Hret.
  unfold predict_log. rewrite Hpoll.
  apply Z.leb_le in Hfd. rewrite Hfd, Hpending. cbn [andb negb].
  rewrite log_loop_run by exact Hsize.
  rewrite Hret. reflexivity.
Qed.

(* the second part of the codel, when a request is pending *)
Lemma predict_log_wait (pred : arucotag_predictor F) (l l1 : arucotag_log_s)
    (tr : list (effect F)) (env : aio_env) :
  log_poll modulus l env = Some (l1, tr) ->
  pending l1 = true ->
  predict_log modulus fmt pred (Some l) env = Some (Some l1, tr, arucotag_pause_main).
Proof.
  intros Hpoll Hpending. unfold predict_log. rewrite Hpoll, Hpending.
  rewrite andb_false_r. reflexivity.
Qed.

(* One period of the logger when the disk keeps up and the log writes every
   5 periods: a request is issued when none was pending or when the counter
   of cycles reaches a multiple of 5, and a request is pending afterwards. *)
Lemma predict_log_keeping_up (pred : arucotag_predictor F) (l : arucotag_log_s) (env : aio_env) :
  (nfilters pred <= 65535)%Z ->
  no_back_pressure env = true ->
  (0 <= aio_fildes l)%Z ->
  decimation l = 5%Z ->
  (0 <= total l)%Z ->
  (total l + 1 < modulus)%Z ->
  exists l' tr,
    predict_log modulus fmt pred (Some l) env = Some (Some l', tr, arucotag_pause_main)
    /\ aio_fildes l' = aio_fildes l
    /\ decimation l' = 5%Z
    /\ total l' = (total l + 1)%Z
    /\ pending l' = true
    /\ writes tr = (if negb (pending l) || ((total l + 1) mod 5 =? 0)%Z then 1 else 0).
Proof.
  intros Hsize Henv Hfd Hdec Htotal Hwrap.
  unfold no_back_pressure in Henv.
  apply andb_true_iff in Henv as [Henv Hret]. apply andb_true_iff in Henv as [Hdone Hpos].
  apply negb_true_iff in Hdone. apply Z.eqb_eq in Hret. 
  assert (Hneg : (aio_return env <=? 0)%Z = false) by (apply Z.leb_gt, Z.ltb_lt; exact Hpos).
  assert (Hnext : next_total l = (total l + 1)%Z) by (apply Z.mod_small; lia).
  assert (Hfdb : (0 <=? aio_fildes l)%Z = true) by (apply Z.leb_le; exact Hfd).
  assert (Hpoll : log_poll (F := F) modulus l env
                  = Some (if pending l && ((total l + 1) mod 5 =? 0)%Z
                          then set_pending (set_total l (total l + 1)%Z) false
                          else set_total l (total l + 1)%Z, [])).
  { unfold log_poll. rewrite Hfdb, Hnext. cbn [decimation set_total total pending].
    rewrite Hdec. cbn [Z.eqb].
    destruct (pending l), ((total l + 1) mod 5 =? 0)%Z; cbn [andb]; try reflexivity.
    rewrite Hdone. cbn [negb]. rewrite Hneg. reflexivity. }
  destruct (pending l) eqn:Hpending; cbn [andb negb orb] in *.
  - destruct ((total l + 1) mod 5 =? 0)%Z eqn:Hdue.
    + eexists _, _. split.
      * eapply predict_log_issue; [exact Hsize|exact Hpoll|exact Hfd|reflexivity|exact Hret].
      * cbn. rewrite Hdec. auto.
    + eexists _, _. split.
      * eapply predict_log_wait; [exact Hpoll|exact Hpending].
      * cbn. rewrite Hdec. auto.
  - eexists _, _. split.
    + eapply predict_log_issue; [exact Hsize|exact Hpoll|exact Hfd|exact Hpending|exact Hret].
    + cbn. rewrite Hdec. auto.
Qed.

End LogStep.

(** ** Decimation *)

(* among 5 numbers in a row, one is a multiple of 5 *)
Lemma one_multiple_in_five (t : Z) :
  (0 <= t)%Z ->
  list_sum (map (fun k : nat => if ((t + Z.of_nat k + 1) mod 5 =? 0)%Z then 1 else 0) (seq 0 5))
  = 1.
Proof.
  intros Ht.
  assert (Hr : (0 <= t mod 5 < 5)%Z) by (apply Z.mod_pos_bound; lia).
  assert (Hmod : forall k : Z, ((t + k + 1) mod 5 = (t mod 5 + k + 1) mod 5)%Z).
  { intros k. replace (t + k + 1)%Z with (t + (k + 1))%Z by lia.
    replace (t mod 5 + k + 1)%Z with (t mod 5 + (k + 1))%Z by lia.
    rewrite Z.add_mod_idemp_l by lia. reflexivity. }
  cbn [seq map]. rewrite !Hmod.
  assert (Hcases : (t mod 5 = 0 \/ t mod 5 = 1 \/ t mod 5 = 2 \/ t mod 5 = 3 \/ t mod 5 = 4)%Z)
    by lia.
  destruct Hcases as [-> | [-> | [-> | [-> | ->]]]]; reflexivity.
Qed.

Section LogRunKeepingUp.
Context {F : Type} `{Scalar F}.
Variable modulus : Z.
Variable fmt : Z -> Z -> Z -> Z -> F -> F -> F -> string.

Lemma log_run_keeping_up :
  forall (steps : list (arucotag_predictor F * aio_env)) (l : arucotag_log_s),
    keeping_up steps ->
    (0 <= aio_fildes l)%Z ->
    decimation l = 5%Z ->
    (0 <= total l)%Z ->
    (total l + Z.of_nat (List.length steps) < modulus)%Z ->
    exists l' trs,
      log_run modulus fmt steps (Some l) = Some (Some l', trs)
      /\ map writes trs = map (write_due l) (seq 0 (List.length steps)).
Proof.
  induction steps as [|[pred env] steps IH]; intros l Hup Hfd Hdec Htotal Hwrap.
  - exists l, []. split; reflexivity.
  - inversion Hup as [|s ss [Hsize Henv] Hup']; subst. cbn [fst snd] in *.
    cbn [List.length] in Hwrap.
    destruct (predict_log_keeping_up modulus fmt pred l env Hsize Henv Hfd Hdec Htotal)
      as (l1 & tr & Hstep & Hfd1 & Hdec1 & Htotal1 & Hpending1 & Hwrites); [lia|].
    destruct (IH l1 Hup') as (l2 & trs & Hrun & Hws); [lia|exact Hdec1|lia|lia|].
    exists l2, (tr :: trs). cbn [log_run]. rewrite Hstep, Hrun.
    split; [reflexivity|].
    cbn [List.length seq map]. f_equal.
    + rewrite Hwrites. unfold write_due. cbn [Nat.eqb Z.of_nat].
      rewrite andb_true_r, Z.add_0_r. reflexivity.
    + rewrite Hws. rewrite <- seq_shift, map_map.
      apply map_ext. intros k. unfold write_due.
      rewrite Hpending1, Htotal1. cbn [negb andb orb Nat.eqb].
      rewrite andb_false_r. cbn [orb].
      replace (total l + 1 + Z.of_nat k + 1)%Z with (total l + Z.of_nat (Datatypes.S k) + 1)%Z
        by lia.
      reflexivity.
Qed.

(** C5, amended: with the logger enabled, a decimation of 5 and a disk that
    keeps up, a request is issued in the first period when none is pending,
    and for the rest in the periods in which the counter of cycles reaches
    a multiple of 5 and only in them; so, when a request is pending at the
    start, 5 consecutive periods issue one request. *)
Theorem decimated_writes (steps : list (arucotag_predictor F * aio_env))
    (l : arucotag_log_s) :
  keeping_up steps ->
  (0 <= aio_fildes l)%Z ->
  decimation l = 5%Z ->
  (0 <= total l)%Z ->
  (total l + Z.of_nat (List.length steps) < modulus)%Z ->
  exists l' trs,
    log_run modulus fmt steps (Some l) = Some (Some l', trs)
    /\ map writes trs
       = map (fun k => if (negb (pending l) && (k =? 0))
                          || ((total l + Z.of_nat k + 1) mod 5 =? 0)%Z
                       then 1 else 0)
             (seq 0 (List.length steps))
    /\ (pending l = true -> List.length steps = 5 -> list_sum (map writes trs) = 1).
Proof.
  intros Hup Hfd Hdec Htotal Hwrap.
  destruct (log_run_keeping_up steps l Hup Hfd Hdec Htotal Hwrap) as (l' & trs & Hrun & Hws).
  exists l', trs. split; [exact Hrun|]. split; [exact Hws|].
  intros Hpending Hlen. rewrite Hws, Hlen. unfold write_due. rewrite Hpending.
  cbn [negb andb orb]. apply one_multiple_in_five. exact Htotal.
Qed.

End LogRunKeepingUp.

(* C5, amended, on the 5 periods that follow the first period of a log. *)
Lemma decimated_writes_witness :
  let pred0 := mkPred [Demo.tracked 9 1 2 3] [] [] (Mat.eye 6 6) in
  let steps := replicate 5 (pred0, Demo.disk_done) in
  let l := mkLog 3 16 "100 0 9 1 1 2 3" true false 5 0 1 in
  exists l' trs,
    log_run Demo.modulus Demo.fmt steps (Some l) = Some (Some l', trs)
    /\ map writes trs
       = map (fun k => if (negb (pending l) && (k =? 0))
                          || ((total l + Z.of_nat k + 1) mod 5 =? 0)%Z
                       then 1 else 0)
             (seq 0 (List.length steps))
    /\ (pending l = true -> List.length steps = 5 -> list_sum (map writes trs) = 1).
Proof.
  intros pred0 steps l.
  refine (decimated_writes Demo.modulus Demo.fmt steps l _ _ _ _ _).
  - repeat constructor; vm_compute; discriminate.
  - vm_compute. discriminate.
  - reflexivity.
  - vm_compute. discriminate.
  - vm_compute. reflexivity.
Defined.

(** C5 as it is stated does not hold: a log that was just opened, with a
    decimation of 5, a marker that is tracked and a disk that keeps up,
    issues two requests in its first 5 periods, in the first and in the
    fifth. *)
Lemma fresh_log_writes_twice :
  let pred0 := mkPred [Demo.tracked 9 1 2 3] [] [] (Mat.eye 6 6) in
  let steps := replicate 5 (pred0, Demo.disk_done) in
  decimation Demo.log0 = 5%Z
  /\ (0 <= aio_fildes Demo.log0)%Z
  /\ logged (filters pred0) <> []
  /\ no_back_pressure Demo.disk_done = true
  /\ exists l' trs,
       log_run Demo.modulus Demo.fmt steps (Some Demo.log0) = Some (l', trs)
       /\ map writes trs = [1; 0; 0; 0; 1]
       /\ list_sum (map writes trs) <> 1.
Proof.
  cbv zeta. split; [reflexivity|]. split; [vm_compute; discriminate|].
  split; [vm_compute; discriminate|]. split; [reflexivity|].
  eexists _, _. split; [vm_compute; reflexivity|].
  split; [reflexivity|]. vm_compute. discriminate.
Qed.

(** ** Back-pressure *)

Section BackPressure.
Context {F : Type} `{Scalar F}.
Variable modulus : Z.
Variable fmt : Z -> Z -> Z -> Z -> F -> F -> F -> string.

(* After a skipped cycle, when the first filter of the collection has a
   state, the buffer of the next request starts with a newline. *)
Lemma issued_after_skip (pred : arucotag_predictor F) (l1 : arucotag_log_s) (env : aio_env) :
  first_logged (filters pred) = true ->
  skipped l1 = true ->
  exists rest, buffer (issued fmt pred l1 env) = nl +:+ rest.
Proof.
  intros Hfirst Hskip. unfold issued, log_filled. cbn [buffer set_buffer].
  rewrite Hfirst, Hskip. unfold log_text, logged.
  destruct (filters pred) as [|f fs]; [discriminate Hfirst|].
  cbn [first_logged] in Hfirst. cbn [List.filter]. rewrite Hfirst.
  cbn [map foldr]. unfold log_line at 1. unfold nl at 1.
  rewrite append_cons. cbn [substring]. rewrite !append_cons.
  eexists. reflexivity.
Qed.

End BackPressure.

(** C6 (the code departs from the claim): two markers, the first one never
    seen, the second one tracked; a log that was just opened.  The request
    of period 1 is still in progress in period 5: that cycle issues no
    request, counts one missed cycle and sets the skip flag.  The request
    is over in period 10, and the buffer of the request issued then does
    not start with a newline: it starts with the line of period 1, which is
    still in the buffer, and the count of bytes of the request is the
    length of the new text alone. *)
Theorem write_after_skip_keeps_old_text :
  let pred0 := mkPred [Demo.unseen 7; Demo.tracked 9 1 2 3] [] [] (Mat.eye 6 6) in
  let busy := (pred0, Demo.disk_busy) in
  let first := (pred0, Demo.disk_done) in
  let over := (pred0, mkAio false 1 0 (mkTimeval 200 0)) in
  let line1 := "100 0 9 1 1 2 3" +:+ nl in
  let line10 := nl +:+ "200 0 9 1 1 2 3" +:+ nl in
  exists l5 l10,
    log_run Demo.modulus Demo.fmt [first; busy; busy; busy; busy] (Some Demo.log0)
    = Some (Some l5, [[aio_write 16 line1 0]; []; []; []; []])
    /\ (pending l5, skipped l5, missed l5, total l5) = (true, true, 1%Z, 5%Z)
    /\ log_run Demo.modulus Demo.fmt [over; over; over; over; over] (Some l5)
       = Some (Some l10, [[]; []; []; []; [aio_write 17 (line1 +:+ line10) 0]])
    /\ String.get 0 (line1 +:+ line10) = Some "1"%char
    /\ String.get 0 (line1 +:+ line10) <> String.get 0 nl
    /\ substring 0 17 (line1 +:+ line10) = line1 +:+ nl.
Proof.
  cbv zeta. eexists _, _.
  split; [vm_compute; reflexivity|].
  split; [reflexivity|].
  split; [vm_compute; reflexivity|].
  split; [reflexivity|]. split; [discriminate|]. reflexivity.
Qed.

(** ** The text of a request *)

Section LogLines.
Context {F : Type} `{Scalar F}.
Variable modulus : Z.
Variable fmt : Z -> Z -> Z -> Z -> F -> F -> F -> string.

(* the first part of the codel issues no request and leaves the buffer; it
   leaves the skip flag too, unless a request stays pending *)
Lemma log_poll_frame (l l1 : arucotag_log_s) (tr : list (effect F)) (env : aio_env) :
  log_poll modulus l env = Some (l1, tr) ->
  (forall n b r, ~ In (aio_write n b r) tr)
  /\ buffer l1 = buffer l
  /\ (pending l1 = false -> skipped l1 = skipped l).
Proof.
  unfold log_poll. intros Hpoll.
  destruct (0 <=? aio_fildes l)%Z; [|injection Hpoll as <- <-; cbn; tauto].
  cbn [decimation set_total total pending] in Hpoll.
  destruct (decimation l =? 0)%Z; [discriminate|].
  destruct (_ mod _ =? 0)%Z; [|injection Hpoll as <- <-; cbn; tauto].
  destruct (pending l) eqn:Hpending; [|injection Hpoll as <- <-; cbn; tauto].
  destruct (negb (aio_error_in_progress env)).
  - destruct (aio_return env <=? 0)%Z; injection Hpoll as <- <-; cbn; [|tauto].
    split; [|tauto]. intros n b r [Heq|[Heq|[]]]; discriminate Heq.
  - injection Hpoll as <- <-. cbn. rewrite Hpending. split; [tauto|]. split; [reflexivity|].
    discriminate.
Qed.

(* the texts of the lines, when they fit in the buffer of snprintf *)
Lemma log_text_lines (tv : timeval) (fs : list (filter F)) :
  Forall (fun s => String.length s <= 511) (log_lines fmt tv fs) ->
  log_text fmt false tv fs = foldr String.append EmptyString (log_lines fmt tv fs)
  /\ log_bytes fmt false tv fs
     = Z.of_nat (String.length (foldr String.append EmptyString (log_lines fmt tv fs))).
Proof.
  unfold log_text, log_bytes, log_lines.
  induction (logged fs) as [|f gs IH]; intros Hfit; [split; reflexivity|].
  cbn [map] in Hfit. inversion Hfit as [|s ss Hf Hgs]; subst.
  destruct (IH Hgs) as [IHt IHb].
  cbn [map foldr]. rewrite IHt, IHb.
  unfold log_line. change (EmptyString +:+ ?s) with s.
  rewrite substring_fits by exact Hf.
  split; [reflexivity|]. rewrite (length_append (_ +:+ nl)), Nat2Z.inj_add. reflexivity.
Qed.

(** C9, amended: when the first filter of the collection has a state, the
    skip flag is clear and every line fits in the buffer of snprintf, the
    buffer of every request that an execution of [predict_log] issues is
    made of one line for each filter that has a state, in the order of the
    collection (which need not be the order of the identifiers), each line
    being the format applied to the time in seconds and nanoseconds, the
    identifier, the flag 1 and the three coordinates of the state, ended by
    a newline; the count of bytes of the request is the length of that
    text.  The codel returns as soon as the decimation is not 0. *)
Theorem log_write_lines (pred : arucotag_predictor F) (l : arucotag_log_s) (env : aio_env) :
  (nfilters pred <= 65535)%Z ->
  first_logged (filters pred) = true ->
  skipped l = false ->
  Forall (fun s => String.length s <= 511) (log_lines fmt (log_time env) (filters pred)) ->
  let text :=
    foldr String.append EmptyString
      (map (fun f => fmt (tv_sec (log_time env)) (tv_usec (log_time env) * 1000)%Z (id f) 1%Z
                       (Mat.at1 (state f) 0) (Mat.at1 (state f) 1) (Mat.at1 (state f) 2)
                     +:+ nl)
           (List.filter (fun f => negb (Mat.empty (state f))) (filters pred))) in
  (decimation l <> 0%Z ->
     exists l' tr, predict_log modulus fmt pred (Some l) env = Some (l', tr, arucotag_pause_main))
  /\ (forall l' tr ev n buf ret,
        predict_log modulus fmt pred (Some l) env = Some (l', tr, ev) ->
        In (aio_write n buf ret) tr ->
        buf = text /\ n = Z.of_nat (String.length text)).
Proof.
  intros Hsize Hfirst Hskip Hfit text.
  destruct (log_text_lines (log_time env) (filters pred) Hfit) as [Htext Hbytes].
  unfold text. clear text.
  assert (Hrun : forall l1 (tr1 : list (effect F)), log_poll modulus l env = Some (l1, tr1) ->
            exists l' tr,
              predict_log modulus fmt pred (Some l) env = Some (l', tr, arucotag_pause_main)
              /\ forall n buf ret, In (aio_write n buf ret) tr ->
                   buf = foldr String.append EmptyString
                           (log_lines fmt (log_time env) (filters pred))
                   /\ n = Z.of_nat (String.length (foldr String.append EmptyString
                           (log_lines fmt (log_time env) (filters pred))))).
  { intros l1 tr1 Hpoll.
    destruct (log_poll_frame l l1 tr1 env Hpoll) as (Hnow & Hbuf & Hsk).
    unfold predict_log. rewrite Hpoll.
    destruct ((0 <=? aio_fildes l1)%Z && negb (pending l1)) eqn:Hgo.
    - apply andb_true_iff in Hgo as [_ Hpend]. apply negb_true_iff in Hpend.
      rewrite log_loop_run by exact Hsize.
      cbn [skipped set_nbytes aio_nbytes buffer log_filled set_buffer].
      rewrite (Hsk Hpend), Hskip, Hfirst, Htext, Hbytes. cbn [String.append].
      assert (Hw : forall tail n buf ret,
                In (aio_write n buf ret)
                   (tr1 ++ aio_write (F := F)
                      (0 + Z.of_nat (String.length (foldr String.append EmptyString
                              (log_lines fmt (log_time env) (filters pred)))))
                      (foldr String.append EmptyString
                              (log_lines fmt (log_time env) (filters pred)))
                      (aio_write_result env) :: tail) ->
                (forall n' b' r', ~ In (aio_write n' b' r') tail) ->
                buf = foldr String.append EmptyString
                        (log_lines fmt (log_time env) (filters pred))
                /\ n = Z.of_nat (String.length (foldr String.append EmptyString
                        (log_lines fmt (log_time env) (filters pred))))).
      { intros tail n buf ret Hin Htail. apply in_app_iff in Hin as [Hin|[Heq|Hin]].
        - exfalso. exact (Hnow _ _ _ Hin).
        - injection Heq as <- <- _. split; [reflexivity|]. lia.
        - exfalso. exact (Htail _ _ _ Hin). }
      destruct (negb (aio_write_result env =? 0)%Z); eexists _, _; (split; [reflexivity|]);
        intros n buf ret Hin.
      + apply (Hw _ n buf ret Hin). intros n' b' r' [Heq|[Heq|[]]]; discriminate Heq.
      + apply (Hw _ n buf ret Hin). intros n' b' r' [].
    - eexists _, _. split; [reflexivity|]. intros n buf ret Hin.
      exfalso. exact (Hnow _ _ _ Hin). }
  split.
  - intros Hdec.
    assert (Hpoll : exists l1 tr1, log_poll (F := F) modulus l env = Some (l1, tr1)).
    { unfold log_poll. apply Z.eqb_neq in Hdec.
      destruct (0 <=? aio_fildes l)%Z; [|eauto].
      cbn [decimation set_total total pending]. rewrite Hdec.
      repeat match goal with |- context [if ?b then _ else _] => destruct b end; eauto. }
    destruct Hpoll as (l1 & tr1 & Hpoll).
    destruct (Hrun l1 tr1 Hpoll) as (l' & tr & Hp & _). eauto.
  - intros l' tr ev n buf ret Hp Hin.
    destruct (log_poll (F := F) modulus l env) as [[l1 tr1]|] eqn:Hpoll.
    + destruct (Hrun l1 tr1 eq_refl) as (l'' & tr' & Hp' & Hall).
      rewrite Hp' in Hp. injection Hp as <- <- <-. exact (Hall n buf ret Hin).
    + unfold predict_log in Hp. rewrite Hpoll in Hp. discriminate Hp.
Qed.

End LogLines.

(* C9, amended, on two markers that are tracked. *)
Lemma log_write_lines_witness :
  let pred0 := mkPred [Demo.tracked 5 1 2 3; Demo.unseen 7; Demo.tracked 2 4 5 6] [] []
                      (Mat.eye 6 6) in
  let text := ("100 0 5 1 1 2 3" +:+ nl) +:+ ("100 0 2 1 4 5 6" +:+ nl) in
  (decimation Demo.log0 <> 0%Z ->
     exists l' tr,
       predict_log Demo.modulus Demo.fmt pred0 (Some Demo.log0) Demo.disk_done
       = Some (l', tr, arucotag_pause_main))
  /\ (forall l' tr ev n buf ret,
        predict_log Demo.modulus Demo.fmt pred0 (Some Demo.log0) Demo.disk_done
        = Some (l', tr, ev) ->
        In (aio_write n buf ret) tr ->
        buf = text /\ n = Z.of_nat (String.length text)).
Proof.
  intros pred0 text.
  refine (log_write_lines Demo.modulus Demo.fmt pred0 Demo.log0 Demo.disk_done _ _ _ _).
  - vm_compute. discriminate.
  - reflexivity.
  - reflexivity.
  - repeat constructor; vm_compute; lia.
Defined.

(** C9 as it is stated does not hold: the lines follow the order of the
    collection of filters.  With the marker 5 before the marker 2 in the
    collection, the request holds the line of the marker 5, then the line
    of the marker 2. *)
Lemma log_lines_in_collection_order :
  let pred0 := mkPred [Demo.tracked 5 1 2 3; Demo.tracked 2 4 5 6] [] [] (Mat.eye 6 6) in
  exists l',
    predict_log Demo.modulus Demo.fmt pred0 (Some Demo.log0) Demo.disk_done
    = Some (l', [aio_write 32 (("100 0 5 1 1 2 3" +:+ nl) +:+ ("100 0 2 1 4 5 6" +:+ nl)) 0],
            arucotag_pause_main)
    /\ id <$> logged (filters pred0) = [5%Z; 2%Z]
    /\ ~ (5 <= 2)%Z.
Proof.
  cbv zeta. eexists. split; [vm_compute; reflexivity|].
  split; [reflexivity|]. lia.
Qed.

(** * Further properties of the codels *)

(** ** predict_wait *)

Section Wait.
Context {F : Type} `{Scalar F}.

(** X1: [predict_wait] yields [arucotag_main] exactly when the port
    [extrinsics] holds data and a detection is pending.  Otherwise it
    yields [arucotag_pause_wait], clears the reset and leaves the
    calibration and the predictor as they are.  When it yields
    [arucotag_main] it leaves the reset as it is and touches neither the
    intrinsic matrix K, nor the filters, nor the detections, nor the
    measurements. *)
Theorem predict_wait_decides (e : option (extrinsics_data F)) (cal : arucotag_calib F)
    (p : arucotag_predictor F) (r : bool) :
  let '(cal', p', r', ev) := predict_wait e cal p r in
  (ev = arucotag_main <-> e <> None /\ new_detections p <> [])
  /\ (ev <> arucotag_main ->
      ev = arucotag_pause_wait /\ cal' = cal /\ p' = p /\ r' = false)
  /\ (ev = arucotag_main ->
      r' = r /\ K cal' = K cal /\ filters p' = filters p
      /\ new_detections p' = new_detections p /\ meas p' = meas p).
Proof.
  unfold predict_wait. destruct e as [e|].
  - destruct (new_detections p) as [|d ds] eqn:Hnd; cbn [List.length Nat.eqb negb].
    + split; [split; [discriminate|intros [_ Hn]; contradiction]|].
      split; [auto|discriminate].
    + split; [split; [intros _; split; discriminate|reflexivity]|].
      split; [intros Hev; contradiction|]. intros _. cbn. rewrite Hnd. auto.
  - split; [split; [discriminate|intros [Hn _]; contradiction]|].
    split; [auto|discriminate].
Qed.

(* a matrix of 6 rows and 6 columns, row by row *)
Lemma has_shape_row_6 (row : list F) :
  List.length row = 6 -> exists a b c d e f, row = [a; b; c; d; e; f].
Proof.
  destruct row as [|a [|b [|c [|d [|e [|f [|]]]]]]]; try discriminate.
  intros _. eexists _, _, _, _, _, _. reflexivity.
Qed.

Lemma has_shape_6_6 (m : list (list F)) :
  has_shape 6 6 m = true ->
  exists r0 r1 r2 r3 r4 r5,
    m = [r0; r1; r2; r3; r4; r5]
    /\ Forall (fun row => List.length row = 6) [r0; r1; r2; r3; r4; r5].
Proof.
  unfold has_shape. intros Hm. apply andb_true_iff in Hm as [Hlen Hrows].
  destruct m as [|r0 [|r1 [|r2 [|r3 [|r4 [|r5 [|]]]]]]]; try discriminate Hlen.
  exists r0, r1, r2, r3, r4, r5. split; [reflexivity|].
  cbn [forallb] in Hrows.
  repeat (apply andb_true_iff in Hrows as [?%Nat.eqb_eq Hrows]).
  repeat constructor; assumption.
Qed.

(** X2: when [predict_wait] yields [arucotag_main] and the matrix C_T_B of
    the predictor has 6 rows and 6 columns, the codel stores the
    translation of the port as B_t_C and a matrix of 3 rows and 3 columns
    as B_R_C, and writes three blocks of C_T_B: the transpose of B_R_C in the upper left
    and in the lower right block, and in the upper right block the
    skew-symmetric matrix of the translation, with rows (0, -tz, ty),
    (tz, 0, -tx), (-ty, tx, 0).  The lower left block is not written: it
    holds what it held before. *)
Theorem predict_wait_twist_transform (e : extrinsics_data F) (cal : arucotag_calib F)
    (p : arucotag_predictor F) (r : bool) :
  has_shape 6 6 (C_T_B p) = true ->
  new_detections p <> [] ->
  exists cal' p',
    predict_wait (Some e) cal p r = (cal', p', r, arucotag_main)
    /\ B_t_C cal' = Mat.vec3 (trans_tx e) (trans_ty e) (trans_tz e)
    /\ has_shape 3 3 (B_R_C cal') = true
    /\ has_shape 6 6 (C_T_B p') = true
    /\ Mat.roi (C_T_B p') (Mat.mkRect 0 0 3 3) = Mat.t (B_R_C cal')
    /\ Mat.roi (C_T_B p') (Mat.mkRect 3 3 3 3) = Mat.t (B_R_C cal')
    /\ Mat.roi (C_T_B p') (Mat.mkRect 3 0 3 3)
       = ([ [ Mat.f0;       - trans_tz e; trans_ty e   ];
            [ trans_tz e;   Mat.f0;       - trans_tx e ];
            [ - trans_ty e; trans_tx e;   Mat.f0       ] ])%F
    /\ Mat.roi (C_T_B p') (Mat.mkRect 0 3 3 3) = Mat.roi (C_T_B p) (Mat.mkRect 0 3 3 3).
Proof.
  intros Hshape Hnd.
  destruct (has_shape_6_6 _ Hshape) as (r0 & r1 & r2 & r3 & r4 & r5 & HT & Hrows).
  repeat match goal with
         | Hr : Forall _ (_ :: _) |- _ => inversion Hr as [|? ? ?%has_shape_row_6 ?]; clear Hr; subst
         end.
  repeat match goal with
         | Hr : exists _, _ |- _ => destruct Hr as [? Hr]
         end.
  subst. unfold predict_wait.
  destruct (new_detections p) as [|d ds]; [contradiction|].
  cbn [List.length Nat.eqb negb]. rewrite HT.
  eexists _, _. split; [reflexivity|]. repeat split.
Qed.

End Wait.

(* X2 for the extrinsics of a camera 1 ahead of the centre of the vehicle
   and aligned with it. *)
Lemma predict_wait_twist_transform_witness :
  let e := mkExtrinsics 1%Q 0%Q 0%Q 0%Q 0%Q 0%Q in
  let p := mkPred [Demo.unseen 9] [9%Z] [Demo.measurement 1 2 4] (Mat.eye 6 6) in
  exists cal' p',
    predict_wait (Some e) Demo.calib0 p false = (cal', p', false, arucotag_main)
    /\ B_t_C cal' = Mat.vec3 (trans_tx e) (trans_ty e) (trans_tz e)
    /\ has_shape 3 3 (B_R_C cal') = true
    /\ has_shape 6 6 (C_T_B p') = true
    /\ Mat.roi (C_T_B p') (Mat.mkRect 0 0 3 3) = Mat.t (B_R_C cal')
    /\ Mat.roi (C_T_B p') (Mat.mkRect 3 3 3 3) = Mat.t (B_R_C cal')
    /\ Mat.roi (C_T_B p') (Mat.mkRect 3 0 3 3)
       = ([ [ Mat.f0;       - trans_tz e; trans_ty e   ];
            [ trans_tz e;   Mat.f0;       - trans_tx e ];
            [ - trans_ty e; trans_tx e;   Mat.f0       ] ])%F
    /\ Mat.roi (C_T_B p') (Mat.mkRect 0 3 3 3) = Mat.roi (C_T_B p) (Mat.mkRect 0 3 3 3).
Proof.
  intros e p.
  refine (predict_wait_twist_transform e Demo.calib0 p false _ _).
  - reflexivity.
  - discriminate.
Defined.

(** ** predict_main: what the loops keep *)

(* std::find gives the end of the vector exactly for a value that is not in
   the vector *)
Lemma find_none (v : list Z) (x : Z) : find v x = None <-> ~ In x v.
Proof.
  induction v as [|y v IH]; cbn [find In]; [tauto|].
  destruct (Z.eqb_spec y x) as [Heq|Hne].
  - split; [discriminate|]. intros Hn. exfalso. apply Hn. left. exact Heq.
  - destruct (find v x) eqn:Hf; cbn [option_map].
    + split; [discriminate|]. intros Hn. exfalso.
      assert (Hin : ~ In x v) by tauto. apply IH in Hin. discriminate Hin.
    + split; [|reflexivity]. intros _. assert (Hin : ~ In x v) by (apply IH; reflexivity).
      tauto.
Qed.

Section MainFrame.
Context {F : Type} `{Scalar F} `{OpenCV F}.
Variable period_ms : Q.
Variable length : F.
Variable calib : arucotag_calib F.
Variable gettimeofday : Z -> timeval.

(* an iteration keeps the identifier of its filter *)
Lemma updated_id (pred : arucotag_predictor F) (c : controls F) (f : filter F) :
  id (updated period_ms length calib pred c f) = id f.
Proof.
  unfold updated, update_filter.
  destruct (Mat.empty (state f)).
  - destruct (find _ _); reflexivity.
  - destruct (KF_predict _ _) as [kf3 st3].
    destruct (find _ _); [destruct (KF_correct _ _)|]; reflexivity.
Qed.

(* a filter without state whose marker is not detected is left as it is *)
Lemma updated_unseen (pred : arucotag_predictor F) (c : controls F) (f : filter F) :
  Mat.empty (state f) = true ->
  find (new_detections pred) (id f) = None ->
  updated period_ms length calib pred c f = f.
Proof.
  intros Hstate Hfind. unfold updated, update_filter. rewrite Hstate, Hfind. reflexivity.
Qed.

(** X3: an execution of [predict_main] on at most 65535 filters returns,
    with the reset set or not, and it neither adds, nor removes, nor
    reorders filters: the identifiers of the collection are afterwards what
    they were, in the same order.  It leaves the measurements and the
    matrix C_T_B, and it leaves as it is every filter that has no state and
    whose marker is not among the new detections. *)
Theorem predict_main_keeps_markers (reset : bool) (pred : arucotag_predictor F)
    (drone : option (drone_data F)) :
  (nfilters pred <= 65535)%Z ->
  exists pred' tr ev,
    predict_main period_ms reset length calib pred drone gettimeofday = Some (pred', tr, ev)
    /\ map id (filters pred') = map id (filters pred)
    /\ meas pred' = meas pred
    /\ C_T_B pred' = C_T_B pred
    /\ (forall i f, filters pred !! i = Some f ->
                    Mat.empty (state f) = true ->
                    ~ In (id f) (new_detections pred) ->
                    filters pred' !! i = Some f).
Proof.
  intros Hsize. destruct reset.
  - eexists _, _, _. split; [reflexivity|]. auto.
  - eexists _, _, _. split; [apply predict_main_run; [exact Hsize|reflexivity]|].
    cbn [filters meas C_T_B]. split.
    + rewrite map_map. apply map_ext. intros f. apply updated_id.
    + split; [reflexivity|]. split; [reflexivity|].
      intros i f Hf Hstate Hnd. rewrite lookup_map, Hf. cbn [option_map].
      rewrite updated_unseen; [reflexivity|exact Hstate|]. apply find_none. exact Hnd.
Qed.

(* the filters do not see a detection of another marker *)
Lemma update_filter_foreign (pred : arucotag_predictor F) (c : controls F) (f : filter F) :
  ~ In (id f) (new_detections pred) ->
  update_filter period_ms length calib pred c f
  = update_filter period_ms length calib (set_new_detections pred []) c f.
Proof.
  intros Hnd. apply find_none in Hnd. unfold update_filter.
  cbn [new_detections set_new_detections find]. rewrite Hnd. reflexivity.
Qed.

(** X4: a detection of a marker for which there is no filter is dropped.
    When no filter has the identifier of any of the new detections, an
    execution of [predict_main] without reset does what it does when there
    is no new detection at all: the same calls, the same writes, the same
    filters and the same event (no filter is created), and the detections
    are gone afterwards. *)
Theorem foreign_detections_dropped (pred : arucotag_predictor F)
    (drone : option (drone_data F)) :
  (forall f, In f (filters pred) -> ~ In (id f) (new_detections pred)) ->
  predict_main period_ms false length calib pred drone gettimeofday
  = predict_main period_ms false length calib (set_new_detections pred []) drone gettimeofday.
Proof.
  intros Hforeign.
  assert (Hc : get_control (set_new_detections pred []) drone = get_control pred drone)
    by (destruct drone; reflexivity).
  destruct (Z.le_gt_cases (nfilters pred) 65535) as [Hle|Hgt].
  - rewrite (predict_main_run period_ms length calib (get_control pred drone) gettimeofday
               pred drone Hle eq_refl).
    rewrite (predict_main_run period_ms length calib (get_control pred drone) gettimeofday
               (set_new_detections pred []) drone Hle (eq_sym Hc)).
    cbn [filters meas C_T_B set_new_detections].
    assert (Hupd : map (updated period_ms length calib pred (get_control pred drone))
                       (filters pred)
                   = map (updated period_ms length calib (set_new_detections pred [])
                            (get_control pred drone)) (filters pred)).
    { apply map_ext_in. intros f Hin. unfold updated.
      rewrite update_filter_foreign by (apply Hforeign; exact Hin). reflexivity. }
    rewrite Hupd. f_equal. f_equal. f_equal. f_equal. apply imap_ext. intros i f Hf.
    unfold iteration_effects, updated.
    rewrite update_filter_foreign; [reflexivity|].
    apply Hforeign. apply list_elem_of_In, (list_elem_of_lookup_2 _ i). exact Hf.
  - rewrite (predict_main_diverges period_ms length calib (get_control pred drone) gettimeofday
               pred drone Hgt eq_refl).
    rewrite (predict_main_diverges period_ms length calib (get_control pred drone) gettimeofday
               (set_new_detections pred []) drone Hgt (eq_sym Hc)).
    reflexivity.
Qed.

(* the number of writes of a loop is the number of filters with a state *)
Lemma published_count (c : controls F) (fs : list (filter F)) :
  forall g : nat -> nat,
    List.length (concat (imap (fun i f => published calib c gettimeofday (g i) f) fs))
    = List.length (logged fs).
Proof.
  induction fs as [|f fs IH]; intros g; [reflexivity|].
  cbn [imap concat]. rewrite length_app.
  change (imap ((fun i f0 => published calib c gettimeofday (g i) f0) ∘ Datatypes.S) fs)
    with (imap (fun i f0 => published calib c gettimeofday (g (Datatypes.S i)) f0) fs).
  rewrite (IH (fun i => g (Datatypes.S i))).
  unfold logged, published. cbn [List.filter].
  destruct (Mat.empty (state f)); reflexivity.
Qed.

Lemma all_empty_logged (fs : list (filter F)) : all_empty fs = true <-> logged fs = [].
Proof.
  unfold all_empty, logged. induction fs as [|f fs IH]; [tauto|].
  cbn [forallb List.filter]. destruct (Mat.empty (state f)); cbn [andb negb].
  - exact IH.
  - split; discriminate.
Qed.

(** X5: an execution of [predict_main] without reset yields [arucotag_log]
    exactly when it has written at least one pose to the port, and
    [arucotag_pause_main] otherwise; the number of poses it writes is the
    number of filters that have a state when it returns. *)
Theorem log_follows_publication (pred : arucotag_predictor F) (drone : option (drone_data F)) :
  (nfilters pred <= 65535)%Z ->
  exists pred' tr ev,
    predict_main period_ms false length calib pred drone gettimeofday = Some (pred', tr, ev)
    /\ (ev = arucotag_log <-> List.filter is_pose_write tr <> [])
    /\ (ev <> arucotag_log -> ev = arucotag_pause_main)
    /\ List.length (List.filter is_pose_write tr)
       = List.length (List.filter (fun f => negb (Mat.empty (state f))) (filters pred')).
Proof.
  intros Hsize.
  eexists _, _, _. split; [apply predict_main_run; [exact Hsize|reflexivity]|].
  cbn [filters]. rewrite pose_writes_of_loop.
  set (fs' := map _ (filters pred)).
  assert (Hcount : List.length (concat (imap (published calib (get_control pred drone)
                                                  gettimeofday) fs'))
                   = List.length (logged fs'))
    by exact (published_count (get_control pred drone) fs' (fun i => i)).
  pose proof (all_empty_logged fs') as Hall.
  unfold final_event. fold (logged fs').
  split; [|split; [|exact Hcount]].
  - destruct (all_empty fs') eqn:He.
    + assert (Hl : logged fs' = []) by (apply Hall; reflexivity).
      split; [discriminate|]. intros Hne. exfalso. apply Hne.
      apply length_zero_iff_nil. rewrite Hcount, Hl. reflexivity.
    + split; [|reflexivity]. intros _ Hnil.
      assert (Hl : logged fs' = []).
      { apply length_zero_iff_nil. rewrite <- Hcount, Hnil. reflexivity. }
      apply Hall in Hl. discriminate Hl.
  - destruct (all_empty fs'); [reflexivity|]. intros Hne. contradiction.
Qed.

(** X6: [predict_main] counts its filters with a counter of 16 bits.  It
    returns when the reset is set or when there are at most 65535 filters,
    and only then: with more filters the counter wraps around before it
    reaches the size of the collection and the first loop never ends. *)
Theorem predict_main_returns (reset : bool) (pred : arucotag_predictor F)
    (drone : option (drone_data F)) :
  (exists r, predict_main period_ms reset length calib pred drone gettimeofday = Some r)
  <-> reset = true \/ (nfilters pred <= 65535)%Z.
Proof.
  destruct reset.
  - split; [auto|]. intros _. eexists. reflexivity.
  - rewrite (predict_main_returns_iff period_ms length calib (get_control pred drone)
               gettimeofday pred drone eq_refl).
    split; [auto|]. intros [Hr|Hle]; [discriminate Hr|exact Hle].
Qed.

(** X7: a filter that has a state and whose marker is not among the new
    detections is predicted and not corrected: predict is the only call of
    its Kalman filter in the period, and the state and the Kalman filter it
    has afterwards are what predict gives.  predict is called with the
    control and the process covariance of the period; the control matrix is
    rebuilt from the state when the port [drone] holds data, and is the one
    of the period before when it does not. *)
Theorem undetected_marker_is_predicted (pred : arucotag_predictor F)
    (drone : option (drone_data F)) (i : nat) (f : filter F) :
  (nfilters pred <= 65535)%Z ->
  filters pred !! i = Some f ->
  Mat.empty (state f) = false ->
  ~ In (id f) (new_detections pred) ->
  let c := get_control pred drone in
  let kf_used :=
    set_processNoiseCov
      (match drone with
       | Some _ => set_controlMatrix (kf f) (control_matrix period_ms (state f))
       | None => kf f
       end) (process_cov c) in
  exists pred' tr ev,
    predict_main period_ms false length calib pred drone gettimeofday = Some (pred', tr, ev)
    /\ filters pred' !! i
       = Some (mkFilter (id f) (snd (KF_predict kf_used (control c)))
                        (fst (KF_predict kf_used (control c))))
    /\ List.filter (is_kalman_at i) tr = [kalman i kf_predict].
Proof.
  intros Hsize Hf Hstate Hnd c kf_used.
  assert (Hupd : update_filter period_ms length calib pred c f
                 = (mkFilter (id f) (snd (KF_predict kf_used (control c)))
                             (fst (KF_predict kf_used (control c))), [kf_predict])).
  { apply find_none in Hnd. unfold update_filter. rewrite Hstate, Hnd.
    replace (if negb (nostate c)
             then set_controlMatrix (kf f) (control_matrix period_ms (state f))
             else kf f)
      with (match drone with
            | Some _ => set_controlMatrix (kf f) (control_matrix period_ms (state f))
            | None => kf f
            end) by (unfold c; destruct drone; reflexivity).
    fold kf_used. destruct (KF_predict kf_used (control c)). reflexivity. }
  destruct (predict_main_at period_ms length calib gettimeofday pred drone i f Hsize Hf)
    as (pred' & tr & ev & Hrun & _ & _ & Hi & _ & Hcalls).
  fold c in Hi, Hcalls. unfold updated in Hi. rewrite Hupd in Hi, Hcalls.
  exists pred', tr, ev. auto.
Qed.

End MainFrame.

(* X3 on a marker never seen and a tracked marker that is detected again. *)
Lemma predict_main_keeps_markers_witness :
  let pred0 := mkPred [Demo.unseen 7; Demo.tracked 9 1 2 3] [9%Z] [Demo.measurement 1 2 4]
                      (Mat.eye 6 6) in
  exists pred' tr ev,
    predict_main Demo.period_ms false 1%Q Demo.calib0 pred0 (Some Demo.drone_at_rest) Demo.clock
    = Some (pred', tr, ev)
    /\ map id (filters pred') = map id (filters pred0)
    /\ meas pred' = meas pred0
    /\ C_T_B pred' = C_T_B pred0
    /\ (forall i f, filters pred0 !! i = Some f ->
                    Mat.empty (state f) = true ->
                    ~ In (id f) (new_detections pred0) ->
                    filters pred' !! i = Some f).
Proof.
  intros pred0.
  refine (predict_main_keeps_markers Demo.period_ms 1%Q Demo.calib0 Demo.clock false pred0
            (Some Demo.drone_at_rest) _).
  vm_compute. discriminate.
Defined.

(* X4 on a tracked marker 9 and a detection of the marker 5. *)
Lemma foreign_detections_dropped_witness :
  let pred0 := mkPred [Demo.tracked 9 1 2 3] [5%Z] [Demo.measurement 1 2 4] (Mat.eye 6 6) in
  predict_main Demo.period_ms false 1%Q Demo.calib0 pred0 (Some Demo.drone_at_rest) Demo.clock
  = predict_main Demo.period_ms false 1%Q Demo.calib0 (set_new_detections pred0 [])
      (Some Demo.drone_at_rest) Demo.clock.
Proof.
  intros pred0.
  refine (foreign_detections_dropped Demo.period_ms 1%Q Demo.calib0 Demo.clock pred0
            (Some Demo.drone_at_rest) _).
  intros f [<-|[]]. cbn. intros [Heq|[]]. discriminate Heq.
Defined.

(* X5 on a marker never seen and a tracked marker. *)
Lemma log_follows_publication_witness :
  let pred0 := mkPred [Demo.unseen 7; Demo.tracked 9 1 2 3] [] [] (Mat.eye 6 6) in
  exists pred' tr ev,
    predict_main Demo.period_ms false 1%Q Demo.calib0 pred0 (Some Demo.drone_at_rest) Demo.clock
    = Some (pred', tr, ev)
    /\ (ev = arucotag_log <-> List.filter is_pose_write tr <> [])
    /\ (ev <> arucotag_log -> ev = arucotag_pause_main)
    /\ List.length (List.filter is_pose_write tr)
       = List.length (List.filter (fun f => negb (Mat.empty (state f))) (filters pred')).
Proof.
  intros pred0.
  refine (log_follows_publication Demo.period_ms 1%Q Demo.calib0 Demo.clock pred0
            (Some Demo.drone_at_rest) _).
  vm_compute. discriminate.
Defined.

(* X7 on a tracked marker, without odometry. *)
Lemma undetected_marker_is_predicted_witness :
  let pred0 := mkPred [Demo.tracked 9 1 2 3] [5%Z] [Demo.measurement 1 2 4] (Mat.eye 6 6) in
  let f := Demo.tracked 9 1 2 3 in
  let c := get_control pred0 None in
  let kf_used := set_processNoiseCov (kf f) (process_cov c) in
  exists pred' tr ev,
    predict_main Demo.period_ms false 1%Q Demo.calib0 pred0 None Demo.clock
    = Some (pred', tr, ev)
    /\ filters pred' !! 0
       = Some (mkFilter (id f) (snd (KF_predict kf_used (control c)))
                        (fst (KF_predict kf_used (control c))))
    /\ List.filter (is_kalman_at 0) tr = [kalman 0 kf_predict].
Proof.
  intros pred0 f c kf_used.
  refine (undetected_marker_is_predicted Demo.period_ms 1%Q Demo.calib0 Demo.clock pred0
            None 0 f _ _ _ _).
  - vm_compute. discriminate.
  - reflexivity.
  - reflexivity.
  - cbn. intros [Heq|[]]. discriminate Heq.
Defined.

(** ** predict_log: the descriptor and the pending request *)

Section LogCodel.
Context {F : Type} `{Scalar F}.
Variable modulus : Z.
Variable fmt : Z -> Z -> Z -> Z -> F -> F -> F -> string.

(* The first part of the codel, for a decimation that is not 0. *)
Lemma log_poll_outcome (l : arucotag_log_s) (env : aio_env) :
  decimation l <> 0%Z ->
  exists l1 tr1,
    log_poll (F := F) modulus l env = Some (l1, tr1)
    /\ decimation l1 = decimation l
    /\ buffer l1 = buffer l
    /\ aio_nbytes l1 = aio_nbytes l
    /\ ((tr1 = [] /\ aio_fildes l1 = aio_fildes l)
        \/ (tr1 = [warn_log; close_fd (aio_fildes l)] /\ (0 <= aio_fildes l)%Z
            /\ aio_fildes l1 = (-1)%Z /\ pending l1 = false /\ (aio_return env <= 0)%Z))
    /\ (pending l1 = false -> pending l = false \/ aio_error_in_progress env = false)
    /\ (pending l = false -> pending l1 = false).
Proof.
  intros Hdec. apply Z.eqb_neq in Hdec. unfold log_poll.
  destruct (0 <=? aio_fildes l)%Z eqn:Hfd; [|eexists _, _; split; [reflexivity|]; auto 10].
  apply Z.leb_le in Hfd.
  cbn [decimation set_total total pending]. rewrite Hdec.
  destruct (_ mod _ =? 0)%Z; [|eexists _, _; split; [reflexivity|]; cbn; auto 10].
  destruct (pending l) eqn:Hpending; [|eexists _, _; split; [reflexivity|]; cbn; auto 10].
  destruct (aio_error_in_progress env) eqn:Hbusy; cbn [negb].
  - eexists _, _. split; [reflexivity|]. cbn. rewrite Hpending.
    repeat split; auto; discriminate.
  - destruct (aio_return env <=? 0)%Z eqn:Hret.
    + apply Z.leb_le in Hret. eexists _, _. split; [reflexivity|]. cbn.
      repeat split; auto 10; discriminate.
    + eexists _, _. split; [reflexivity|]. cbn. repeat split; auto; discriminate.
Qed.

(* The whole codel, from what its first part leaves. *)
Lemma predict_log_outcome (pred : arucotag_predictor F) (l l1 : arucotag_log_s)
    (tr1 : list (effect F)) (env : aio_env) :
  (nfilters pred <= 65535)%Z ->
  log_poll modulus l env = Some (l1, tr1) ->
  predict_log modulus fmt pred (Some l) env
  = Some (if (0 <=? aio_fildes l1)%Z && negb (pending l1) then
            let l2 := issued fmt pred l1 env in
            let w := aio_write (aio_nbytes l2) (buffer l2) (aio_write_result env) in
            if (aio_write_result env =? 0)%Z
            then (Some (set_skipped (set_pending l2 true) false), tr1 ++ [w],
                  arucotag_pause_main)
            else (Some (set_skipped (set_fildes l2 (-1)%Z) false),
                  tr1 ++ [w; warn_log; close_fd (aio_fildes l1)], arucotag_pause_main)
          else (Some l1, tr1, arucotag_pause_main)).
Proof.
  intros Hsize Hpoll. unfold predict_log. rewrite Hpoll.
  destruct ((0 <=? aio_fildes l1)%Z && negb (pending l1)); [|reflexivity].
  rewrite log_loop_run by exact Hsize.
  destruct (aio_write_result env =? 0)%Z; reflexivity.
Qed.

(* the codel returns, and keeps the decimation *)
Lemma predict_log_returns (pred : arucotag_predictor F) (l : arucotag_log_s) (env : aio_env) :
  (nfilters pred <= 65535)%Z ->
  decimation l <> 0%Z ->
  exists l' tr,
    predict_log modulus fmt pred (Some l) env = Some (Some l', tr, arucotag_pause_main)
    /\ decimation l' = decimation l.
Proof.
  intros Hsize Hdec.
  destruct (log_poll_outcome l env Hdec) as (l1 & tr1 & Hpoll & Hd & _).
  rewrite (predict_log_outcome pred l l1 tr1 env Hsize Hpoll).
  destruct (_ && _); [destruct (_ =? _)%Z|]; eexists _, _; (split; [reflexivity|exact Hd]).
Qed.

(* [predict_log] when logging is off *)
Lemma predict_log_off (pred : arucotag_predictor F) (log : option arucotag_log_s)
    (env : aio_env) :
  (forall l, log = Some l -> (aio_fildes l < 0)%Z) ->
  predict_log modulus fmt pred log env = Some (log, [], arucotag_pause_main).
Proof.
  intros Hoff. destruct log as [l|]; [|reflexivity].
  assert (Hfd : (0 <=? aio_fildes l)%Z = false) by (apply Z.leb_gt, Hoff; reflexivity).
  unfold predict_log, log_poll. rewrite Hfd. rewrite Hfd. reflexivity.
Qed.

(** X8: logging that is off stays off.  When there is no log, or when the
    descriptor of the log is negative, [predict_log] does nothing, period
    after period and whatever the filters and the answers of the system:
    no call of aio_write, no counter moved, the log left as it is.  This
    holds for a decimation of 0 and for any number of filters. *)
Theorem disabled_log_stays_silent (steps : list (arucotag_predictor F * aio_env))
    (log : option arucotag_log_s) :
  (forall l, log = Some l -> (aio_fildes l < 0)%Z) ->
  log_run modulus fmt steps log = Some (log, map (fun _ => []) steps).
Proof.
  intros Hoff. induction steps as [|[pred env] steps IH]; [reflexivity|].
  cbn [log_run map]. rewrite predict_log_off by exact Hoff. rewrite IH. reflexivity.
Qed.

(** X9: [predict_log] gives up the descriptor at most once, and for good.
    An execution either leaves the descriptor as it is, without a warning
    and without closing anything, or it ends with a warning and the closing
    of the descriptor the log had, which is then -1 in the log, with no
    request pending.  The second case happens only when the system reports
    a failure: a request that is over with a result that is not positive,
    or a call of aio_write that does not return 0. *)
Theorem log_descriptor_closed_once (pred : arucotag_predictor F) (l : arucotag_log_s)
    (env : aio_env) :
  (nfilters pred <= 65535)%Z ->
  decimation l <> 0%Z ->
  exists l' tr,
    predict_log modulus fmt pred (Some l) env = Some (Some l', tr, arucotag_pause_main)
    /\ ((aio_fildes l' = aio_fildes l /\ List.filter is_give_up tr = [])
        \/ ((0 <= aio_fildes l)%Z /\ aio_fildes l' = (-1)%Z /\ pending l' = false
            /\ List.filter is_give_up tr = [warn_log; close_fd (aio_fildes l)]
            /\ exists tr0, tr = tr0 ++ [warn_log; close_fd (aio_fildes l)]))
    /\ ((0 < aio_return env)%Z -> aio_write_result env = 0%Z ->
        aio_fildes l' = aio_fildes l).
Proof.
  intros Hsize Hdec.
  destruct (log_poll_outcome l env Hdec)
    as (l1 & tr1 & Hpoll & _ & _ & _ & Hcases & _ & _).
  rewrite (predict_log_outcome pred l l1 tr1 env Hsize Hpoll).
  destruct Hcases as [[-> Hfd]|(-> & Hpos & Hfd & Hpending & Hret)].
  - destruct ((0 <=? aio_fildes l1)%Z && negb (pending l1)) eqn:Hgo.
    + apply andb_true_iff in Hgo as [Hfd1 Hp1]. apply Z.leb_le in Hfd1.
      apply negb_true_iff in Hp1.
      destruct (aio_write_result env =? 0)%Z eqn:Hw; cbv zeta.
      * eexists _, _. split; [reflexivity|]. cbn. auto.
      * eexists _, _. split; [reflexivity|]. split.
        -- right. rewrite <- Hfd. split; [exact Hfd1|]. split; [reflexivity|].
           split; [exact Hp1|]. split; [reflexivity|].
           exists [aio_write (aio_nbytes (issued fmt pred l1 env))
                             (buffer (issued fmt pred l1 env)) (aio_write_result env)].
           reflexivity.
        -- intros _ Hw0. rewrite Hw0 in Hw. discriminate Hw.
    + eexists _, _. split; [reflexivity|]. cbn. auto.
  - rewrite Hfd. cbn [Z.leb andb].
    eexists _, _. split; [reflexivity|]. split.
    + right. repeat split; auto. exists []. reflexivity.
    + intros Hr. lia.
Qed.

(** X10: at most one request is outstanding.  An execution of [predict_log]
    calls aio_write at most once, and only with a descriptor that is not
    negative and when no request was pending or the pending request is no
    longer in progress.  An execution that does not call aio_write leaves
    the buffer and the count of bytes of the request as they are: while a
    request is in progress, its text is not touched. *)
Theorem single_outstanding_request (pred : arucotag_predictor F) (l : arucotag_log_s)
    (env : aio_env) :
  (nfilters pred <= 65535)%Z ->
  decimation l <> 0%Z ->
  exists l' tr,
    predict_log modulus fmt pred (Some l) env = Some (Some l', tr, arucotag_pause_main)
    /\ writes tr <= 1
    /\ (writes tr = 1 ->
        (0 <= aio_fildes l)%Z /\ (pending l = false \/ aio_error_in_progress env = false))
    /\ (writes tr = 0 -> buffer l' = buffer l /\ aio_nbytes l' = aio_nbytes l)
    /\ (pending l = true -> aio_error_in_progress env = true ->
        writes tr = 0 /\ pending l' = true).
Proof.
  intros Hsize Hdec.
  destruct (log_poll_outcome l env Hdec)
    as (l1 & tr1 & Hpoll & _ & Hbuf & Hn & Hcases & Hp1 & Hp0).
  rewrite (predict_log_outcome pred l l1 tr1 env Hsize Hpoll).
  assert (Hw1 : writes tr1 = 0) by (destruct Hcases as [[-> _]|[-> _]]; reflexivity).
  destruct ((0 <=? aio_fildes l1)%Z && negb (pending l1)) eqn:Hgo.
  - apply andb_true_iff in Hgo as [Hfd1 Hpend1]. apply Z.leb_le in Hfd1.
    apply negb_true_iff in Hpend1.
    assert (Hfd : (0 <= aio_fildes l)%Z).
    { destruct Hcases as [[_ <-]|(_ & Hpos & _)]; assumption. }
    assert (Hwr : forall tail, writes tail = 0 ->
              writes (tr1 ++ aio_write (F := F) (aio_nbytes (issued fmt pred l1 env))
                               (buffer (issued fmt pred l1 env)) (aio_write_result env)
                            :: tail) = 1).
    { intros tail Htail. unfold writes in *. rewrite List.filter_app, length_app, Hw1.
      cbn [List.filter is_write List.length]. rewrite Htail. reflexivity. }
    destruct (aio_write_result env =? 0)%Z; cbv zeta; eexists _, _;
      (split; [reflexivity|]); rewrite Hwr by reflexivity;
      (split; [lia|]); (split; [auto|]); (split; [discriminate|]);
      intros Hpending Hbusy; destruct (Hp1 Hpend1) as [Hc|Hc]; congruence.
  - eexists _, _. split; [reflexivity|]. rewrite Hw1.
    split; [lia|]. split; [discriminate|]. split; [auto|].
    intros Hpending Hbusy. split; [reflexivity|].
    destruct (pending l1) eqn:Hpend1; [reflexivity|].
    destruct (Hp1 eq_refl) as [Hc|Hc]; congruence.
Qed.

(** X11: a cycle that finds a request still in progress writes nothing and
    keeps the request pending.  It counts a missed cycle and sets the skip
    flag when the count of cycles has reached a multiple of the decimation,
    and only then: on the other cycles the count of cycles alone moves. *)
Theorem busy_cycle (pred : arucotag_predictor F) (l : arucotag_log_s) (env : aio_env) :
  (0 <= aio_fildes l)%Z ->
  decimation l <> 0%Z ->
  pending l = true ->
  aio_error_in_progress env = true ->
  let total' := ((total l + 1) mod modulus)%Z in
  let due := (total' mod decimation l =? 0)%Z in
  predict_log modulus fmt pred (Some l) env
  = Some (Some (mkLog (aio_fildes l) (aio_nbytes l) (buffer l) true
                      (if due then true else skipped l) (decimation l)
                      (if due then ((missed l + 1) mod modulus)%Z else missed l) total'),
          [], arucotag_pause_main).
Proof.
  intros Hfd Hdec Hpending Hbusy total' due.
  apply Z.leb_le in Hfd. apply Z.eqb_neq in Hdec.
  unfold predict_log, log_poll. rewrite Hfd.
  cbn [decimation set_total total pending]. rewrite Hdec. fold total'. fold due.
  destruct due.
  - rewrite Hpending, Hbusy. cbn [negb].
    cbn [aio_fildes set_missed set_skipped set_total pending].
    rewrite Hfd, Hpending. cbn [andb negb].
    unfold set_missed, set_skipped, set_total.
    cbn [aio_fildes aio_nbytes buffer pending skipped decimation missed total].
    rewrite Hpending. reflexivity.
  - cbn [aio_fildes set_total pending]. rewrite Hfd, Hpending. cbn [andb negb].
    unfold set_total. rewrite Hpending. reflexivity.
Qed.

End LogCodel.

(* X8 on a log whose descriptor was given up. *)
Lemma disabled_log_stays_silent_witness :
  let pred0 := mkPred [Demo.tracked 9 1 2 3] [] [] (Mat.eye 6 6) in
  let off := Some (mkLog (-1) 16 "100 0 9 1 1 2 3" false false 5 0 7)%Z in
  log_run Demo.modulus Demo.fmt [(pred0, Demo.disk_done); (pred0, Demo.disk_busy)] off
  = Some (off, map (fun _ => []) [(pred0, Demo.disk_done); (pred0, Demo.disk_busy)]).
Proof.
  intros pred0 off.
  refine (disabled_log_stays_silent Demo.modulus Demo.fmt _ off _).
  intros l [= <-]. reflexivity.
Defined.

(* X9 on a log that was just opened, on a disk that refuses the request. *)
Lemma log_descriptor_closed_once_witness :
  let pred0 := mkPred [Demo.tracked 9 1 2 3] [] [] (Mat.eye 6 6) in
  let env := mkAio false 1 (-1) (mkTimeval 100 0) in
  exists l' tr,
    predict_log Demo.modulus Demo.fmt pred0 (Some Demo.log0) env
    = Some (Some l', tr, arucotag_pause_main)
    /\ ((aio_fildes l' = aio_fildes Demo.log0 /\ List.filter is_give_up tr = [])
        \/ ((0 <= aio_fildes Demo.log0)%Z /\ aio_fildes l' = (-1)%Z /\ pending l' = false
            /\ List.filter is_give_up tr = [warn_log; close_fd (aio_fildes Demo.log0)]
            /\ exists tr0, tr = tr0 ++ [warn_log; close_fd (aio_fildes Demo.log0)]))
    /\ ((0 < aio_return env)%Z -> aio_write_result env = 0%Z ->
        aio_fildes l' = aio_fildes Demo.log0).
Proof.
  intros pred0 env.
  refine (log_descriptor_closed_once Demo.modulus Demo.fmt pred0 Demo.log0 env _ _).
  - vm_compute. discriminate.
  - discriminate.
Defined.

(* X10 on a log that was just opened. *)
Lemma single_outstanding_request_witness :
  let pred0 := mkPred [Demo.tracked 9 1 2 3] [] [] (Mat.eye 6 6) in
  exists l' tr,
    predict_log Demo.modulus Demo.fmt pred0 (Some Demo.log0) Demo.disk_done
    = Some (Some l', tr, arucotag_pause_main)
    /\ writes tr <= 1
    /\ (writes tr = 1 ->
        (0 <= aio_fildes Demo.log0)%Z
        /\ (pending Demo.log0 = false \/ aio_error_in_progress Demo.disk_done = false))
    /\ (writes tr = 0 -> buffer l' = buffer Demo.log0 /\ aio_nbytes l' = aio_nbytes Demo.log0)
    /\ (pending Demo.log0 = true -> aio_error_in_progress Demo.disk_done = true ->
        writes tr = 0 /\ pending l' = true).
Proof.
  intros pred0.
  refine (single_outstanding_request Demo.modulus Demo.fmt pred0 Demo.log0 Demo.disk_done _ _).
  - vm_compute. discriminate.
  - discriminate.
Defined.

(* X11 on the fifth cycle of a log whose first request is in progress. *)
Lemma busy_cycle_witness :
  let pred0 := mkPred [Demo.tracked 9 1 2 3] [] [] (Mat.eye 6 6) in
  let l := (mkLog 3 16 "100 0 9 1 1 2 3" true false 5 0 4)%Z in
  predict_log Demo.modulus Demo.fmt pred0 (Some l) Demo.disk_busy
  = Some (Some (mkLog 3 16 "100 0 9 1 1 2 3" true true 5 1 5)%Z, [], arucotag_pause_main).
Proof.
  intros pred0 l.
  refine (busy_cycle Demo.modulus Demo.fmt pred0 l Demo.disk_busy _ _ _ _).
  - vm_compute. discriminate.
  - discriminate.
  - reflexivity.
  - reflexivity.
Defined.

(** ** predict_log: the text of a request *)

Section RequestText.
Context {F : Type} `{Scalar F}.
Variable modulus : Z.
Variable fmt : Z -> Z -> Z -> Z -> F -> F -> F -> string.

(* the text of the lines, with the skip flag set or not, when they fit in
   the buffer of snprintf *)
Lemma log_text_fits (skip : bool) (tv : timeval) (fs : list (filter F)) :
  Forall (fun f => String.length (log_line fmt skip tv f) <= 511) (logged fs) ->
  log_text fmt skip tv fs
  = foldr String.append EmptyString (map (log_line fmt skip tv) (logged fs))
  /\ log_bytes fmt skip tv fs
     = Z.of_nat (String.length
                   (foldr String.append EmptyString (map (log_line fmt skip tv) (logged fs)))).
Proof.
  unfold log_text, log_bytes.
  induction (logged fs) as [|f gs IH]; intros Hfit; [split; reflexivity|].
  inversion Hfit as [|g gs' Hf Hgs]; subst.
  destruct (IH Hgs) as [IHt IHb].
  cbn [map foldr]. rewrite IHt, IHb, substring_fits by exact Hf.
  split; [reflexivity|]. rewrite length_append, Nat2Z.inj_add. reflexivity.
Qed.

(* the first part of the codel when no request is pending *)
Lemma log_poll_idle (l : arucotag_log_s) (env : aio_env) :
  (0 <= aio_fildes l)%Z ->
  decimation l <> 0%Z ->
  pending l = false ->
  log_poll (F := F) modulus l env = Some (set_total l ((total l + 1) mod modulus)%Z, []).
Proof.
  intros Hfd Hdec Hpending. apply Z.leb_le in Hfd. apply Z.eqb_neq in Hdec.
  unfold log_poll. rewrite Hfd. cbn [decimation set_total total pending].
  rewrite Hdec, Hpending. destruct (_ mod _ =? 0)%Z; reflexivity.
Qed.

(* the first part of the codel when the pending request is over *)
Lemma log_poll_over (l : arucotag_log_s) (env : aio_env) :
  (0 <= aio_fildes l)%Z ->
  decimation l <> 0%Z ->
  (((total l + 1) mod modulus) mod decimation l = 0)%Z ->
  pending l = true ->
  aio_error_in_progress env = false ->
  (0 < aio_return env)%Z ->
  log_poll (F := F) modulus l env
  = Some (set_pending (set_total l ((total l + 1) mod modulus)%Z) false, []).
Proof.
  intros Hfd Hdec Hdue Hpending Hdone Hret.
  apply Z.leb_le in Hfd. apply Z.eqb_neq in Hdec. apply Z.eqb_eq in Hdue.
  apply Z.leb_gt in Hret.
  unfold log_poll. rewrite Hfd. cbn [decimation set_total total pending].
  rewrite Hdec, Hdue, Hpending, Hdone. cbn [negb]. rewrite Hret. reflexivity.
Qed.

(** X12: the request that follows skipped cycles.  When a request was
    pending, cycles were skipped, and the cycle that the decimation selects
    finds the request over with a positive result, that cycle issues a new
    request.  If the first filter of the collection has a state and the
    lines fit in the buffer of snprintf, the text of the request has, for
    each filter that has a state, a newline, the line of the filter and a
    newline: there is an empty line before the line of every filter, not
    only before the first one.  The count of bytes is the length of that
    text, the skip flag is cleared and the count of missed cycles is
    kept. *)
Theorem write_after_skip_blank_lines (pred : arucotag_predictor F) (l : arucotag_log_s)
    (env : aio_env) :
  (nfilters pred <= 65535)%Z ->
  (0 <= aio_fildes l)%Z ->
  decimation l <> 0%Z ->
  (((total l + 1) mod modulus) mod decimation l = 0)%Z ->
  pending l = true ->
  skipped l = true ->
  aio_error_in_progress env = false ->
  (0 < aio_return env)%Z ->
  first_logged (filters pred) = true ->
  let line f :=
    nl +:+ fmt (tv_sec (log_time env)) (tv_usec (log_time env) * 1000)%Z (id f) 1%Z
             (Mat.at1 (state f) 0) (Mat.at1 (state f) 1) (Mat.at1 (state f) 2) +:+ nl in
  let shown := List.filter (fun f => negb (Mat.empty (state f))) (filters pred) in
  Forall (fun f => String.length (line f) <= 511) shown ->
  let text := foldr String.append EmptyString (map line shown) in
  exists l',
    predict_log modulus fmt pred (Some l) env
    = Some (Some l',
            aio_write (Z.of_nat (String.length text)) text (aio_write_result env)
            :: (if (aio_write_result env =? 0)%Z then []
                else [warn_log; close_fd (aio_fildes l)]),
            arucotag_pause_main)
    /\ buffer l' = text
    /\ skipped l' = false
    /\ missed l' = missed l.
Proof.
  intros Hsize Hfd Hdec Hdue Hpending Hskip Hdone Hret Hfirst line shown Hfit text.
  rewrite (predict_log_outcome modulus fmt pred l _ _ env Hsize
             (log_poll_over l env Hfd Hdec Hdue Hpending Hdone Hret)).
  cbn [aio_fildes pending set_pending set_total].
  apply Z.leb_le in Hfd. rewrite Hfd. cbn [andb negb]. cbv zeta.
  unfold issued, log_filled.
  cbn [skipped buffer aio_nbytes aio_fildes set_pending set_total set_nbytes set_buffer
       log_time].
  rewrite Hskip, Hfirst.
  destruct (log_text_fits true (log_time env) (filters pred) Hfit) as [Htext Hbytes].
  rewrite Htext, Hbytes. change (EmptyString +:+ ?s) with s. fold shown. 
  change (map (log_line fmt true (log_time env)) shown) with (map line shown). fold text.
  destruct (aio_write_result env =? 0)%Z; eexists; (split; [reflexivity|]);
    cbn; auto.
Qed.

(** X13: [predict_log] starts the text of a request anew only when the
    first filter of the collection has a state.  When it has none (or when
    there is no filter), a cycle that finds no request pending appends the
    lines of the filters that have a state to the text that the buffer
    holds, and issues a request whose count of bytes is the length of the
    new lines alone: the buffer grows from request to request, and what is
    written is its beginning.  (The lines are taken to fit in the buffer of
    snprintf; the skip flag is clear.) *)
Theorem unseen_first_marker_keeps_text (pred : arucotag_predictor F) (l : arucotag_log_s)
    (env : aio_env) :
  (nfilters pred <= 65535)%Z ->
  (0 <= aio_fildes l)%Z ->
  decimation l <> 0%Z ->
  pending l = false ->
  skipped l = false ->
  first_logged (filters pred) = false ->
  let line f :=
    fmt (tv_sec (log_time env)) (tv_usec (log_time env) * 1000)%Z (id f) 1%Z
        (Mat.at1 (state f) 0) (Mat.at1 (state f) 1) (Mat.at1 (state f) 2) +:+ nl in
  let shown := List.filter (fun f => negb (Mat.empty (state f))) (filters pred) in
  Forall (fun f => String.length (line f) <= 511) shown ->
  let text := foldr String.append EmptyString (map line shown) in
  exists l',
    predict_log modulus fmt pred (Some l) env
    = Some (Some l',
            aio_write (Z.of_nat (String.length text)) (buffer l +:+ text)
                      (aio_write_result env)
            :: (if (aio_write_result env =? 0)%Z then []
                else [warn_log; close_fd (aio_fildes l)]),
            arucotag_pause_main)
    /\ buffer l' = buffer l +:+ text
    /\ aio_nbytes l' = Z.of_nat (String.length text).
Proof.
  intros Hsize Hfd Hdec Hpending Hskip Hfirst line shown Hfit text.
  rewrite (predict_log_outcome modulus fmt pred l _ _ env Hsize
             (log_poll_idle l env Hfd Hdec Hpending)).
  cbn [aio_fildes pending set_total].
  apply Z.leb_le in Hfd. rewrite Hfd, Hpending. cbn [andb negb]. cbv zeta.
  unfold issued, log_filled.
  cbn [skipped buffer aio_nbytes aio_fildes set_total set_nbytes set_buffer log_time].
  rewrite Hskip, Hfirst.
  destruct (log_text_fits false (log_time env) (filters pred) Hfit) as [Htext Hbytes].
  rewrite Htext, Hbytes. fold shown.
  change (map (log_line fmt false (log_time env)) shown) with (map line shown). fold text.
  destruct (aio_write_result env =? 0)%Z; eexists; (split; [reflexivity|]);
    cbn; auto.
Qed.

End RequestText.

(* X12 on a tracked marker, at the tenth cycle of a log whose request of
   the first cycle was in progress at the fifth. *)
Lemma write_after_skip_blank_lines_witness :
  let pred0 := mkPred [Demo.tracked 9 1 2 3] [] [] (Mat.eye 6 6) in
  let l := (mkLog 3 16 ("100 0 9 1 1 2 3" +:+ nl) true true 5 1 9)%Z in
  let env := mkAio false 16 0 (mkTimeval 200 0) in
  let text := nl +:+ "200 0 9 1 1 2 3" +:+ nl in
  exists l',
    predict_log Demo.modulus Demo.fmt pred0 (Some l) env
    = Some (Some l', [aio_write 17 text 0], arucotag_pause_main)
    /\ buffer l' = text
    /\ skipped l' = false
    /\ missed l' = missed l.
Proof.
  intros pred0 l env text.
  refine (write_after_skip_blank_lines Demo.modulus Demo.fmt pred0 l env _ _ _ _ _ _ _ _ _ _).
  - vm_compute. discriminate.
  - vm_compute. discriminate.
  - discriminate.
  - reflexivity.
  - reflexivity.
  - reflexivity.
  - reflexivity.
  - reflexivity.
  - reflexivity.
  - vm_compute. constructor; [lia|constructor].
Defined.

(* X13 on a marker never seen followed by a tracked marker, with the text
   of an earlier request in the buffer. *)
Lemma unseen_first_marker_keeps_text_witness :
  let pred0 := mkPred [Demo.unseen 7; Demo.tracked 9 1 2 3] [] [] (Mat.eye 6 6) in
  let old := "100 0 9 1 1 2 3" +:+ nl in
  let l := (mkLog 3 16 old false false 5 0 5)%Z in
  let env := mkAio false 16 0 (mkTimeval 200 0) in
  let text := "200 0 9 1 1 2 3" +:+ nl in
  exists l',
    predict_log Demo.modulus Demo.fmt pred0 (Some l) env
    = Some (Some l', [aio_write 16 (old +:+ text) 0], arucotag_pause_main)
    /\ buffer l' = old +:+ text
    /\ aio_nbytes l' = 16%Z.
Proof.
  intros pred0 old l env text.
  refine (unseen_first_marker_keeps_text Demo.modulus Demo.fmt pred0 l env _ _ _ _ _ _ _).
  - vm_compute. discriminate.
  - vm_compute. discriminate.
  - discriminate.
  - reflexivity.
  - reflexivity.
  - reflexivity.
  - vm_compute. constructor; [lia|constructor].
Defined.

(** ** The task from period to period *)

Section Task.
Context {F : Type} `{Scalar F} `{OpenCV F}.
Variable period_ms : Q.
Variable modulus : Z.
Variable fmt : Z -> Z -> Z -> Z -> F -> F -> F -> string.


(** X15: once the task has reached [predict_main] it stays there as long as
    the reset is clear.  A period that resumes at [predict_main] without
    reset, on at most 65535 filters and with a decimation that is not 0,
    ends with the task resuming at [predict_main] again: [predict_wait] is
    not run, so that the port [extrinsics] is not read, and the
    calibration, the side of the markers and the matrix C_T_B are at the end
    of the period what they were at its beginning.  The number of filters
    and the decimation are kept, so that the same holds for the next
    period. *)
Theorem main_keeps_calibration (inp : inputs F) (s : ids F) :
  reset s = false ->
  (nfilters (pred s) <= 65535)%Z ->
  (forall l, log s = Some l -> decimation l <> 0%Z) ->
  exists s' tr,
    period period_ms modulus fmt at_main inp s = Some (s', tr, at_main)
    /\ reset s' = false
    /\ calib s' = calib s
    /\ length_ s' = length_ s
    /\ C_T_B (pred s') = C_T_B (pred s)
    /\ nfilters (pred s') = nfilters (pred s)
    /\ (forall l', log s' = Some l' -> decimation l' <> 0%Z).
Proof.
  intros Hreset Hsize Hdec. unfold period, run_main. rewrite Hreset.
  rewrite (predict_main_run period_ms (length_ s) (calib s) (get_control (pred s) (drone inp))
             (gettimeofday inp) (pred s) (drone inp) Hsize eq_refl).
  set (pred' := mkPred _ _ _ _).
  assert (Hsize' : (nfilters pred' <= 65535)%Z)
    by (unfold nfilters, pred'; cbn [filters]; rewrite length_map; exact Hsize).
  assert (Hn : nfilters pred' = nfilters (pred s))
    by (unfold nfilters, pred'; cbn [filters]; rewrite length_map; reflexivity).
  unfold final_event. destruct (all_empty _).
  - eexists _, _. split; [reflexivity|]. cbn [reset calib length_ pred log]. auto 10.
  - destruct (log s) as [l|] eqn:Hlog.
    + destruct (predict_log_returns modulus fmt pred' l (aio inp) Hsize' (Hdec l eq_refl))
        as (l' & tr' & Hrun & Hd).
      rewrite Hrun. eexists _, _. split; [reflexivity|]. cbn [reset calib length_ pred log].
      do 5 (split; [auto|]). intros l'' [= <-]. rewrite Hd. apply Hdec. reflexivity.
    + cbn [predict_log]. eexists _, _. split; [reflexivity|].
      cbn [reset calib length_ pred log]. do 5 (split; [auto|]). discriminate.
Qed.

End Task.


(* X15 on a tracked marker and a log that was just opened. *)
Lemma main_keeps_calibration_witness :
  let s0 := mkIds false 1%Q Demo.calib0
              (mkPred [Demo.tracked 9 1 2 3] [9%Z] [Demo.measurement 4 5 6] (Mat.eye 6 6))
              (Some Demo.log0) in
  let inp0 := mkInputs (Some (mkExtrinsics 1%Q 0%Q 0%Q 0%Q 0%Q 0%Q))
                (Some Demo.drone_at_rest) Demo.clock Demo.disk_done in
  exists s' tr,
    period Demo.period_ms Demo.modulus Demo.fmt at_main inp0 s0 = Some (s', tr, at_main)
    /\ reset s' = false
    /\ calib s' = calib s0
    /\ length_ s' = length_ s0
    /\ C_T_B (pred s') = C_T_B (pred s0)
    /\ nfilters (pred s') = nfilters (pred s0)
    /\ (forall l', log s' = Some l' -> decimation l' <> 0%Z).
Proof.
  intros s0 inp0.
  refine (main_keeps_calibration Demo.period_ms Demo.modulus Demo.fmt inp0 s0 _ _ _).
  - reflexivity.
  - vm_compute. discriminate.
  - intros l [= <-]. discriminate.
Defined.

(** ** The detections of a marker *)

(* std::find stops at the first occurrence *)
Lemma find_app_first (pre post : list Z) (x : Z) :
  ~ In x pre -> find (pre ++ x :: post) x = Some (List.length pre).
Proof.
  induction pre as [|y pre IH]; intros Hpre.
  - cbn [app find List.length]. rewrite Z.eqb_refl. reflexivity.
  - cbn [app find List.length].
    assert (Hne : (y =? x)%Z = false) by (apply Z.eqb_neq; intros Heq; apply Hpre; left; exact Heq).
    rewrite Hne, IH; [reflexivity|]. intros Hin. apply Hpre. right. exact Hin.
Qed.

Section Duplicates.
Context {F : Type} `{Scalar F} `{OpenCV F}.
Variable period_ms : Q.
Variable length : F.
Variable calib : arucotag_calib F.

(** X16: when the identifier of a marker is listed more than once among
    the new detections, the measurement that goes with its first
    occurrence is the one that is used, to initialise the filter as well as
    to correct it, and what follows the first occurrence has no effect on
    the filter.  For a filter without state, the state it gets is the
    position of the measurement at the index of the first occurrence. *)
Theorem first_listed_detection_is_used (fs : list (filter F)) (ms : list (list (list F)))
    (T : list (list F)) (c : controls F) (f : filter F) (pre post : list Z) :
  ~ In (id f) pre ->
  update_filter period_ms length calib (mkPred fs (pre ++ id f :: post) ms T) c f
  = update_filter period_ms length calib (mkPred fs (pre ++ [id f]) ms T) c f
  /\ (Mat.empty (state f) = true ->
      state (updated period_ms length calib (mkPred fs (pre ++ id f :: post) ms T) c f)
      = Mat.roi (nth (List.length pre) ms []) (Mat.mkRect 0 0 1 3)).
Proof.
  intros Hpre. unfold updated, update_filter. cbn [new_detections].
  rewrite !find_app_first by exact Hpre. split; [reflexivity|].
  intros Hstate. rewrite Hstate. reflexivity.
Qed.

End Duplicates.

(* X16 on a marker never seen that is listed twice, after another marker. *)
Lemma first_listed_detection_is_used_witness :
  let f := Demo.unseen 9 in
  let ms := [Demo.measurement 0 0 1; Demo.measurement 1 2 3; Demo.measurement 4 5 6] in
  let c := get_control (mkPred [f] [] ms (Mat.eye 6 6)) None in
  update_filter Demo.period_ms 1%Q Demo.calib0 (mkPred [f] ([5%Z] ++ id f :: [9%Z]) ms (Mat.eye 6 6))
    c f
  = update_filter Demo.period_ms 1%Q Demo.calib0 (mkPred [f] ([5%Z] ++ [id f]) ms (Mat.eye 6 6)) c f
  /\ (Mat.empty (state f) = true ->
      state (updated Demo.period_ms 1%Q Demo.calib0
               (mkPred [f] ([5%Z] ++ id f :: [9%Z]) ms (Mat.eye 6 6)) c f)
      = Mat.roi (nth (List.length [5%Z]) ms []) (Mat.mkRect 0 0 1 3)).
Proof.
  intros f ms c.
  refine (first_listed_detection_is_used Demo.period_ms 1%Q Demo.calib0 [f] ms (Mat.eye 6 6) c f
            [5%Z] [9%Z] _).
  cbn. intros [Heq|[]]. discriminate Heq.
Defined.

(** ** The Jacobian of the measurement *)

Section JacobianRows.
Context {F : Type} `{Scalar F}.

(** X17: the rotation of the marker enters the matrix J of the measurement
    covariance through the projected corners alone.  For an intrinsic
    matrix K of 3 rows and 3 columns, the two rows of J for a corner p are
    the Jacobian of the pixelization at K (R p + t) times K: the block
    -K R [p]x that the loop stores in the right half of J_proj does not
    reach J, of which only the three translational columns are kept. *)
Theorem jacobian_rows_from_translation (length : F) (calib : arucotag_calib F)
    (R tr : list (list F)) :
  has_shape 3 3 (K calib) = true ->
  jacobian_J length calib R tr
  = concat (map (fun s =>
                   let p := corner length s in
                   Mat.mul (pixel_jacobian (Mat.mul (K calib) (Mat.add (Mat.mul R p) tr)))
                           (K calib))
                corner_signs).
Proof.
  intros HK. rewrite jacobian_J_stacked by exact HK. unfold stacked_jacobian.
  f_equal. apply map_ext. intros s. apply corner_rows_translation. exact HK.
Qed.

End JacobianRows.

(* X17 on the camera of the examples and a marker of side 1 seen at
   (1, 2, 4) without rotation. *)
Lemma jacobian_rows_from_translation_witness :
  let R := Mat.eye 3 3 in
  let tr := Mat.vec3 1%Q 2%Q 4%Q in
  jacobian_J 1%Q Demo.calib0 R tr
  = concat (map (fun s =>
                   let p := corner 1%Q s in
                   Mat.mul (pixel_jacobian (Mat.mul (K Demo.calib0) (Mat.add (Mat.mul R p) tr)))
                           (K Demo.calib0))
                corner_signs).
Proof.
  intros R tr.
  exact (jacobian_rows_from_translation 1%Q Demo.calib0 R tr eq_refl).
Defined.

(** ** Exact arithmetic *)

Section Exact.
Local Open Scope Q_scope.

(* matrices of rational numbers, equal entry by entry *)
Lemma Q_matrix_trans (A B C : list (list Q)) :
  Forall2 (Forall2 Qeq) A B -> Forall2 (Forall2 Qeq) B C -> Forall2 (Forall2 Qeq) A C.
Proof.
  intros HAB. revert C. induction HAB as [|a b A B Hab HAB IH]; intros C HBC.
  - inversion HBC. constructor.
  - inversion HBC as [|b' c B' C' Hbc HBC']; subst. constructor; [|apply IH; exact HBC'].
    clear - Hab Hbc. revert c Hbc. induction Hab as [|x y a b Hxy Hab IH]; intros c Hbc.
    + inversion Hbc. constructor.
    + inversion Hbc as [|y' z b' c' Hyz Hbc']; subst. constructor; [|apply IH; exact Hbc'].
      rewrite Hxy. exact Hyz.
Qed.

(* the product of the transpose of a 3x3 matrix and the matrix *)
Lemma Q_product_3_3 (a b c d e f g h i a' b' c' d' e' f' g' h' i' : Q) :
  a == a' -> b == b' -> c == c' -> d == d' -> e == e' -> f == f' -> g == g' -> h == h' ->
  i == i' ->
  let R := [[a; b; c]; [d; e; f]; [g; h; i]] in
  Forall2 (Forall2 Qeq) (Mat.mul (Mat.t R) R)
    [ [ a'*a' + d'*d' + g'*g'; a'*b' + d'*e' + g'*h'; a'*c' + d'*f' + g'*i' ];
      [ b'*a' + e'*d' + h'*g'; b'*b' + e'*e' + h'*h'; b'*c' + e'*f' + h'*i' ];
      [ c'*a' + f'*d' + i'*g'; c'*b' + f'*e' + i'*h'; c'*c' + f'*f' + i'*i' ] ].
Proof.
  intros Ha Hb Hc Hd He Hf Hg Hh Hi R. unfold R, Mat.mul, Mat.t, Mat.colv.
  cbn [concat app nth map seq Mat.cols List.length Mat.dot zip zip_with fold_left fst snd].
  unfold Mat.f0. cbn [lit fadd fmul Demo.Q_scalar].
  repeat constructor; rewrite ?Qred_correct, ?Ha, ?Hb, ?Hc, ?Hd, ?He, ?Hf, ?Hg, ?Hh, ?Hi; ring.
Qed.

(** X18: in exact arithmetic, the control matrix that [predict_main] builds
    for a filter whose state is the position (x, y, z) maps the twist
    (v, w) of the camera to -dt (v + w x (x, y, z)), where dt is the period
    in seconds: the displacement, in the frame of the camera, of a point
    that does not move while the camera moves.  (The rows of the matrix as
    the code has them are (-dt, 0, 0, 0, -dt z, dt y), (0, -dt, 0, dt z, 0,
    -dt x) and (0, 0, -dt, -dt y, dt x, 0).) *)
Theorem control_matrix_exact (dt_ms x y z vx vy vz wx wy wz : Q) :
  let dt := dt_ms / 1000 in
  Forall2 (Forall2 Qeq)
    (Mat.mul (control_matrix dt_ms (Mat.vec3 x y z)) [[vx]; [vy]; [vz]; [wx]; [wy]; [wz]])
    [ [ - dt * (vx + (wy * z - wz * y)) ];
      [ - dt * (vy + (wz * x - wx * z)) ];
      [ - dt * (vz + (wx * y - wy * x)) ] ].
Proof.
  intros dt. unfold dt.
  unfold control_matrix, Mat.mul, Mat.vec3, Mat.at1.
  cbn [concat app nth map seq Mat.cols List.length Mat.colv Mat.dot zip zip_with fold_left
       fst snd].
  unfold Mat.f0, Mat.f1. cbn [lit fadd fsub fmul fdiv fneg Demo.Q_scalar].
  repeat constructor; rewrite ?Qred_correct; field.
Qed.

(** X19: in exact arithmetic, the matrix W_R_B that [predict_main] builds
    from the attitude of the vehicle is orthogonal when the quaternion has
    norm 1: the product of its transpose and the matrix is the identity.
    The transpose, which the codel takes as B_R_W, is then the inverse
    rotation. *)
Theorem world_rotation_orthogonal (pred : arucotag_predictor Q) (d : drone_data Q) :
  att_qw d * att_qw d + att_qx d * att_qx d + att_qy d * att_qy d + att_qz d * att_qz d == 1 ->
  let R := W_R_B (get_control pred (Some d)) in
  Forall2 (Forall2 Qeq) (Mat.mul (Mat.t R) R) [ [1; 0; 0]; [0; 1; 0]; [0; 0; 1] ].
Proof.
  intros Hunit R. unfold R. clear R.
  destruct d as [px py pz qw qx qy qz vx vy vz wx wy wz vc wc].
  cbn [att_qw att_qx att_qy att_qz] in Hunit.
  cbn [get_control W_R_B att_qw att_qx att_qy att_qz].
  assert (Hw : qw * qw == 1 - qx * qx - qy * qy - qz * qz).
  { rewrite <- Hunit. ring. }
  eapply Q_matrix_trans; [apply Q_product_3_3|];
    try (unfold Mat.f1; cbn [lit fadd fsub fmul Demo.Q_scalar]; rewrite ?Qred_correct;
         reflexivity).
  repeat constructor; ring_simplify; rewrite ?Hw; ring.
Qed.

(* the sum of products of a matrix product, without the reductions to
   lowest terms *)
Lemma Q_dot_exact (u u' : list Q) :
  Forall2 Qeq u u' ->
  forall v v', Forall2 Qeq v v' ->
  Mat.dot u v == fold_left (fun acc ab => acc + fst ab * snd ab) (zip u' v') 0.
Proof.
  unfold Mat.dot. change (@Mat.f0 Q _) with 0.
  assert (Hgen : forall acc acc', acc == acc' ->
            Forall2 Qeq u u' -> forall v v', Forall2 Qeq v v' ->
            fold_left (fun acc ab => (acc + fst ab * snd ab)%F) (zip u v) acc
            == fold_left (fun acc ab => acc + fst ab * snd ab) (zip u' v') acc').
  { intros acc acc' Hacc Hu. revert acc acc' Hacc.
    induction Hu as [|x x' u u' Hx Hu IH]; intros acc acc' Hacc v v' Hv.
    - exact Hacc.
    - destruct Hv as [|y y' v v' Hy Hv]; [exact Hacc|].
      cbn [zip_with fold_left fst snd]. apply IH; [|exact Hv].
      cbn [fadd fmul Demo.Q_scalar]. rewrite !Qred_correct, Hacc, Hx, Hy. reflexivity. }
  intros Hu v v' Hv. apply Hgen; [reflexivity|exact Hu|exact Hv].
Qed.

Lemma Q_list_refl (u : list Q) : Forall2 Qeq u u.
Proof. induction u; constructor; [reflexivity|assumption]. Qed.

(* the product of a matrix, of the matrix of two equal diagonal blocks and
   of a twist, row by row *)
Lemma Q_twist_rows (T : list (list Q)) (a b c d e f g h i vx vy vz wx wy wz : Q) :
  let R := [[a; b; c]; [d; e; f]; [g; h; i]] in
  let B := Mat.copyTo_roi (Mat.t R) (Mat.copyTo_roi (Mat.t R) (Mat.eye 6 6) (Mat.mkRect 0 0 3 3))
             (Mat.mkRect 3 3 3 3) in
  Forall2 (Forall2 Qeq)
    (Mat.mul (Mat.mul T B) [[vx]; [vy]; [vz]; [wx]; [wy]; [wz]])
    (Mat.mul T (Mat.mul (Mat.t R) [[vx]; [vy]; [vz]] ++ Mat.mul (Mat.t R) [[wx]; [wy]; [wz]])).
Proof.
  intros R B.
  assert (HB : B = [ [a; d; g; 0; 0; 0]; [b; e; h; 0; 0; 0]; [c; f; i; 0; 0; 0];
                     [0; 0; 0; a; d; g]; [0; 0; 0; b; e; h]; [0; 0; 0; c; f; i] ])
    by reflexivity.
  rewrite HB. clear HB B. unfold R. clear R.
  induction T as [|r T IH]; [constructor|].
  cbn [Mat.mul map]. constructor; [|exact IH].
  unfold Mat.t, Mat.mul, Mat.colv.
  cbn [concat app nth map seq Mat.cols List.length].
  constructor; [|constructor].
  etransitivity.
  { apply Q_dot_exact; [|apply Q_list_refl].
    repeat (constructor; [apply Q_dot_exact; apply Q_list_refl|]). constructor. }
  symmetry. etransitivity.
  { apply Q_dot_exact; [apply Q_list_refl|].
    repeat (constructor; [apply Q_dot_exact; apply Q_list_refl|]). constructor. }
  destruct r as [|r0 [|r1 [|r2 [|r3 [|r4 [|r5 r']]]]]];
    cbn [zip_with fold_left fst snd]; rewrite ?zip_with_nil_r; cbn [zip_with fold_left fst snd];
    ring.
Qed.

(** X20: in exact arithmetic, the control that [predict_main] gives to
    predict when the port [drone] holds data is the matrix C_T_B applied to
    the twist of the vehicle in the frame of the vehicle: the linear
    velocity and the angular velocity of the port, each multiplied by the
    transpose of W_R_B.  The matrix B_T_W of the codel, the identity of
    size 6 with the transpose of W_R_B copied in its two diagonal blocks,
    mixes the two velocities with nothing else. *)
Theorem control_in_body_frame (pred : arucotag_predictor Q) (d : drone_data Q) :
  let c := get_control pred (Some d) in
  let v := [[vel_vx d]; [vel_vy d]; [vel_vz d]] in
  let w := [[avel_wx d]; [avel_wy d]; [avel_wz d]] in
  Forall2 (Forall2 Qeq) (control c)
    (Mat.mul (C_T_B pred) (Mat.mul (Mat.t (W_R_B c)) v ++ Mat.mul (Mat.t (W_R_B c)) w)).
Proof.
  destruct d as [px py pz qw qx qy qz vx vy vz wx wy wz vc wc].
  cbn [get_control control W_R_B att_qw att_qx att_qy att_qz vel_vx vel_vy vel_vz
       avel_wx avel_wy avel_wz].
  apply Q_twist_rows.
Qed.

End Exact.

(* X19 on a vehicle turned about its vertical axis: the quaternion
   (3/5, 0, 0, 4/5). *)
Lemma world_rotation_orthogonal_witness :
  let d := (mkDrone 0 0 0 (3 # 5) 0 0 (4 # 5) 0 0 0 0 0 0 Demo.cov0 Demo.cov0)%Q in
  let R := W_R_B (get_control (mkPred [] [] [] (Mat.eye 6 6)) (Some d)) in
  Forall2 (Forall2 Qeq) (Mat.mul (Mat.t R) R) [ [1; 0; 0]; [0; 1; 0]; [0; 0; 1] ]%Q.
Proof.
  intros d.
  refine (world_rotation_orthogonal (mkPred [] [] [] (Mat.eye 6 6)) d _).
  reflexivity.
Defined.
